(** * A shallow embedding of the agent framework (package [agents])

    Part I follows the Python sources file by file:

    - [Py]           the Python values, exceptions and outcomes the code handles;
    - [HistoryUtil]  [agents/utils/history_util.py], class [MessageHistory];
    - [Coro]         awaited coroutines as functions on a world, with
                     [try], [finally], comprehensions and [asyncio.gather];
    - [ToolUtil]     [agents/utils/tool_util.py], the tool dispatcher;
    - [Connections]  [agents/utils/connections.py], the MCP connections
                     and the exit stack of a run;
    - [AgentPy]      [agents/agent.py], the request parameters and the
                     points of the agent's loop;
    - [Store]        [MessageHistory.format_for_api] on an object store,
                     where lists and dictionaries are shared by reference;
    - [Scenarios]    the concrete histories, registries, servers and
                     stores the properties are evaluated on;
    - [McpTool]      [agents/tools/mcp_tool.py], [MCPTool.execute];
    - [AgentLoop]    the loop of [_agent_loop] on a script of replies;
    - [Registry]     the registry that a run builds from its tools;
    - [Aio]          tasks: coroutines with their suspension points, and
                     the signals that derive from [BaseException] only;
    - [ToolUtilAio], [McpToolAio], [ConnectionsAio]
                     the dispatcher, the MCP tool and the connections on
                     tasks, with the unpacking of arguments and the
                     construction of contexts that can fail;
    - [Cases]        further inputs.

    Part II proves the properties, one module of facts per subject. *)

From stdpp Require Import gmap strings list fin_maps pretty.
From Stdlib Require Import ZArith Lia.

Local Open Scope Z_scope.
Set Warnings "-register-all".

(* ===================================================================== *)
(** * Part I: the model *)
(* ===================================================================== *)

Module Py.

(** Python values as the framework passes them around: JSON-like data.
    A [float] is carried by its literal, no arithmetic is done on one.
    Dictionaries with string keys are finite maps. *)
Inductive pyval : Type :=
| VNone
| VBool (b : bool)
| VInt (z : Z)
| VFloat (literal : string)
| VStr (s : string)
| VList (xs : list pyval)
| VDict (d : gmap string pyval).

(** The exception classes the code names or that its operations raise.
    Every class here derives from [Exception]; [Other] stands for any
    further subclass of [Exception], by its class name.  The classes
    that derive from [BaseException] only are in [Aio.signal]. *)
Inductive exn_class : Type :=
| KeyError
| IndexError
| TypeError
| AttributeError
| ValueError
| NotImplementedError
| Other (name : string).

(** An exception instance: its class and [str(e)]. *)
Record exn : Type := Exn { exn_cls : exn_class; exn_str : string }.

(** [isinstance(e, KeyError)], the test of an [except KeyError] clause. *)
Definition is_KeyError (e : exn) : bool :=
  match exn_cls e with KeyError => true | _ => false end.

(** The outcome of running a statement: it completes with a value or
    raises.  [OutOfFuel] belongs to the model only: a loop unrolled
    fewer times than it iterates. *)
Inductive exec (A : Type) : Type :=
| Done (a : A)
| Raised (e : exn)
| OutOfFuel.
Arguments Done {A} a.
Arguments Raised {A} e.
Arguments OutOfFuel {A}.

(** The outcome of a call that ends: it returns a value or raises. *)
Inductive outcome (A : Type) : Type :=
| Returns (a : A)
| Raises (e : exn).
Arguments Returns {A} a.
Arguments Raises {A} e.

(** [list.pop(0)]: [None] stands for the [IndexError] of an empty list. *)
Definition pop0 {A : Type} (l : list A) : option (A * list A) :=
  match l with
  | [] => None
  | x :: rest => Some (x, rest)
  end.

(** Truth value of a list: [if xs:]. *)
Definition truthy {A : Type} (l : list A) : bool :=
  match l with [] => false | _ :: _ => true end.

End Py.

(* --------------------------------------------------------------------- *)
(** ** agents/utils/history_util.py *)
(* --------------------------------------------------------------------- *)

Module HistoryUtil.
Import Py.

(** A content block is a [dict[str, Any]]. *)
Abbreviation block := (gmap string pyval).

(** A message is the dictionary [{"role": ..., "content": ...}]. *)
Record message : Type := Message {
  role : string;
  content : list block
}.

(** The [usage] object of an API response.  The two cache counters are
    read with [getattr(usage, name, 0)]: [None] is an absent attribute;
    a counter that is present with the value [None] is not modelled. *)
Record Usage : Type := MkUsage {
  input_tokens : Z;
  output_tokens : Z;
  cache_read_input_tokens : option Z;
  cache_creation_input_tokens : option Z
}.

(** The fields of [MessageHistory].  [client] is used by [__init__]
    alone and is left out. *)
Record MessageHistory : Type := MkHistory {
  model : string;
  system : string;
  context_window_tokens : Z;
  messages : list message;
  total_tokens : Z;
  enable_caching : bool;
  message_tokens : list (Z * Z)
}.

(** [__init__]: [system_token] is what the token count of the system
    prompt evaluated to, an integer when the client counts it (the
    fallback [len(self.system) / 4] is a float, which is not modelled). *)
Definition init (model system : string) (context_window_tokens : Z)
    (system_token : Z) (enable_caching : bool) : MessageHistory :=
  {| model := model; system := system;
     context_window_tokens := context_window_tokens;
     messages := []; total_tokens := system_token;
     enable_caching := enable_caching; message_tokens := [] |}.

Definition text_block (s : string) : block :=
  {[ "type" := VStr "text"; "text" := VStr s ]}.

(** [getattr(usage, name, 0)] *)
Definition getattr0 (attr : option Z) : Z := default 0 attr.

(** [add_message(role, content, usage)]: [content] is a [str] or a list
    of blocks. *)
Definition add_message (self : MessageHistory) (role : string)
    (content : string + list block) (usage : option Usage) : MessageHistory :=
  let content :=
    match content with
    | inl s => [text_block s]
    | inr blocks => blocks
    end in
  let msgs := messages self ++ [Message role content] in
  match usage with
  | Some usage =>
      if String.eqb role "assistant" then
        let total_input :=
          input_tokens usage
          + getattr0 (cache_read_input_tokens usage)
          + getattr0 (cache_creation_input_tokens usage) in
        let output_tokens := output_tokens usage in
        let current_turn_input := total_input - total_tokens self in
        {| model := model self; system := system self;
           context_window_tokens := context_window_tokens self;
           messages := msgs;
           total_tokens := total_tokens self + (current_turn_input + output_tokens);
           enable_caching := enable_caching self;
           message_tokens :=
             message_tokens self ++ [(current_turn_input, output_tokens)] |}
      else
        {| model := model self; system := system self;
           context_window_tokens := context_window_tokens self;
           messages := msgs; total_tokens := total_tokens self;
           enable_caching := enable_caching self;
           message_tokens := message_tokens self |}
  | None =>
      {| model := model self; system := system self;
         context_window_tokens := context_window_tokens self;
         messages := msgs; total_tokens := total_tokens self;
         enable_caching := enable_caching self;
         message_tokens := message_tokens self |}
  end.

Definition TRUNCATION_NOTICE_TOKENS : Z := 25.

Definition TRUNCATION_MESSAGE : message :=
  Message "user" [text_block "[Earlier history has been truncated.]"].

(** The inner function [remove_message_pair]: two [pop(0)] on the
    messages, then one on the costs when there is one.  [None] is the
    [IndexError] of a [pop(0)] on an empty list. *)
Definition remove_message_pair (self : MessageHistory) : option MessageHistory :=
  match pop0 (messages self) with
  | None => None
  | Some (_, ms1) =>
      match pop0 ms1 with
      | None => None
      | Some (_, ms2) =>
          match pop0 (message_tokens self) with
          | Some ((input_tokens, output_tokens), costs) =>
              Some {| model := model self; system := system self;
                      context_window_tokens := context_window_tokens self;
                      messages := ms2;
                      total_tokens :=
                        total_tokens self - (input_tokens + output_tokens);
                      enable_caching := enable_caching self;
                      message_tokens := costs |}
          | None =>
              Some {| model := model self; system := system self;
                      context_window_tokens := context_window_tokens self;
                      messages := ms2; total_tokens := total_tokens self;
                      enable_caching := enable_caching self;
                      message_tokens := message_tokens self |}
          end
      end
  end.

(** The [if self.messages and self.message_tokens:] block of the loop:
    the oldest message becomes the notice, its cost entry keeps the
    output cost and takes the notice's input cost. *)
Definition place_notice (self : MessageHistory) : MessageHistory :=
  match messages self, message_tokens self with
  | _ :: ms, (original_input_tokens, original_output_tokens) :: costs =>
      {| model := model self; system := system self;
         context_window_tokens := context_window_tokens self;
         messages := TRUNCATION_MESSAGE :: ms;
         total_tokens :=
           total_tokens self
           + (TRUNCATION_NOTICE_TOKENS - original_input_tokens);
         enable_caching := enable_caching self;
         message_tokens :=
           (TRUNCATION_NOTICE_TOKENS, original_output_tokens) :: costs |}
  | _, _ => self
  end.

(** The loop's condition. *)
Definition loop_guard (self : MessageHistory) : bool :=
  truthy (message_tokens self)
  && (2 <=? length (messages self))%nat
  && (context_window_tokens self <? total_tokens self).

(** One iteration of the loop's body. *)
Definition evict_pass (self : MessageHistory) : option MessageHistory :=
  place_notice <$> remove_message_pair self.

(** The [while] loop, unrolled at most [fuel] times. *)
Fixpoint truncate_loop (fuel : nat) (self : MessageHistory) : exec MessageHistory :=
  if loop_guard self then
    match fuel with
    | O => OutOfFuel
    | S fuel =>
        match evict_pass self with
        | Some self' => truncate_loop fuel self'
        | None => Raised (Exn IndexError "pop from empty list")
        end
    end
  else Done self.

(** [truncate()] with the loop unrolled [fuel] times. *)
Definition truncate_fuel (fuel : nat) (self : MessageHistory) : exec MessageHistory :=
  if total_tokens self <=? context_window_tokens self then Done self
  else truncate_loop fuel self.

(** The loop as a relation: [loop_runs n h h'] when the loop started in
    [h] leaves after exactly [n] iterations, in [h']. *)
Inductive loop_runs : nat -> MessageHistory -> MessageHistory -> Prop :=
| loop_exit h :
    loop_guard h = false -> loop_runs 0 h h
| loop_iter n h h1 h' :
    loop_guard h = true -> evict_pass h = Some h1 ->
    loop_runs n h1 h' -> loop_runs (S n) h h'.

(** [truncate()]: every cost entry pays for one iteration. *)
Definition truncate (self : MessageHistory) : exec MessageHistory :=
  truncate_fuel (length (message_tokens self)) self.

(** The cost a list of entries accounts for. *)
Definition cost_sum (costs : list (Z * Z)) : Z :=
  foldr (fun c acc => c.1 + c.2 + acc) 0 costs.

(** The entries after [n] evictions: the [n] oldest are gone, and the
    next one kept its input cost or took the notice's. *)
Definition rewritten (n : nat) (before after : list (Z * Z)) : Prop :=
  after = drop n before \/
  exists i o rest,
    drop n before = (i, o) :: rest /\
    after = (TRUNCATION_NOTICE_TOKENS, o) :: rest.

(** The annotation [{"type": "ephemeral"}] and the dictionary display
    that adds it to a block under the key ["cache_control"]. *)
Definition ephemeral : pyval := VDict {[ "type" := VStr "ephemeral" ]}.

Definition with_cache_control (b : block) : block :=
  <["cache_control" := ephemeral]> b.

(** [format_for_api()], read on values: the list it returns. *)
Definition format_for_api (self : MessageHistory) : list message :=
  let result := (fun m => Message (role m) (content m)) <$> messages self in
  if enable_caching self && truthy (messages self) then
    match last (messages self) with
    | Some m =>
        alter (fun r => Message (role r) (with_cache_control <$> content m))
          (length result - 1)%nat result
    | None => result
    end
  else result.

End HistoryUtil.

(* --------------------------------------------------------------------- *)
(** ** Coroutines: code that changes a world and returns or raises *)
(* --------------------------------------------------------------------- *)

Module Coro.
Import Py.

(** A coroutine awaited to completion over a world [W]: the state it
    leaves, and its value or the exception it raised.  The awaited code
    ends; exceptions are instances of [Exception], and signals that only
    derive from [BaseException] (cancellation, interpreter exit) are not
    modelled. *)
Definition coro (W A : Type) : Type := W -> outcome A * W.

Definition ret {W A : Type} (a : A) : coro W A := fun w => (Returns a, w).

Definition raise {W A : Type} (e : exn) : coro W A := fun w => (Raises e, w).

Definition bind {W A B : Type} (m : coro W A) (k : A -> coro W B) : coro W B :=
  fun w =>
    match m w with
    | (Returns a, w') => k a w'
    | (Raises e, w') => (Raises e, w')
    end.

#[global] Instance coro_ret {W : Type} : MRet (coro W) := @ret W.
#[global] Instance coro_bind {W : Type} : MBind (coro W) :=
  fun A B k m => bind m k.

(** [try: body  except Exception as e: handler e] *)
Definition try_except {W A : Type} (body : coro W A) (handler : exn -> coro W A)
    : coro W A :=
  fun w =>
    match body w with
    | (Raises e, w') => handler e w'
    | r => r
    end.

(** [try: body  finally: cleanup]: the cleanup runs on both exits, then
    the body's exception, if any, goes on. *)
Definition try_finally {W A : Type} (body : coro W A) (cleanup : coro W unit)
    : coro W A :=
  fun w =>
    match body w with
    | (r, w') =>
        match cleanup w' with
        | (Returns _, w'') => (r, w'')
        | (Raises e, w'') => (Raises e, w'')
        end
    end.

(** [[await f(x) for x in xs]]: one after the other, in list order. *)
Fixpoint await_each {W A : Type} (tasks : list (coro W A)) : coro W (list A) :=
  match tasks with
  | [] => ret []
  | t :: rest =>
      bind t (fun r => bind (await_each rest) (fun rs => ret (r :: rs)))
  end.

(** The element at position [k] of the non-empty list [x :: xs] (the
    last one when [k] is past the end) and the list without it. *)
Fixpoint take_out {A : Type} (k : nat) (x : A) (xs : list A) : A * list A :=
  match k, xs with
  | S k, y :: ys => let '(z, rest) := take_out k y ys in (z, x :: rest)
  | _, _ => (x, xs)
  end.

(** [asyncio.gather] over the coroutines [tasks], from its documentation:
    the tasks run concurrently and the result lists their values in the
    order of the arguments, whatever the order they finish in; the first
    exception raised goes to the caller.  The event loop's choices are
    the list [picks]: at each step the pending task at position
    [pick mod (number pending)] runs to completion and its value is
    stored in the slot of its argument position.  [fuel] counts the
    pending tasks.  A task runs in one piece here; [Aio.gather] takes
    the tasks turn by turn between their suspension points. *)
Fixpoint gather_loop {W A : Type} (fuel : nat) (pending : list (nat * coro W A))
    (picks : list nat) (slots : list (option A)) : coro W (list (option A)) :=
  match fuel, pending with
  | S fuel, p :: ps =>
      let '((i, task), rest) :=
        take_out (hd 0%nat picks mod length pending)%nat p ps in
      bind task (fun r =>
        gather_loop fuel rest (tl picks) (<[i := Some r]> slots))
  | _, _ => ret slots
  end.

Definition gather {W A : Type} (picks : list nat) (tasks : list (coro W A))
    : coro W (list A) :=
  bind (gather_loop (length tasks) (imap (fun i t => (i, t)) tasks) picks
          (replicate (length tasks) None))
       (fun slots => ret (omap id slots)).

Section Positions.
Context {W A : Type}.
(** What is known of the value of the task at each position. *)
Variable P : nat -> A -> Prop.



End Positions.

End Coro.

(* --------------------------------------------------------------------- *)
(** ** agents/utils/tool_util.py *)
(* --------------------------------------------------------------------- *)

Module ToolUtil.
Import Py Coro.

(** A tool-use block of a response: [call.id], [call.name], [call.input]. *)
Record ToolUse : Type := MkToolUse {
  id : string;
  name : string;
  input : pyval
}.

Section Dispatcher.
(** What the tools read and change. *)
Context {World : Type}.
(** Python's builtin [str] on the values tools return. *)
Variable py_str : pyval -> string.

(** A value of the registry [tool_dict]: an object with an [execute]
    coroutine (class [Tool] and its subclasses), or an object without
    one (the server-side tool descriptors), known by its class name. *)
Inductive Tool : Type :=
| Executable (execute : pyval -> coro World pyval)
| NoExecute (class_name : string).

(** The dictionary [{"type": "tool_result", "tool_use_id": call.id}]. *)
Definition new_response (call : ToolUse) : gmap string pyval :=
  {[ "type" := VStr "tool_result"; "tool_use_id" := VStr (id call) ]}.

(** The call [tool_dict[call.name].execute] on the keyword arguments
    [call.input].  The input is taken to be a mapping, as the inputs of
    tool-use blocks are; [ToolUtilAio.call_tool] has the unpacking,
    which fails on any other value. *)
Definition call_tool (call : ToolUse) (tool_dict : gmap string Tool)
    : coro World pyval :=
  match tool_dict !! name call with
  | None => raise (Exn KeyError ("'" +:+ name call +:+ "'"))
  | Some (Executable execute) => execute (input call)
  | Some (NoExecute cls) =>
      raise (Exn AttributeError
               ("'" +:+ cls +:+ "' object has no attribute 'execute'"))
  end.

Definition _execute_single_tool (call : ToolUse) (tool_dict : gmap string Tool)
    : coro World (gmap string pyval) :=
  let response := new_response call in
  try_except
    (result ← call_tool call tool_dict;
     mret (<["content" := VStr (py_str result)]> response))
    (fun e =>
       if is_KeyError e then
         mret (<["is_error" := VBool true]>
                 (<["content" := VStr ("Tool '" +:+ name call +:+ "' not found")]>
                    response))
       else
         mret (<["is_error" := VBool true]>
                 (<["content" := VStr ("Error executing tool: " +:+ exn_str e)]>
                    response))).

(** [execute_tools(tool_calls, tool_dict, parallel)]; [picks] is the
    event loop's schedule, read in the parallel mode only. *)
Definition execute_tools (tool_calls : list ToolUse) (tool_dict : gmap string Tool)
    (parallel : bool) (picks : list nat) : coro World (list (gmap string pyval)) :=
  if parallel then
    gather picks ((fun call => _execute_single_tool call tool_dict) <$> tool_calls)
  else
    await_each ((fun call => _execute_single_tool call tool_dict) <$> tool_calls).

End Dispatcher.
Arguments Tool World : clear implicits.

End ToolUtil.

(* --------------------------------------------------------------------- *)
(** ** agents/utils/connections.py *)
(* --------------------------------------------------------------------- *)

Module Connections.
Import Py Coro.

(** A server configuration, the dictionary [config] of
    [create_mcp_connection] with the keys it reads; [None] is an absent
    key.  A ["type"] that is present is a string here;
    [ConnectionsAio.server_config] takes any value. *)
Record server_config : Type := MkConfig {
  cfg_type : option string;
  cfg_command : option string;
  cfg_args : option (list string);
  cfg_env : option (gmap string string);
  cfg_url : option string;
  cfg_headers : option (gmap string string)
}.

(** The two subclasses of [MCPConnection] with their constructor
    arguments. *)
Inductive transport : Type :=
| MCPConnectionStdio (command : string) (args : option (list string))
    (env : option (gmap string string))
| MCPConnectionSSE (url : string) (headers : gmap string string).

(** An item of [response.tools]. *)
Record tool_info : Type := MkToolInfo {
  ti_name : string;
  ti_description : option string;
  ti_inputSchema : pyval
}.

(** The calls a connection makes on the [mcp] library: entering and
    leaving the read/write context of the transport channel, entering
    and leaving the [ClientSession], and the session's requests. *)
Inductive op : Type :=
| RwEnter
| RwExit
| SessionEnter
| SessionExit
| SessionInitialize
| SessionListTools.

#[global] Instance op_eq_dec : EqDecision op.
Proof. solve_decision. Defined.

(** How the library and the server behind one transport answer each of
    these calls in a run: [None] is a call that returns, [Some e] one
    that raises [e]. *)
Record remote : Type := MkRemote {
  on_rw_enter : option exn;
  on_rw_exit : option exn;
  on_session_enter : option exn;
  on_session_exit : option exn;
  on_initialize : option exn;
  on_list_tools : exn + list tool_info
}.

(** The fields of an [MCPConnection] object: for each of the three
    attributes, whether it is set ([true]) or [None]. *)
Record MCPConnection : Type := MkConnection {
  kind : transport;
  session : bool;
  _rw_ctx : bool;
  _session_ctx : bool
}.

#[global] Instance MCPConnection_inhabited : Inhabited MCPConnection :=
  populate (MkConnection (MCPConnectionSSE "" ∅) false false false).

(** What the run leaves to observe: the calls made on the library, by
    connection object, and the lines printed. *)
Inductive event : Type :=
| Call (conn : nat) (o : op)
| Print (line : string).

#[global] Instance event_eq_dec : EqDecision event.
Proof. solve_decision. Defined.

(** An [MCPTool]: the descriptor and a reference to its connection. *)
Record MCPTool : Type := MkMCPTool {
  tool_name : string;
  tool_description : string;
  tool_input_schema : pyval;
  tool_connection : nat
}.

(** The world of a run: the connection objects by reference, the log,
    and the exit callbacks pushed on the run's [AsyncExitStack], the
    last pushed first. *)
Record world : Type := MkWorld {
  objects : gmap nat MCPConnection;
  log : list event;
  callbacks : list nat
}.

Definition empty_world : world := MkWorld ∅ [] [].

Section Run.
(** The behaviour of the server behind each transport. *)
Variable server : transport -> remote.
(** [str(config)], as the f-string of the error line prints it. *)
Variable repr_config : server_config -> string.

Definition emit (e : event) : coro world unit :=
  fun w => (Returns (), MkWorld (objects w) (log w ++ [e]) (callbacks w)).

Definition get (self : nat) : coro world MCPConnection :=
  fun w => (Returns (objects w !!! self), w).

Definition update (self : nat) (f : MCPConnection -> MCPConnection)
    : coro world unit :=
  fun w =>
    (Returns (),
     MkWorld (<[self := f (objects w !!! self)]> (objects w)) (log w) (callbacks w)).

(** A call on the library: logged, then it returns or raises. *)
Definition external (self : nat) (o : op) (outcome : option exn)
    : coro world unit :=
  emit (Call self o);;
  match outcome with
  | Some e => raise e
  | None => mret ()
  end.

Definition behaviour (self : nat) : coro world remote :=
  c ← get self; mret (server (kind c)).

(** [MCPConnection.__aenter__].  The read/write context is taken to
    be constructed; [ConnectionsAio.__aenter__] has the construction
    that fails. *)
Definition __aenter__ (self : nat) : coro world unit :=
  srv ← behaviour self;
  (* self._rw_ctx = await self._create_rw_context() *)
  update self (fun c => MkConnection (kind c) (session c) true (_session_ctx c));;
  (* read_write = await self._rw_ctx.__aenter__() *)
  external self RwEnter (on_rw_enter srv);;
  (* self._session_ctx = ClientSession(read, write) *)
  update self (fun c => MkConnection (kind c) (session c) (_rw_ctx c) true);;
  (* self.session = await self._session_ctx.__aenter__() *)
  external self SessionEnter (on_session_enter srv);;
  update self (fun c => MkConnection (kind c) true (_rw_ctx c) (_session_ctx c));;
  (* await self.session.initialize() *)
  external self SessionInitialize (on_initialize srv).

(** The [try] block of [__aexit__]. *)
Definition release (self : nat) : coro world unit :=
  srv ← behaviour self;
  c ← get self;
  (if _session_ctx c then external self SessionExit (on_session_exit srv)
   else mret ());;
  c ← get self;
  (if _rw_ctx c then external self RwExit (on_rw_exit srv)
   else mret ()).

(** [MCPConnection.__aexit__] *)
Definition __aexit__ (self : nat) : coro world unit :=
  try_finally
    (try_except (release self)
       (fun e => emit (Print ("Error during cleanup: " +:+ exn_str e))))
    (update self (fun c => MkConnection (kind c) false false false)).

(** [MCPConnection.list_tools] *)
Definition list_tools (self : nat) : coro world (list tool_info) :=
  srv ← behaviour self;
  c ← get self;
  if session c then
    emit (Call self SessionListTools);;
    match on_list_tools srv with
    | inl e => raise e
    | inr tools => mret tools
    end
  else
    raise (Exn AttributeError
             "'NoneType' object has no attribute 'list_tools'").

(** [str.lower] on ASCII letters. *)
Definition lower_char (ch : Ascii.ascii) : Ascii.ascii :=
  let n := Ascii.nat_of_ascii ch in
  if ((65 <=? n) && (n <=? 90))%nat then Ascii.ascii_of_nat (n + 32) else ch.

Fixpoint lower (s : string) : string :=
  match s with
  | EmptyString => EmptyString
  | String ch rest => String (lower_char ch) (lower rest)
  end.

(** [not config.get(key)] for a string-valued key. *)
Definition missing (v : option string) : bool :=
  match v with
  | None => true
  | Some s => String.eqb s ""
  end.

(** Allocation of a connection object, its three attributes [None]. *)
Definition new_connection (t : transport) : coro world nat :=
  fun w =>
    let self := fresh (dom (objects w)) in
    (Returns self,
     MkWorld (<[self := MkConnection t false false false]> (objects w))
       (log w) (callbacks w)).

Definition create_mcp_connection (config : server_config) : coro world nat :=
  let conn_type := lower (default "stdio" (cfg_type config)) in
  if String.eqb conn_type "stdio" then
    if missing (cfg_command config) then
      raise (Exn ValueError "Command is required for STDIO connections")
    else
      new_connection
        (MCPConnectionStdio (default "" (cfg_command config))
           (cfg_args config) (cfg_env config))
  else if String.eqb conn_type "sse" then
    if missing (cfg_url config) then
      raise (Exn ValueError "URL is required for SSE connections")
    else
      new_connection
        (MCPConnectionSSE (default "" (cfg_url config))
           (default ∅ (cfg_headers config)))
  else
    raise (Exn ValueError ("Unsupported connection type: " +:+ conn_type)).

(** [AsyncExitStack.enter_async_context], from [contextlib]: the
    manager's [__aenter__] is awaited and, once it has returned, its
    [__aexit__] is pushed on the stack. *)
Definition push_async_exit (cm : nat) : coro world unit :=
  fun w => (Returns (), MkWorld (objects w) (log w) (cm :: callbacks w)).

Definition enter_async_context (cm : nat) : coro world unit :=
  __aenter__ cm;;
  push_async_exit cm.

(** Leaving the [async with AsyncExitStack()] block, from [contextlib]:
    every pushed [__aexit__] is awaited, the last pushed first; an
    exception of one does not stop the others and is raised at the
    end. *)
Fixpoint unwind (cms : list nat) (pending : option exn) : coro world unit :=
  match cms with
  | [] =>
      match pending with
      | Some e => raise e
      | None => mret ()
      end
  | cm :: rest =>
      failed ← try_except (__aexit__ cm;; mret None) (fun e => mret (Some e));
      unwind rest (match failed with Some e => Some e | None => pending end)
  end.

Definition stack_aexit : coro world unit :=
  fun w => unwind (callbacks w) None (MkWorld (objects w) (log w) []).

(** The body of the [try] in the loop of [setup_mcp_connections]. *)
Definition connect_one (config : server_config) : coro world (list MCPTool) :=
  connection ← create_mcp_connection config;
  enter_async_context connection;;
  tool_definitions ← list_tools connection;
  mret ((fun tool_info =>
           MkMCPTool (ti_name tool_info)
             (match ti_description tool_info with
              | Some d => if String.eqb d "" then "MCP tool: " +:+ ti_name tool_info else d
              | None => "MCP tool: " +:+ ti_name tool_info
              end)
             (ti_inputSchema tool_info) connection)
          <$> tool_definitions).

(** The [for] loop of [setup_mcp_connections]; [mcp_tools] is the
    list built so far. *)
Fixpoint setup_loop (mcp_servers : list server_config) (mcp_tools : list MCPTool)
    : coro world (list MCPTool) :=
  match mcp_servers with
  | [] => mret mcp_tools
  | config :: rest =>
      found ← try_except (connect_one config)
                (fun e =>
                   emit (Print ("Error setting up MCP server "
                                  +:+ repr_config config +:+ ": " +:+ exn_str e));;
                   mret []);
      setup_loop rest (mcp_tools ++ found)
  end.

Definition setup_mcp_connections (mcp_servers : list server_config)
    : coro world (list MCPTool) :=
  if truthy mcp_servers then
    mcp_tools ← setup_loop mcp_servers [];
    emit (Print ("Loaded " +:+ pretty (length mcp_tools) +:+ " MCP tools from "
                   +:+ pretty (length mcp_servers) +:+ " servers."));;
    mret mcp_tools
  else mret [].

(** The connection scope of [Agent.run_async]: the stack is entered,
    the connections are set up, [body] runs with the tools found, and
    the stack is left on every exit. *)
Definition run_scope {A : Type} (mcp_servers : list server_config)
    (body : list MCPTool -> coro world A) : coro world A :=
  try_finally
    (mcp_tools ← setup_mcp_connections mcp_servers; body mcp_tools)
    stack_aexit.

(** The number of calls of [o] made on connection [self]. *)
Definition calls_of (self : nat) (o : op) (l : list event) : nat :=
  length (filter (fun e => e = Call self o) l).

End Run.

End Connections.
(* --------------------------------------------------------------------- *)
(** ** agents/agent.py *)
(* --------------------------------------------------------------------- *)

Module AgentPy.
Import Py HistoryUtil.

Record ModelConfig : Type := MkModelConfig {
  cfg_model : string;
  cfg_max_tokens : Z;
  cfg_temperature : pyval;
  cfg_context_window_tokens : Z
}.

(** The defaults of the dataclass. *)
Definition default_config : ModelConfig :=
  MkModelConfig "claude-sonnet-4-20250514" 4096 (VFloat "1.0") 180000.

(** An element of [self.tools], by its name and what its [to_dict]
    returns. *)
Record tool_object : Type := MkToolObject {
  tool_name : string;
  to_dict : gmap string pyval
}.

Record Agent : Type := MkAgent {
  agent_system : string;
  agent_tools : list tool_object;
  agent_config : ModelConfig;
  message_params : gmap string pyval;
  history : MessageHistory
}.

(** A message as the dictionary it is. *)
Definition message_value (m : message) : pyval :=
  VDict {[ "role" := VStr (role m); "content" := VList (VDict <$> content m) ]}.

(** The keys computed from the configuration and the history, the
    dictionary display of [_prepare_message_params] without its last
    item. *)
Definition computed_params (self : Agent) : gmap string pyval :=
  {[ "model" := VStr (cfg_model (agent_config self));
     "max_tokens" := VInt (cfg_max_tokens (agent_config self));
     "temperature" := cfg_temperature (agent_config self);
     "system" := VStr (agent_system self);
     "messages" := VList (message_value <$> format_for_api (history self));
     "tools" := VList ((fun tool => VDict (to_dict tool)) <$> agent_tools self) ]}.

(** [{**a, **b}]: the keys of [b] win. *)
Definition unpack_both {V : Type} (a b : gmap string V) : gmap string V := b ∪ a.

Definition _prepare_message_params (self : Agent) : gmap string pyval :=
  unpack_both (computed_params self) (message_params self).

Definition default_headers : gmap string pyval :=
  {[ "anthropic-beta" := VStr "code-execution-2025-05-22" ]}.

(** The keyword arguments of [self.client.messages.create] in
    [_agent_loop]: [params] with its ["extra_headers"] popped, and the
    merged headers.  Unpacking a value that is no mapping raises. *)
Definition create_arguments (self : Agent) : outcome (gmap string pyval) :=
  let params := _prepare_message_params self in
  match params !! "extra_headers" with
  | Some custom_headers =>
      let params := delete "extra_headers" params in
      match custom_headers with
      | VDict custom_headers =>
          let merged_headers := unpack_both default_headers custom_headers in
          Returns (<["extra_headers" := VDict merged_headers]> params)
      | _ => Raises (Exn TypeError "object is not a mapping")
      end
  | None =>
      let merged_headers := default_headers in
      Returns (<["extra_headers" := VDict merged_headers]> params)
  end.

(** A response of the backend: its content blocks and its usage. *)
Record Response : Type := MkResponse {
  resp_content : list block;
  resp_usage : Usage
}.

(** [block.type == "tool_use"] *)
Definition is_tool_use (b : block) : bool :=
  match b !! "type" with
  | Some (VStr t) => String.eqb t "tool_use"
  | _ => false
  end.

Definition tool_calls (response : Response) : list block :=
  List.filter is_tool_use (resp_content response).

(** The points of [_agent_loop] at which the history is observed. *)
Inductive point : Type :=
| Idle                              (* between two runs *)
| LoopTop                           (* before [self.history.truncate()] *)
| Truncated                         (* after it *)
| Responded (calls : list block).   (* after the assistant turn is added *)

(** The histories of an agent whose backend calls return: the steps of
    [_agent_loop], over every user input, backend response and list of
    tool results. *)
Inductive reachable : point -> MessageHistory -> Prop :=
| reach_init model system budget system_token :
    reachable Idle (init model system budget system_token true)
| reach_run h user_input :
    reachable Idle h ->
    reachable LoopTop (add_message h "user" (inl user_input) None)
| reach_truncate h h' :
    reachable LoopTop h ->
    truncate h = Done h' ->
    reachable Truncated h'
| reach_response h response :
    reachable Truncated h ->
    reachable (Responded (tool_calls response))
      (add_message h "assistant" (inr (resp_content response))
         (Some (resp_usage response)))
| reach_tools h calls tool_results :
    reachable (Responded calls) h ->
    calls <> [] ->
    length tool_results = length calls ->
    reachable LoopTop (add_message h "user" (inr tool_results) None)
| reach_return h :
    reachable (Responded []) h ->
    reachable Idle h.

(** One iteration of the loop of [truncate]. *)
Definition pass (h h' : MessageHistory) : Prop :=
  loop_guard h = true /\ evict_pass h = Some h'.

(** The roles alternate, from ["user"] when [user_next]. *)
Fixpoint alternates (user_next : bool) (ms : list message) : bool :=
  match ms with
  | [] => true
  | m :: rest =>
      String.eqb (role m) (if user_next then "user" else "assistant")
      && alternates (negb user_next) rest
  end.

(** The form of the history at each point of the loop: the roles
    alternate from a user turn, every assistant turn has its cost
    entry, and a user turn is pending before and after [truncate]. *)
Definition shaped (p : point) (h : MessageHistory) : Prop :=
  alternates true (messages h) = true /\
  match p with
  | LoopTop | Truncated =>
      length (messages h) = (2 * length (message_tokens h) + 1)%nat
  | Idle | Responded _ =>
      length (messages h) = (2 * length (message_tokens h))%nat
  end.

End AgentPy.

(* --------------------------------------------------------------------- *)
(** ** [format_for_api] on the object store *)
(* --------------------------------------------------------------------- *)

(** Python lists and dictionaries are objects reached by reference:
    two lists may share a message, two messages a content list.  This
    module reads [MessageHistory.format_for_api] at that level, to tell
    the objects it creates from the persisted ones it only reads. *)
Module Store.
Import Py Coro.

(** A value: a scalar, or a reference to a list or dictionary object. *)
Inductive sval : Type :=
| SNone
| SBool (b : bool)
| SInt (z : Z)
| SStr (s : string)
| SRef (l : nat).

Inductive obj : Type :=
| ODict (d : gmap string sval)
| OList (xs : list sval).

Abbreviation store := (gmap nat obj).

(** A new object. *)
Definition new (o : obj) : coro store sval :=
  fun σ => let l := fresh (dom σ) in (Returns (SRef l), <[l := o]> σ).

(** Iterating over [v]: it must be a list. *)
Definition as_list (v : sval) : coro store (list sval) :=
  fun σ =>
    match v with
    | SRef l =>
        match σ !! l with
        | Some (OList xs) => (Returns xs, σ)
        | _ => (Raises (Exn TypeError "object is not a list"), σ)
        end
    | _ => (Raises (Exn TypeError "object is not iterable"), σ)
    end.

(** Unpacking [v] in a dictionary display: it must be a mapping. *)
Definition as_dict (v : sval) : coro store (gmap string sval) :=
  fun σ =>
    match v with
    | SRef l =>
        match σ !! l with
        | Some (ODict d) => (Returns d, σ)
        | _ => (Raises (Exn TypeError "object is not a mapping"), σ)
        end
    | _ => (Raises (Exn TypeError "object is not a mapping"), σ)
    end.

(** [v[key]] *)
Definition getitem (v : sval) (key : string) : coro store sval :=
  d ← as_dict v;
  match d !! key with
  | Some x => mret x
  | None => raise (Exn KeyError ("'" +:+ key +:+ "'"))
  end.

(** [v[key] = x] *)
Definition setitem (v : sval) (key : string) (x : sval) : coro store unit :=
  fun σ =>
    match v with
    | SRef l =>
        match σ !! l with
        | Some (ODict d) => (Returns (), <[l := ODict (<[key := x]> d)]> σ)
        | _ => (Raises (Exn TypeError "object does not support item assignment"), σ)
        end
    | _ => (Raises (Exn TypeError "object does not support item assignment"), σ)
    end.

(** A list comprehension [[f(x) for x in xs]]. *)
Fixpoint comprehension {A B : Type} (f : A -> coro store B) (xs : list A)
    : coro store (list B) :=
  match xs with
  | [] => mret []
  | x :: rest =>
      y ← f x;
      ys ← comprehension f rest;
      mret (y :: ys)
  end.

(** The fields [format_for_api] reads. *)
Record MessageHistory : Type := MkHistory {
  messages : sval;
  enable_caching : bool
}.

(** [{"role": m["role"], "content": m["content"]}] *)
Definition copy_turn (m : sval) : coro store sval :=
  r ← getitem m "role";
  c ← getitem m "content";
  new (ODict {[ "role" := r; "content" := c ]}).

(** [{**block, "cache_control": {"type": "ephemeral"}}] *)
Definition annotate (block : sval) : coro store sval :=
  d ← as_dict block;
  marker ← new (ODict {[ "type" := SStr "ephemeral" ]});
  new (ODict (<["cache_control" := marker]> d)).

(** [v[-1]] *)
Definition last_item (v : sval) : coro store sval :=
  xs ← as_list v;
  match last xs with
  | Some x => mret x
  | None => raise (Exn IndexError "list index out of range")
  end.

Definition format_for_api (self : MessageHistory) : coro store sval :=
  ms ← as_list (messages self);
  turns ← comprehension copy_turn ms;
  result ← new (OList turns);
  (if enable_caching self && truthy ms then
     m ← last_item (messages self);
     blocks ← getitem m "content";
     blocks ← as_list blocks;
     annotated ← comprehension annotate blocks;
     annotated ← new (OList annotated);
     r ← last_item result;
     setitem r "content" annotated
   else mret ());;
  mret result.

(** Whether a block, a content list, a turn of the store carries the
    marker: the key ["cache_control"] on the block, on a block of the
    list, on a block of the turn's content. *)
Definition block_marked (σ : store) (b : sval) : bool :=
  match b with
  | SRef l =>
      match σ !! l with
      | Some (ODict d) => bool_decide (is_Some (d !! "cache_control"))
      | _ => false
      end
  | _ => false
  end.

Definition content_marked (σ : store) (content : sval) : bool :=
  match content with
  | SRef c =>
      match σ !! c with
      | Some (OList blocks) => existsb (block_marked σ) blocks
      | _ => false
      end
  | _ => false
  end.

Definition turn_marked (σ : store) (turn : sval) : bool :=
  match turn with
  | SRef l =>
      match σ !! l with
      | Some (ODict d) =>
          match d !! "content" with
          | Some content => content_marked σ content
          | None => false
          end
      | _ => false
      end
  | _ => false
  end.

(** [turn] is a message of the store, with this role and content. *)
Definition is_turn (σ : store) (turn role content : sval) : Prop :=
  exists l d,
    turn = SRef l /\ σ !! l = Some (ODict d) /\
    d !! "role" = Some role /\ d !! "content" = Some content.

(** [content] is a list of the store whose items are dictionaries,
    [blocks] in this order. *)
Definition is_blocks (σ : store) (content : sval)
    (blocks : list (gmap string sval)) : Prop :=
  exists l refs,
    content = SRef l /\ σ !! l = Some (OList refs) /\
    Forall2 (fun ref d => exists lb, ref = SRef lb /\ σ !! lb = Some (ODict d))
      refs blocks.

(** [content] is a list of the store whose items are [blocks], each
    with the key ["cache_control"] set to a dictionary
    [{"type": "ephemeral"}]. *)
Definition is_annotated (σ : store) (content : sval)
    (blocks : list (gmap string sval)) : Prop :=
  exists l refs,
    content = SRef l /\ σ !! l = Some (OList refs) /\
    Forall2 (fun ref d =>
               exists lb lm,
                 ref = SRef lb /\
                 σ !! lb = Some (ODict (<["cache_control" := SRef lm]> d)) /\
                 σ !! lm = Some (ODict {[ "type" := SStr "ephemeral" ]}))
      refs blocks.

(** The object that [copy_turn] makes for the message [m] of the store
    [σ0] is at [l] in [σ]: it has the role and the content of [m]. *)
Definition turn_made (σ0 : store) (m : sval) (l : nat) (σ : store) : Prop :=
  exists r c,
    is_turn σ0 m r c /\
    σ !! l = Some (ODict {[ "role" := r; "content" := c ]}).

(** The object that [annotate] makes for the block [b] of the store
    [σ0] is at [l] in [σ]: the entries of [b] and the marker. *)
Definition block_made (σ0 : store) (b : sval) (l : nat) (σ : store) : Prop :=
  exists lb d lm,
    b = SRef lb /\ σ0 !! lb = Some (ODict d) /\
    σ !! l = Some (ODict (<["cache_control" := SRef lm]> d)) /\
    σ !! lm = Some (ODict {[ "type" := SStr "ephemeral" ]}).

(** The history [self] of the store holds the messages [ms], each a
    dictionary with a role and a content, and the content of the last
    one is a list of dictionaries. *)
Definition well_formed (σ : store) (self : MessageHistory) (ms : list sval) : Prop :=
  (exists l, messages self = SRef l /\ σ !! l = Some (OList ms)) /\
  Forall (fun m => exists r c, is_turn σ m r c) ms /\
  (forall m r c, last ms = Some m -> is_turn σ m r c ->
                 exists blocks, is_blocks σ c blocks).

(** No reference of the store dangles: what an object refers to is an
    object of the store. *)
Definition val_ok (σ : store) (v : sval) : bool :=
  match v with
  | SRef l => bool_decide (is_Some (σ !! l))
  | _ => true
  end.

Definition obj_ok (σ : store) (o : obj) : bool :=
  match o with
  | ODict d => bool_decide (map_Forall (fun _ v => val_ok σ v = true) d)
  | OList xs => forallb (val_ok σ) xs
  end.

Definition closed (σ : store) : Prop :=
  map_Forall (fun _ o => obj_ok σ o = true) σ.

End Store.
(* --------------------------------------------------------------------- *)
(** ** Histories the properties are tried on *)
(* --------------------------------------------------------------------- *)

Module Scenarios.
Import Py HistoryUtil.

(** A usage object without the cache counters. *)
Definition usage (input output : Z) : Usage := MkUsage input output None None.

(** A user turn and the assistant turn that answers it. *)
Definition exchange (h : MessageHistory) (question answer : string + list block)
    (u : Usage) : MessageHistory :=
  add_message (add_message h "user" question None) "assistant" answer (Some u).

(** Budget 30, nothing counted for the system prompt, three exchanges
    whose responses report 10, 25 and 40 input tokens and 5 output
    tokens each. *)
Definition three_exchanges (model system : string) (caching : bool)
    (q1 a1 q2 a2 q3 a3 : string + list block) : MessageHistory :=
  let h0 := init model system 30 0 caching in
  let h1 := exchange h0 q1 a1 (usage 10 5) in
  let h2 := exchange h1 q2 a2 (usage 25 5) in
  exchange h2 q3 a3 (usage 40 5).


(** The history of three exchanges when a fourth run adds its user
    turn: seven turns, total 45 against the budget 30. *)
Definition fourth_run : MessageHistory :=
  add_message
    (three_exchanges "m" "s" true
       (inl "q1") (inr [text_block "a1"]) (inl "q2") (inr [text_block "a2"])
       (inl "q3") (inr [text_block "a3"]))
    "user" (inl "q4") None.

(** [str] on the strings the tools of the scenarios return. *)
Definition str_of (v : pyval) : string :=
  match v with
  | VStr s => s
  | _ => ""
  end.

(** A registry with one tool, whose [execute] looks a key up in a
    dictionary of its own and raises [KeyError('city')]. *)
Definition lookup_tool : ToolUtil.Tool unit :=
  ToolUtil.Executable (fun _ w => (Raises (Exn KeyError "'city'"), w)).

Definition registry : gmap string (ToolUtil.Tool unit) :=
  {[ "weather" := lookup_tool ]}.

Definition weather_call : ToolUtil.ToolUse :=
  ToolUtil.MkToolUse "t1" "weather" (VDict ∅).

(** A stdio server, a world in which its connection is open, and two
    behaviours: the handshake is refused; leaving the session fails. *)
Definition stdio_config : Connections.server_config :=
  Connections.MkConfig None (Some "server") None None None None.

Definition stdio_transport : Connections.transport :=
  Connections.MCPConnectionStdio "server" None None.

Definition open_world : Connections.world :=
  Connections.MkWorld
    {[ 0%nat := Connections.MkConnection stdio_transport true true true ]}
    [Connections.Call 0 Connections.RwEnter;
     Connections.Call 0 Connections.SessionEnter;
     Connections.Call 0 Connections.SessionInitialize]
    [0%nat].

Definition closed_world : Connections.world :=
  Connections.MkWorld
    {[ 0%nat := Connections.MkConnection stdio_transport false false false ]}
    [] [].

Definition refuses_handshake (t : Connections.transport) : Connections.remote :=
  Connections.MkRemote None None None None
    (Some (Exn (Other "McpError") "handshake refused")) (inr []).

Definition fails_session_exit (t : Connections.transport) : Connections.remote :=
  Connections.MkRemote None None None
    (Some (Exn (Other "RuntimeError") "session is closed")) None (inr []).

(** An agent with the default configuration and the overrides of the
    test of combined parameters: a header of its own, a beta header
    that collides with the default one, and a temperature. *)
Definition combined_headers : gmap string pyval :=
  {[ "X-Test" := VStr "combined";
     "anthropic-beta" := VStr "files-api-2025-04-14" ]}.

Definition combined_agent : AgentPy.Agent :=
  AgentPy.MkAgent "You are a helpful assistant. Be very brief." []
    AgentPy.default_config
    {[ "extra_headers" := VDict combined_headers;
       "temperature" := VFloat "0.8";
       "top_k" := VInt 5 ]}
    (init "claude-sonnet-4-20250514"
       "You are a helpful assistant. Be very brief." 180000 11 true).

(** A store with a history of two user turns, one block each; the
    block of the first turn was added with a cache marker of its own. *)
Definition marked_store : gmap nat Store.obj :=
  {[ 0%nat := Store.OList [Store.SRef 1; Store.SRef 5];
     1%nat := Store.ODict {[ "role" := Store.SStr "user";
                             "content" := Store.SRef 2 ]};
     2%nat := Store.OList [Store.SRef 3];
     3%nat := Store.ODict {[ "type" := Store.SStr "text";
                             "text" := Store.SStr "context";
                             "cache_control" := Store.SRef 4 ]};
     4%nat := Store.ODict {[ "type" := Store.SStr "ephemeral" ]};
     5%nat := Store.ODict {[ "role" := Store.SStr "user";
                             "content" := Store.SRef 6 ]};
     6%nat := Store.OList [Store.SRef 7];
     7%nat := Store.ODict {[ "type" := Store.SStr "text";
                             "text" := Store.SStr "question" ]} ]}.

(** The same history with no marker on the first turn. *)
Definition plain_store : gmap nat Store.obj :=
  {[ 0%nat := Store.OList [Store.SRef 1; Store.SRef 5];
     1%nat := Store.ODict {[ "role" := Store.SStr "user";
                             "content" := Store.SRef 2 ]};
     2%nat := Store.OList [Store.SRef 3];
     3%nat := Store.ODict {[ "type" := Store.SStr "text";
                             "text" := Store.SStr "context" ]};
     5%nat := Store.ODict {[ "role" := Store.SStr "user";
                             "content" := Store.SRef 6 ]};
     6%nat := Store.OList [Store.SRef 7];
     7%nat := Store.ODict {[ "type" := Store.SStr "text";
                             "text" := Store.SStr "question" ]} ]}.

Definition stored_history : Store.MessageHistory :=
  Store.MkHistory (Store.SRef 0) true.

End Scenarios.

(* --------------------------------------------------------------------- *)
(** ** agents/tools/mcp_tool.py *)
(* --------------------------------------------------------------------- *)

Module McpTool.
Import Py Coro.

(** An item of [result.content]: [getattr(item, "type", None)] and
    [item.text]. *)
Record content_item : Type := MkItem {
  item_type : option string;
  item_text : string
}.

(** What [connection.call_tool] returns: [None] when the object has no
    attribute [content] or the attribute is [None]. *)
Record call_result : Type := MkCallResult {
  result_content : option (list content_item)
}.

(** The [for] loop of [execute]: the text of the first item whose type
    is ["text"]. *)
Fixpoint first_text (content : list content_item) : option string :=
  match content with
  | [] => None
  | item :: rest =>
      match item_type item with
      | Some t => if String.eqb t "text" then Some (item_text item) else first_text rest
      | None => first_text rest
      end
  end.

Definition NO_TEXT : string := "No text content in tool response".

Section Execute.
Context {World : Type}.
(** [self.connection.call_tool], awaited on the tool's name and the
    keyword arguments. *)
Variable call_tool : string -> pyval -> coro World call_result.

(** [MCPTool.execute] of the tool named [name]. *)
Definition execute (name : string) (kwargs : pyval) : coro World pyval :=
  try_except
    (result ← call_tool name kwargs;
     match result_content result with
     | Some content =>
         if truthy content then
           match first_text content with
           | Some text => mret (VStr text)
           | None => mret (VStr NO_TEXT)
           end
         else mret (VStr NO_TEXT)
     | None => mret (VStr NO_TEXT)
     end)
    (fun e => mret (VStr ("Error executing " +:+ name +:+ ": " +:+ exn_str e))).

End Execute.

End McpTool.

(* --------------------------------------------------------------------- *)
(** ** agents/agent.py: the loop of [_agent_loop], run on a script *)
(* --------------------------------------------------------------------- *)

Module AgentLoop.
Import Py Coro HistoryUtil AgentPy.





Section Loop.
Context {World : Type}.
Variable py_str : pyval -> string.
(** [{tool.name: tool for tool in self.tools}] *)
Variable tool_dict : gmap string (ToolUtil.Tool World).



End Loop.
End AgentLoop.

(* --------------------------------------------------------------------- *)
(** ** agents/agent.py: the registry of a run *)
(* --------------------------------------------------------------------- *)

Module Registry.
Import Py Coro.

Section Registry.
Context {World : Type}.

(** [{tool.name: tool for tool in self.tools}], the registry that
    [_agent_loop] builds; a tool is given with its name. *)
Definition tool_dict_of (tools : list (string * ToolUtil.Tool World))
    : gmap string (ToolUtil.Tool World) :=
  foldl (fun tool_dict tool => <[tool.1 := tool.2]> tool_dict) ∅ tools.

(** [self.tools.extend(mcp_tools)] in [run_async]. *)
Definition extend (tools mcp_tools : list (string * ToolUtil.Tool World))
    : list (string * ToolUtil.Tool World) :=
  tools ++ mcp_tools.

End Registry.
End Registry.

(* --------------------------------------------------------------------- *)
(** ** Tasks: suspension points and the signals outside [Exception] *)
(* --------------------------------------------------------------------- *)

(** The modules above take a coroutine as one piece of code that
    returns or raises an instance of [Exception].  The modules from
    here on model the same sources with what that leaves out: a
    coroutine is suspended at its awaits, where the event loop runs
    other tasks; [asyncio.CancelledError], [KeyboardInterrupt] and
    [SystemExit] derive from [BaseException] only and pass an
    [except Exception] clause; arguments are unpacked before a call;
    the construction of a context can fail. *)

Module Aio.
Import Py.

(** The classes that derive from [BaseException] and not from
    [Exception]: an [except Exception] clause lets them pass.
    [BaseOnly] stands for any further such class, by its name. *)
Inductive signal : Type :=
| CancelledError
| KeyboardInterrupt
| SystemExit
| BaseOnly (name : string).

(** What a call raises: an instance of [Exception], or a signal. *)
Inductive raised : Type :=
| Error (e : exn)
| Signal (s : signal).

(** How a call ends. *)
Inductive completion (A : Type) : Type :=
| Returned (a : A)
| Raised (x : raised).
Arguments Returned {A} a.
Arguments Raised {A} x.

(** A coroutine over a world [W].  [Run effect next] is the code up to
    the next suspension point, which runs in one piece: from the world
    [w] it leaves [effect w] and goes on as [next w]; the tasks that an
    event loop runs beside it take their turns between two pieces. *)
Inductive task (W A : Type) : Type :=
| Finish (c : completion A)
| Run (effect : W -> W) (next : W -> task W A).
Arguments Finish {W A} c.
Arguments Run {W A} effect next.

Definition ret {W A : Type} (a : A) : task W A := Finish (Returned a).

Definition raise {W A : Type} (e : exn) : task W A := Finish (Raised (Error e)).

Fixpoint bind {W A B : Type} (t : task W A) (k : A -> task W B) : task W B :=
  match t with
  | Finish (Returned a) => k a
  | Finish (Raised x) => Finish (Raised x)
  | Run effect next => Run effect (fun w => bind (next w) k)
  end.

#[global] Instance task_ret {W : Type} : MRet (task W) := @ret W.
#[global] Instance task_bind {W : Type} : MBind (task W) :=
  fun A B k t => bind t k.

(** [try: body  except Exception as e: handler e]: a signal is not
    caught. *)
Fixpoint try_except {W A : Type} (body : task W A) (handler : exn -> task W A)
    : task W A :=
  match body with
  | Finish (Raised (Error e)) => handler e
  | Finish c => Finish c
  | Run effect next => Run effect (fun w => try_except (next w) handler)
  end.

(** [try: body  finally: cleanup]: the cleanup runs on every exit,
    then what the body raised, if anything, goes on, unless the
    cleanup raised. *)
Fixpoint try_finally {W A : Type} (body : task W A) (cleanup : task W unit)
    : task W A :=
  match body with
  | Finish c => bind cleanup (fun _ => Finish c)
  | Run effect next => Run effect (fun w => try_finally (next w) cleanup)
  end.

(** [try: body  except: ...] with a bare [except], as the exit stack
    of [contextlib] has it: whatever the body raised is handed over. *)
Fixpoint attempt {W A : Type} (body : task W A) : task W (option raised) :=
  match body with
  | Finish (Returned _) => Finish (Returned None)
  | Finish (Raised x) => Finish (Returned (Some x))
  | Run effect next => Run effect (fun w => attempt (next w))
  end.

(** A piece of code without suspension point. *)
Definition atomic {W A : Type} (f : W -> completion A * W) : task W A :=
  Run (fun w => (f w).2) (fun w => Finish (f w).1).

(** The task alone, awaited to its end. *)
Fixpoint complete {W A : Type} (t : task W A) (w : W) : completion A * W :=
  match t with
  | Finish c => (c, w)
  | Run effect next => complete (next w) (effect w)
  end.

(** [[await t for t in ts]]: one after the other, in list order. *)
Fixpoint await_each {W A : Type} (ts : list (task W A)) (w : W)
    : completion (list A) * W :=
  match ts with
  | [] => (Returned [], w)
  | t :: rest =>
      match complete t w with
      | (Returned a, w) =>
          match await_each rest w with
          | (Returned results, w) => (Returned (a :: results), w)
          | (Raised x, w) => (Raised x, w)
          end
      | (Raised x, w) => (Raised x, w)
      end
  end.

(** [asyncio.gather] awaited on the tasks [ts].  The event loop
    advances one task at a time, by one piece; [picks] names the task
    of each turn, a turn for a task that has ended or does not exist is
    passed over, and when [picks] is used up the tasks still running
    are completed in list order.  The first task found to have raised
    ends the call with what it raised; otherwise the results are in
    the order of [ts]. *)
Fixpoint gather {W A : Type} (picks : list nat) (ts : list (task W A)) (w : W)
    : completion (list A) * W :=
  match picks with
  | [] => await_each ts w
  | k :: picks =>
      match ts !! k with
      | Some (Run effect next) => gather picks (<[k := next w]> ts) (effect w)
      | Some (Finish (Raised x)) => (Raised x, w)
      | Some (Finish (Returned _)) | None => gather picks ts w
      end
  end.




End Aio.

(* --------------------------------------------------------------------- *)
(** ** agents/utils/tool_util.py, on tasks *)
(* --------------------------------------------------------------------- *)

Module ToolUtilAio.
Import Py Aio ToolUtil.

Section Dispatcher.
Context {World : Type}.
Variable py_str : pyval -> string.
(** [str(e)] of the [TypeError] raised when the value unpacked into
    keyword arguments is no mapping; it names the callable and the type
    of the value. *)
Variable unpack_message : ToolUse -> string.

(** A value of the registry: an object with an [execute] coroutine,
    called with keyword arguments, or an object without one. *)
Inductive Tool : Type :=
| Executable (execute : gmap string pyval -> task World pyval)
| NoExecute (class_name : string).

(** The call of [tool_dict[call.name].execute] on the unpacked
    [call.input]: the lookup, the attribute, the unpacking of the
    arguments, the call, in this order. *)
Definition call_tool (call : ToolUse) (tool_dict : gmap string Tool)
    : task World pyval :=
  match tool_dict !! name call with
  | None => raise (Exn KeyError ("'" +:+ name call +:+ "'"))
  | Some (NoExecute cls) =>
      raise (Exn AttributeError
               ("'" +:+ cls +:+ "' object has no attribute 'execute'"))
  | Some (Executable execute) =>
      match input call with
      | VDict kwargs => execute kwargs
      | _ => raise (Exn TypeError (unpack_message call))
      end
  end.

Definition _execute_single_tool (call : ToolUse) (tool_dict : gmap string Tool)
    : task World (gmap string pyval) :=
  let response := new_response call in
  try_except
    (result ← call_tool call tool_dict;
     mret (<["content" := VStr (py_str result)]> response))
    (fun e =>
       if is_KeyError e then
         mret (<["is_error" := VBool true]>
                 (<["content" := VStr ("Tool '" +:+ name call +:+ "' not found")]>
                    response))
       else
         mret (<["is_error" := VBool true]>
                 (<["content" := VStr ("Error executing tool: " +:+ exn_str e)]>
                    response))).

(** [execute_tools(tool_calls, tool_dict, parallel)]; [picks] is the
    event loop's schedule, read in the parallel mode only. *)
Definition execute_tools (tool_calls : list ToolUse) (tool_dict : gmap string Tool)
    (parallel : bool) (picks : list nat) (w : World)
    : completion (list (gmap string pyval)) * World :=
  if parallel then
    gather picks ((fun call => _execute_single_tool call tool_dict) <$> tool_calls) w
  else
    await_each ((fun call => _execute_single_tool call tool_dict) <$> tool_calls) w.

End Dispatcher.
Arguments Tool World : clear implicits.

(** A coroutine of [Coro], which runs in one piece and raises
    instances of [Exception] only, as a task; and a tool of [ToolUtil]
    as a tool called with keyword arguments. *)
Definition lift {W A : Type} (f : Coro.coro W A) : task W A :=
  atomic (fun w =>
            (match (f w).1 with
             | Returns a => Returned a
             | Raises e => Raised (Error e)
             end, (f w).2)).

Definition lift_tool {World : Type} (tool : ToolUtil.Tool World) : Tool World :=
  match tool with
  | ToolUtil.Executable execute =>
      Executable (fun kwargs => lift (execute (VDict kwargs)))
  | ToolUtil.NoExecute cls => NoExecute cls
  end.

End ToolUtilAio.

(* --------------------------------------------------------------------- *)
(** ** agents/tools/mcp_tool.py, on tasks *)
(* --------------------------------------------------------------------- *)

Module McpToolAio.
Import Py Aio McpTool.

Section Execute.
Context {World : Type}.
(** [self.connection.call_tool(self.name, arguments=kwargs)] *)
Variable call_tool : string -> gmap string pyval -> task World call_result.

Definition execute (name : string) (kwargs : gmap string pyval) : task World pyval :=
  try_except
    (result ← call_tool name kwargs;
     match result_content result with
     | Some content =>
         if truthy content then
           match first_text content with
           | Some text => mret (VStr text)
           | None => mret (VStr NO_TEXT)
           end
         else mret (VStr NO_TEXT)
     | None => mret (VStr NO_TEXT)
     end)
    (fun e => mret (VStr ("Error executing " +:+ name +:+ ": " +:+ exn_str e))).

End Execute.
End McpToolAio.

(* --------------------------------------------------------------------- *)
(** ** agents/utils/connections.py, on tasks *)
(* --------------------------------------------------------------------- *)

Module ConnectionsAio.
Import Py Aio.
Import Connections.

(** A server configuration, the dictionary [config] with the keys that
    are read.  [None] is an absent key; the value of ["type"] is any
    value, the others have the types the classes declare. *)
Record server_config : Type := MkConfig {
  cfg_type : option pyval;
  cfg_command : option string;
  cfg_args : option (list string);
  cfg_env : option (gmap string string);
  cfg_url : option string;
  cfg_headers : option (gmap string string)
}.

(** How the [mcp] library and the server behind one transport answer
    in a run: the construction of the read/write context in
    [_create_rw_context], each of the five calls that return nothing,
    and [session.list_tools]. *)
Record remote : Type := MkRemote {
  on_create : completion unit;
  on_call : op -> completion unit;
  on_list_tools : completion (list tool_info)
}.

(** No call on the library is ended by a signal. *)
Definition silent (server : transport -> remote) : Prop :=
  forall t s,
    on_create (server t) <> Raised (Signal s) /\
    (forall o, on_call (server t) o <> Raised (Signal s)) /\
    on_list_tools (server t) <> Raised (Signal s).

(** [type(v).__name__] *)
Definition type_name (v : pyval) : string :=
  match v with
  | VNone => "NoneType"
  | VBool _ => "bool"
  | VInt _ => "int"
  | VFloat _ => "float"
  | VStr _ => "str"
  | VList _ => "list"
  | VDict _ => "dict"
  end.

(** What opening a connection does, by the library's answers: how
    [__aenter__] ends and the calls it makes. *)
Definition opening (srv : remote) : completion unit * list op :=
  match on_create srv with
  | Raised x => (Raised x, [])
  | Returned _ =>
      match on_call srv RwEnter with
      | Raised x => (Raised x, [RwEnter])
      | Returned _ =>
          match on_call srv SessionEnter with
          | Raised x => (Raised x, [RwEnter; SessionEnter])
          | Returned _ =>
              (on_call srv SessionInitialize,
               [RwEnter; SessionEnter; SessionInitialize])
          end
      end
  end.

Section Run.
Variable server : transport -> remote.
Variable repr_config : server_config -> string.

Definition emit (e : event) : task world unit :=
  Run (fun w => MkWorld (objects w) (log w ++ [e]) (callbacks w)) (fun _ => ret ()).

Definition get (self : nat) : task world MCPConnection :=
  Run (fun w => w) (fun w => ret (objects w !!! self)).

Definition update (self : nat) (f : MCPConnection -> MCPConnection)
    : task world unit :=
  Run (fun w =>
         MkWorld (<[self := f (objects w !!! self)]> (objects w)) (log w) (callbacks w))
    (fun _ => ret ()).

(** A call on the library: logged, then it ends as the library has it. *)
Definition external (self : nat) (o : op) (c : completion unit) : task world unit :=
  emit (Call self o);; Finish c.

Definition behaviour (self : nat) : task world remote :=
  c ← get self; mret (server (kind c)).

(** [MCPConnection.__aenter__] *)
Definition __aenter__ (self : nat) : task world unit :=
  srv ← behaviour self;
  (* self._rw_ctx = await self._create_rw_context() *)
  Finish (on_create srv);;
  update self (fun c => MkConnection (kind c) (session c) true (_session_ctx c));;
  (* read_write = await self._rw_ctx.__aenter__() *)
  external self RwEnter (on_call srv RwEnter);;
  (* self._session_ctx = ClientSession(read, write) *)
  update self (fun c => MkConnection (kind c) (session c) (_rw_ctx c) true);;
  (* self.session = await self._session_ctx.__aenter__() *)
  external self SessionEnter (on_call srv SessionEnter);;
  update self (fun c => MkConnection (kind c) true (_rw_ctx c) (_session_ctx c));;
  (* await self.session.initialize() *)
  external self SessionInitialize (on_call srv SessionInitialize).

(** The [try] block of [__aexit__]. *)
Definition release (self : nat) : task world unit :=
  srv ← behaviour self;
  c ← get self;
  (if _session_ctx c then external self SessionExit (on_call srv SessionExit)
   else mret ());;
  c ← get self;
  (if _rw_ctx c then external self RwExit (on_call srv RwExit)
   else mret ()).

(** [MCPConnection.__aexit__] *)
Definition __aexit__ (self : nat) : task world unit :=
  try_finally
    (try_except (release self)
       (fun e => emit (Print ("Error during cleanup: " +:+ exn_str e))))
    (update self (fun c => MkConnection (kind c) false false false)).

(** [MCPConnection.list_tools] *)
Definition list_tools (self : nat) : task world (list tool_info) :=
  srv ← behaviour self;
  c ← get self;
  if session c then
    emit (Call self SessionListTools);;
    Finish (on_list_tools srv)
  else
    raise (Exn AttributeError
             "'NoneType' object has no attribute 'list_tools'").

(** Allocation of a connection object, its three attributes [None]. *)
Definition new_connection (t : transport) : task world nat :=
  Run (fun w =>
         MkWorld (<[fresh (dom (objects w)) := MkConnection t false false false]>
                    (objects w))
           (log w) (callbacks w))
    (fun w => ret (fresh (dom (objects w)))).

Definition create_mcp_connection (config : server_config) : task world nat :=
  match default (VStr "stdio") (cfg_type config) with
  | VStr conn_type =>
      let conn_type := lower conn_type in
      if String.eqb conn_type "stdio" then
        if missing (cfg_command config) then
          raise (Exn ValueError "Command is required for STDIO connections")
        else
          new_connection
            (MCPConnectionStdio (default "" (cfg_command config))
               (cfg_args config) (cfg_env config))
      else if String.eqb conn_type "sse" then
        if missing (cfg_url config) then
          raise (Exn ValueError "URL is required for SSE connections")
        else
          new_connection
            (MCPConnectionSSE (default "" (cfg_url config))
               (default ∅ (cfg_headers config)))
      else
        raise (Exn ValueError ("Unsupported connection type: " +:+ conn_type))
  | v =>
      raise (Exn AttributeError
               ("'" +:+ type_name v +:+ "' object has no attribute 'lower'"))
  end.

(** [AsyncExitStack.enter_async_context], from [contextlib]: the
    manager's [__aenter__] is awaited and, once it has returned, its
    [__aexit__] is pushed on the stack. *)
Definition push_async_exit (cm : nat) : task world unit :=
  Run (fun w => MkWorld (objects w) (log w) (cm :: callbacks w)) (fun _ => ret ()).

Definition enter_async_context (cm : nat) : task world unit :=
  __aenter__ cm;;
  push_async_exit cm.

(** Leaving the [async with AsyncExitStack()] block, from [contextlib]:
    every pushed [__aexit__] is awaited, the last pushed first, inside
    a bare [except]; what one of them raises does not stop the others,
    and the last thing raised is raised at the end. *)
Fixpoint unwind (cms : list nat) (pending : option raised) : task world unit :=
  match cms with
  | [] =>
      match pending with
      | Some x => Finish (Raised x)
      | None => mret ()
      end
  | cm :: rest =>
      failed ← attempt (__aexit__ cm);
      unwind rest (match failed with Some x => Some x | None => pending end)
  end.

Definition stack_aexit : task world unit :=
  Run (fun w => MkWorld (objects w) (log w) []) (fun w => unwind (callbacks w) None).

(** The body of the [try] in the loop of [setup_mcp_connections]. *)
Definition connect_one (config : server_config) : task world (list MCPTool) :=
  connection ← create_mcp_connection config;
  enter_async_context connection;;
  tool_definitions ← list_tools connection;
  mret ((fun tool_info : tool_info =>
           MkMCPTool (ti_name tool_info)
             (match ti_description tool_info with
              | Some d => if String.eqb d "" then "MCP tool: " +:+ ti_name tool_info else d
              | None => "MCP tool: " +:+ ti_name tool_info
              end)
             (ti_inputSchema tool_info) connection)
          <$> (tool_definitions : list tool_info)).

(** The [for] loop of [setup_mcp_connections]; [mcp_tools] is the
    list built so far. *)
Fixpoint setup_loop (mcp_servers : list server_config) (mcp_tools : list MCPTool)
    : task world (list MCPTool) :=
  match mcp_servers with
  | [] => mret mcp_tools
  | config :: rest =>
      found ← try_except (connect_one config)
                (fun e =>
                   emit (Print ("Error setting up MCP server "
                                  +:+ repr_config config +:+ ": " +:+ exn_str e));;
                   mret []);
      setup_loop rest (mcp_tools ++ found)
  end.

Definition setup_mcp_connections (mcp_servers : list server_config)
    : task world (list MCPTool) :=
  if truthy mcp_servers then
    mcp_tools ← setup_loop mcp_servers [];
    emit (Print ("Loaded " +:+ pretty (length mcp_tools) +:+ " MCP tools from "
                   +:+ pretty (length mcp_servers) +:+ " servers."));;
    mret mcp_tools
  else mret [].

(** The connection scope of [Agent.run_async]: the stack is entered,
    the connections are set up, [body] runs with the tools found, and
    the stack is left on every exit. *)
Definition run_scope {A : Type} (mcp_servers : list server_config)
    (body : list MCPTool -> task world A) : task world A :=
  try_finally
    (mcp_tools ← setup_mcp_connections mcp_servers; body mcp_tools)
    stack_aexit.

End Run.

End ConnectionsAio.

(* --------------------------------------------------------------------- *)
(** ** Further inputs the properties are tried on *)
(* --------------------------------------------------------------------- *)

Module Cases.
Import Py Coro.

(** Tools over a world that counts the calls made: one returns its
    argument, one raises a [ValueError]. *)
Definition echo : ToolUtil.Tool nat :=
  ToolUtil.Executable (fun v w => (Returns v, S w)).

Definition broken : ToolUtil.Tool nat :=
  ToolUtil.Executable
    (fun _ w => (Raises (Exn ValueError "bad argument"), S w)).

Definition tools : gmap string (ToolUtil.Tool nat) :=
  {[ "echo" := echo;
     "broken" := broken;
     "code_execution" := ToolUtil.NoExecute "CodeExecutionServerTool" ]}.

Definition call_echo : ToolUtil.ToolUse := ToolUtil.MkToolUse "t1" "echo" (VStr "1").
Definition call_missing : ToolUtil.ToolUse := ToolUtil.MkToolUse "t2" "missing" VNone.
Definition call_server : ToolUtil.ToolUse :=
  ToolUtil.MkToolUse "t4" "code_execution" VNone.

(** A connection whose [call_tool] answers with an image and two texts,
    and one whose transport fails. *)
Definition answering (name : string) (arguments : pyval)
    : coro unit McpTool.call_result :=
  fun w =>
    (Returns (McpTool.MkCallResult
                (Some [McpTool.MkItem (Some "image") "";
                       McpTool.MkItem (Some "text") "4";
                       McpTool.MkItem (Some "text") "four"])), w).

Definition disconnected (name : string) (arguments : pyval)
    : coro unit McpTool.call_result :=
  fun w => (Raises (Exn (Other "ConnectionError") "connection closed"), w).


Definition mcp_tools : gmap string (ToolUtil.Tool unit) :=
  {[ "calc" := ToolUtil.Executable (McpTool.execute disconnected "calc") ]}.

(** A server that answers every call and lists two tools, and the
    text printed for a configuration. *)
Definition healthy (t : Connections.transport) : Connections.remote :=
  Connections.MkRemote None None None None None
    (inr [Connections.MkToolInfo "add" (Some "Adds two numbers") VNone;
          Connections.MkToolInfo "sub" None VNone]).

Definition show_config (config : Connections.server_config) : string :=
  "{'command': 'server'}".

(** A body of the connection scope that prints a line and raises. *)
Definition failing_body (tools : list Connections.MCPTool)
    : coro Connections.world unit :=
  fun w =>
    (Raises (Exn (Other "APIError") "overloaded"),
     Connections.MkWorld (Connections.objects w)
       (Connections.log w ++ [Connections.Print "Received: hello"])
       (Connections.callbacks w)).





(** Tools with a suspension point: one is cancelled while it waits,
    one raises a [ValueError]; and calls of them on an empty mapping. *)
Definition waits : ToolUtilAio.Tool nat :=
  ToolUtilAio.Executable
    (fun _ => Aio.Run S (fun _ => Aio.Finish (Aio.Raised (Aio.Signal Aio.CancelledError)))).

Definition breaks : ToolUtilAio.Tool nat :=
  ToolUtilAio.Executable
    (fun _ =>
       Aio.Run S (fun _ =>
         Aio.Finish (Aio.Raised (Aio.Error (Exn ValueError "bad argument"))))).

Definition suspended : gmap string (ToolUtilAio.Tool nat) :=
  {[ "wait" := waits; "broken" := breaks ]}.


Definition call_breaks : ToolUtil.ToolUse :=
  ToolUtil.MkToolUse "t7" "broken" (VDict ∅).

Definition unpack_text (call : ToolUtil.ToolUse) : string :=
  "execute() argument after ** must be a mapping".

(** A stdio connection with a list of arguments, not entered and
    entered; a library whose session exit is cancelled, and one whose
    session cannot be entered. *)
Definition listed_transport : Connections.transport :=
  Connections.MCPConnectionStdio "server" (Some []) None.

Definition fresh_world : Connections.world :=
  Connections.MkWorld
    {[ 0%nat := Connections.MkConnection listed_transport false false false ]}
    [] [].

Definition entered_world : Connections.world :=
  Connections.MkWorld
    {[ 0%nat := Connections.MkConnection listed_transport true true true ]}
    [Connections.Call 0 Connections.RwEnter;
     Connections.Call 0 Connections.SessionEnter;
     Connections.Call 0 Connections.SessionInitialize]
    [0%nat].

Definition cancelled_on_exit (t : Connections.transport) : ConnectionsAio.remote :=
  ConnectionsAio.MkRemote (Aio.Returned ())
    (fun o =>
       match o with
       | Connections.SessionExit => Aio.Raised (Aio.Signal Aio.CancelledError)
       | _ => Aio.Returned ()
       end)
    (Aio.Returned []).

Definition session_refused (t : Connections.transport) : ConnectionsAio.remote :=
  ConnectionsAio.MkRemote (Aio.Returned ())
    (fun o =>
       match o with
       | Connections.SessionEnter =>
           Aio.Raised (Aio.Error (Exn (Other "McpError") "connection closed"))
       | _ => Aio.Returned ()
       end)
    (Aio.Returned []).

End Cases.

(* ===================================================================== *)
(** * Part II: properties *)
(* ===================================================================== *)

(* --------------------------------------------------------------------- *)
(** ** The history: eviction under the token budget *)
(* --------------------------------------------------------------------- *)

Module HistoryFacts.
Import Py HistoryUtil.

(** *** One iteration *)

(** Under the loop's condition both [pop(0)] find a message and the
    third finds a cost entry: the iteration is the removal of a pair
    and of the oldest entry, followed by the notice. *)
Lemma pass_under_guard h :
  loop_guard h = true ->
  exists m1 m2 ms i o costs,
    messages h = m1 :: m2 :: ms /\
    message_tokens h = (i, o) :: costs /\
    context_window_tokens h < total_tokens h /\
    evict_pass h =
      Some (place_notice
              {| model := model h; system := system h;
                 context_window_tokens := context_window_tokens h;
                 messages := ms;
                 total_tokens := total_tokens h - (i + o);
                 enable_caching := enable_caching h;
                 message_tokens := costs |}).
Proof.
  unfold loop_guard, evict_pass, remove_message_pair.
  intros Hg.
  apply andb_true_iff in Hg as [Hg Hlt].
  apply andb_true_iff in Hg as [Hcosts Hlen].
  apply Z.ltb_lt in Hlt.
  apply Nat.leb_le in Hlen.
  destruct (message_tokens h) as [|[i o] costs] eqn:Ecosts; [discriminate|].
  destruct (messages h) as [|m1 [|m2 ms]] eqn:Emsgs; simpl in Hlen; try lia.
  exists m1, m2, ms, i, o, costs. simpl. auto.
Qed.

Lemma place_notice_budget h :
  context_window_tokens (place_notice h) = context_window_tokens h.
Proof.
  unfold place_notice.
  destruct (messages h); [reflexivity|].
  destruct (message_tokens h) as [|[] ?]; reflexivity.
Qed.

Lemma place_notice_lengths h :
  length (messages (place_notice h)) = length (messages h) /\
  length (message_tokens (place_notice h)) = length (message_tokens h).
Proof.
  unfold place_notice.
  destruct (messages h) eqn:Em; [rewrite Em; split; reflexivity|].
  destruct (message_tokens h) as [|[] ?] eqn:Ec; rewrite ?Em, ?Ec; split; reflexivity.
Qed.

(** The notice keeps the total in step with the entries. *)
Lemma place_notice_conserves h :
  total_tokens (place_notice h) - cost_sum (message_tokens (place_notice h))
  = total_tokens h - cost_sum (message_tokens h).
Proof.
  unfold place_notice.
  destruct (messages h) eqn:Em; [reflexivity|].
  destruct (message_tokens h) as [|[i o] costs] eqn:Ec; rewrite ?Ec; [reflexivity|].
  simpl. lia.
Qed.

Lemma place_notice_entries h :
  rewritten 0 (message_tokens h) (message_tokens (place_notice h)).
Proof.
  unfold place_notice, rewritten.
  destruct (messages h) eqn:Em; [left; reflexivity|].
  destruct (message_tokens h) as [|[i o] costs] eqn:Ec; rewrite ?Ec;
    [left; reflexivity|].
  right. exists i, o, costs. split; reflexivity.
Qed.

Lemma rewritten_compose k l l1 l' :
  rewritten 1 l l1 -> rewritten k l1 l' -> rewritten (S k) l l'.
Proof.
  intros [-> | (i & o & rest & Hd & ->)] Hk.
  - destruct Hk as [-> | (i & o & rest & Hd & ->)].
    + left. rewrite drop_drop. f_equal.
    + right. exists i, o, rest. rewrite drop_drop in Hd. split; [exact Hd | reflexivity].
  - destruct k as [|k].
    + right. exists i, o, rest. split; [exact Hd|].
      destruct Hk as [-> | (i' & o' & rest' & Hd' & ->)]; [reflexivity|].
      simpl in Hd'. injection Hd' as _ -> ->. reflexivity.
    + assert (Hrest : forall x, drop (S k) (x :: rest) = drop (S (S k)) l).
      { intros x. simpl.
        assert (Hr : rest = drop 2 l).
        { change 2%nat with (1 + 1)%nat. rewrite <- drop_drop, Hd. reflexivity. }
        rewrite Hr, drop_drop. reflexivity. }
      destruct Hk as [-> | (i' & o' & rest' & Hd' & ->)].
      * left. apply Hrest.
      * right. exists i', o', rest'. rewrite Hrest in Hd'. split; [exact Hd' | reflexivity].
Qed.

(** What one iteration does, in the terms the properties below use. *)
Lemma pass_effect h :
  loop_guard h = true ->
  exists h1,
    evict_pass h = Some h1 /\
    context_window_tokens h1 = context_window_tokens h /\
    S (S (length (messages h1))) = length (messages h) /\
    S (length (message_tokens h1)) = length (message_tokens h) /\
    total_tokens h1 - cost_sum (message_tokens h1)
      = total_tokens h - cost_sum (message_tokens h) /\
    rewritten 1 (message_tokens h) (message_tokens h1).
Proof.
  intros Hg.
  destruct (pass_under_guard h Hg) as (m1 & m2 & ms & i & o & costs & Hm & Hc & _ & Hp).
  eexists. split; [exact Hp|].
  rewrite place_notice_budget, place_notice_conserves.
  destruct (place_notice_lengths
              {| model := model h; system := system h;
                 context_window_tokens := context_window_tokens h;
                 messages := ms; total_tokens := total_tokens h - (i + o);
                 enable_caching := enable_caching h;
                 message_tokens := costs |}) as [-> ->].
  rewrite Hm, Hc. simpl.
  repeat split; try reflexivity; try lia.
  match goal with |- rewritten 1 _ (message_tokens (place_notice ?g)) =>
    pose proof (place_notice_entries g) as Hr end.
  simpl in Hr.
  destruct Hr as [-> | (i' & o' & rest & Hd & ->)].
  - left. reflexivity.
  - right. exists i', o', rest. split; [exact Hd | reflexivity].
Qed.

(** *** The loop *)

Lemma loop_runs_exit n h h' : loop_runs n h h' -> loop_guard h' = false.
Proof. induction 1; assumption. Qed.

(** Enough fuel gives the loop's result. *)
Lemma loop_runs_fuel n h h' :
  loop_runs n h h' ->
  forall fuel, (n <= fuel)%nat -> truncate_loop fuel h = Done h'.
Proof.
  induction 1 as [h Hg | n h h1 h' Hg Hp _ IH]; intros fuel Hfuel.
  - destruct fuel; simpl; rewrite Hg; reflexivity.
  - destruct fuel as [|fuel]; [lia|].
    simpl. rewrite Hg, Hp. apply IH. lia.
Qed.

(** The loop leaves after at most one iteration per cost entry. *)
Lemma loop_runs_total k :
  forall h, length (message_tokens h) = k ->
  exists n h', (n <= k)%nat /\ loop_runs n h h'.
Proof.
  induction k as [|k IH]; intros h Hk.
  - exists 0%nat, h. split; [lia|]. apply loop_exit.
    unfold loop_guard. destruct (message_tokens h); [reflexivity | discriminate].
  - destruct (loop_guard h) eqn:Hg.
    + destruct (pass_effect h Hg) as (h1 & Hp & _ & _ & Hc & _).
      destruct (IH h1) as (n & h' & Hn & Hruns); [lia|].
      exists (S n), h'. split; [lia|]. eapply loop_iter; eassumption.
    + exists 0%nat, h. split; [lia|]. apply loop_exit, Hg.
Qed.

(** What [n] iterations leave unchanged, and what they change. *)
Lemma loop_runs_effect n h h' :
  loop_runs n h h' ->
  context_window_tokens h' = context_window_tokens h /\
  (length (messages h') + 2 * n = length (messages h))%nat /\
  (length (message_tokens h') + n = length (message_tokens h))%nat /\
  total_tokens h' - cost_sum (message_tokens h')
    = total_tokens h - cost_sum (message_tokens h) /\
  rewritten n (message_tokens h) (message_tokens h').
Proof.
  induction 1 as [h Hg | n h h1 h' Hg Hp _ IH].
  - repeat split; try lia. left. reflexivity.
  - destruct (pass_effect h Hg) as (h1' & Hp' & Hb & Hm & Hc & Hsum & Hrw).
    rewrite Hp in Hp'. injection Hp' as <-.
    destruct IH as (Hb' & Hm' & Hc' & Hsum' & Hrw').
    repeat split; try lia.
    eapply rewritten_compose; eassumption.
Qed.

Lemma cost_sum_app l1 l2 : cost_sum (l1 ++ l2) = cost_sum l1 + cost_sum l2.
Proof.
  induction l1 as [|[i o] l1 IH]; simpl; [reflexivity|].
  fold (cost_sum (l1 ++ l2)) (cost_sum l1). lia.
Qed.

(** A call within the budget changes nothing. *)
Lemma truncate_within_budget h :
  total_tokens h <= context_window_tokens h -> truncate h = Done h.
Proof.
  intros Hle. unfold truncate, truncate_fuel.
  destruct (Z.leb_spec (total_tokens h) (context_window_tokens h)); [reflexivity | lia].
Qed.

(** [truncate] returns what the loop leaves. *)
Lemma truncate_loop_runs h :
  exists n h',
    (n <= length (message_tokens h))%nat /\ loop_runs n h h' /\ truncate h = Done h'.
Proof.
  destruct (loop_runs_total _ h eq_refl) as (n & h' & Hn & Hruns).
  unfold truncate, truncate_fuel.
  destruct (Z.leb_spec (total_tokens h) (context_window_tokens h)) as [Hle | Hgt].
  - exists 0%nat, h. split; [lia|]. split; [|reflexivity].
    apply loop_exit. unfold loop_guard.
    destruct (Z.ltb_spec (context_window_tokens h) (total_tokens h)); [lia|].
    apply andb_false_r.
  - exists n, h'. split; [exact Hn|]. split; [exact Hruns|].
    apply (loop_runs_fuel _ _ _ Hruns). exact Hn.
Qed.

(** *** The budget after [truncate] *)




(** *** Termination *)

(** C10.  [truncate()] returns for every history.  An iteration of its
    loop runs only when a cost entry is left and pops exactly one, so
    the loop leaves after [n] iterations, [n] at most the number of
    entries, and any unrolling of [n] or more iterations gives its
    result. *)
Theorem truncate_terminates h :
  (loop_guard h = true ->
   message_tokens h <> [] /\
   exists h1, evict_pass h = Some h1 /\
              S (length (message_tokens h1)) = length (message_tokens h)) /\
  exists n h',
    (n <= length (message_tokens h))%nat /\
    loop_runs n h h' /\
    (length (message_tokens h') + n = length (message_tokens h))%nat /\
    (forall fuel, (n <= fuel)%nat -> truncate_loop fuel h = Done h') /\
    truncate h = Done h'.
Proof.
  split.
  - intros Hg. destruct (pass_effect h Hg) as (h1 & Hp & _ & _ & Hc & _).
    split; [|exists h1; split; assumption].
    intros Hnil. rewrite Hnil in Hc. discriminate.
  - destruct (truncate_loop_runs h) as (n & h' & Hn & Hruns & Htr).
    destruct (loop_runs_effect _ _ _ Hruns) as (_ & _ & Hc & _).
    exists n, h'. repeat split; try assumption.
    apply loop_runs_fuel, Hruns.
Qed.

(** The notice can bring the total back over the budget between two
    iterations: in the history of three exchanges the first iteration
    takes the total from 45 to 30 and the notice puts it at 45 again. *)
Example notice_restores_total :
  exists h1,
    evict_pass (Scenarios.three_exchanges "m" "s" true
                  (inl "q1") (inl "a1") (inl "q2") (inl "a2") (inl "q3") (inl "a3"))
      = Some h1 /\
    total_tokens h1 = 45 /\ loop_guard h1 = true.
Proof. eexists. split; [reflexivity|]. split; reflexivity. Qed.

(** *** The scenario of the three exchanges *)

(** C2.  From an empty history with budget 30 and total 0, three
    assistant turns, each after a user turn, with usages 10/5, 25/5 and
    40/5 bring the total to 15, 30 and 45, the entries being (10, 5)
    each; [truncate()] changes nothing at 30; at 45 its loop runs twice,
    and leaves total 30, the single entry (25, 5), and the notice
    followed by the third answer. *)
Theorem three_exchanges_scenario (model system : string) (caching : bool)
    (q1 a1 q2 a2 q3 a3 : string + list block) :
  let h0 := init model system 30 0 caching in
  let h1 := Scenarios.exchange h0 q1 a1 (Scenarios.usage 10 5) in
  let h2 := Scenarios.exchange h1 q2 a2 (Scenarios.usage 25 5) in
  let h3 := Scenarios.exchange h2 q3 a3 (Scenarios.usage 40 5) in
  let answer3 :=
    Message "assistant"
      (match a3 with inl s => [text_block s] | inr blocks => blocks end) in
  (total_tokens h1 = 15 /\ total_tokens h2 = 30 /\ total_tokens h3 = 45) /\
  message_tokens h3 = [(10, 5); (10, 5); (10, 5)] /\
  truncate h1 = Done h1 /\
  truncate h2 = Done h2 /\
  length (messages h3) = 6%nat /\
  exists h',
    truncate h3 = Done h' /\
    loop_runs 2 h3 h' /\
    total_tokens h' = 30 /\
    message_tokens h' = [(25, 5)] /\
    messages h' = [TRUNCATION_MESSAGE; answer3].
Proof.
  intros h0 h1 h2 h3 answer3.
  split; [repeat split|].
  split; [reflexivity|].
  split; [reflexivity|].
  split; [reflexivity|].
  split; [reflexivity|].
  eexists. split; [reflexivity|].
  split; [|repeat split].
  eapply loop_iter; [reflexivity | reflexivity |].
  eapply loop_iter; [reflexivity | reflexivity |].
  apply loop_exit. reflexivity.
Qed.

(** *** The rendered turns, as values *)

(** [format_for_api] returns one turn per message: the message itself,
    but for the last one when caching is on, whose blocks each get the
    key ["cache_control"]. *)
Lemma format_for_api_values h :
  length (format_for_api h) = length (messages h) /\
  forall i m,
    messages h !! i = Some m ->
    format_for_api h !! i
    = Some (if bool_decide (S i = length (messages h)) && enable_caching h
            then Message (role m) (with_cache_control <$> content m)
            else m).
Proof.
  unfold format_for_api.
  assert (Hcopy : (fun m => Message (role m) (content m)) <$> messages h = messages h).
  { induction (messages h) as [|[r c] ms IH]; [reflexivity|].
    rewrite fmap_cons, IH. reflexivity. }
  rewrite Hcopy.
  destruct (enable_caching h); cbn [andb].
  2:{ split; [reflexivity|]. intros i m Hm. rewrite andb_false_r. exact Hm. }
  destruct (messages h) as [|m0 ms] eqn:Ems.
  { split; [reflexivity|]. intros i m Hm. discriminate. }
  rewrite <- Ems. cbn [truthy].
  assert (Htruthy : truthy (messages h) = true) by (rewrite Ems; reflexivity).
  rewrite Htruthy.
  destruct (last (messages h)) as [ml|] eqn:Hlast.
  2:{ apply last_None in Hlast. congruence. }
  split; [apply length_alter|].
  intros i m Hm. rewrite andb_true_r.
  rewrite last_lookup in Hlast.
  pose proof (lookup_lt_Some _ _ _ Hm) as Hlt.
  destruct (decide (S i = length (messages h))) as [Hi | Hi].
  - rewrite bool_decide_eq_true_2 by exact Hi.
    assert (Hix : (length (messages h) - 1)%nat = i) by lia.
    assert (Hix' : Init.Nat.pred (length (messages h)) = i) by lia.
    rewrite Hix, list_lookup_alter_eq, Hm. simpl.
    rewrite Hix', Hm in Hlast. injection Hlast as <-. reflexivity.
  - rewrite bool_decide_eq_false_2 by exact Hi.
    rewrite list_lookup_alter_ne by lia. exact Hm.
Qed.

End HistoryFacts.

(* --------------------------------------------------------------------- *)
(** ** The agent's loop: the form of the history *)
(* --------------------------------------------------------------------- *)

Module LoopFacts.
Import Py HistoryUtil AgentPy.

Lemma alternates_snoc ms m :
  forall b,
    alternates b (ms ++ [m])
    = alternates b ms
      && String.eqb (role m)
           (if xorb b (Nat.odd (length ms)) then "user" else "assistant").
Proof.
  induction ms as [|m0 ms IH]; intros b; simpl.
  - rewrite xorb_false_r, andb_true_r. reflexivity.
  - rewrite IH, Nat.odd_succ, <- Nat.negb_odd, andb_assoc.
    do 3 f_equal. destruct b, (Nat.odd (length ms)); reflexivity.
Qed.

Lemma odd_double k : Nat.odd (2 * k) = false.
Proof.
  rewrite <- Nat.negb_even, Nat.even_mul. reflexivity.
Qed.

Lemma odd_double_succ k : Nat.odd (2 * k + 1) = true.
Proof.
  rewrite Nat.add_1_r, Nat.odd_succ, Nat.even_mul. reflexivity.
Qed.

(** What [add_message] appends. *)
Lemma add_message_messages h r c u :
  messages (add_message h r c u)
  = messages h
    ++ [Message r (match c with inl s => [text_block s] | inr blocks => blocks end)].
Proof.
  unfold add_message. destruct u; [destruct (String.eqb r "assistant")|]; reflexivity.
Qed.

Lemma add_message_user_entries h c :
  message_tokens (add_message h "user" c None) = message_tokens h.
Proof. reflexivity. Qed.

Lemma add_message_assistant_entries h c u :
  length (message_tokens (add_message h "assistant" c (Some u)))
  = S (length (message_tokens h)).
Proof.
  simpl. rewrite length_app. simpl. lia.
Qed.

(** An iteration of the loop keeps the form. *)
Lemma pass_shaped h h' :
  pass h h' -> shaped LoopTop h -> shaped LoopTop h'.
Proof.
  intros [Hg Hp] [Halt Hlen].
  destruct (HistoryFacts.pass_under_guard h Hg)
    as (m1 & m2 & ms & i & o & costs & Hm & Hc & _ & Hp').
  rewrite Hp in Hp'. injection Hp' as ->.
  rewrite Hm in Halt, Hlen. rewrite Hc in Hlen. simpl in Halt, Hlen.
  apply andb_true_iff in Halt as [_ Halt].
  apply andb_true_iff in Halt as [_ Halt].
  unfold shaped, place_notice. simpl.
  destruct ms as [|m ms]; [simpl in Hlen; lia|].
  destruct costs as [|[i' o'] costs]; simpl in *.
  - split; [exact Halt | lia].
  - apply andb_true_iff in Halt as [_ Halt].
    split; [exact Halt | lia].
Qed.

Lemma passes_shaped k h h' :
  nsteps pass k h h' -> shaped LoopTop h -> shaped LoopTop h'.
Proof.
  induction 1 as [|k h h1 h' Hstep _ IH]; [auto|].
  intros Hs. apply IH. eapply pass_shaped; eassumption.
Qed.

Lemma loop_runs_passes n h h' : loop_runs n h h' -> nsteps pass n h h'.
Proof.
  induction 1 as [h Hg | n h h1 h' Hg Hp _ IH].
  - constructor.
  - econstructor; [split; eassumption | exact IH].
Qed.

(** [truncate] ends in a state its loop passes through. *)
Lemma truncate_passes h h' :
  truncate h = Done h' -> exists k, nsteps pass k h h'.
Proof.
  intros Htr.
  destruct (HistoryFacts.truncate_loop_runs h) as (n & h'' & _ & Hruns & Htr').
  rewrite Htr in Htr'. injection Htr' as ->.
  exists n. apply loop_runs_passes, Hruns.
Qed.

(** Every point of the loop is reached with the form of that point. *)
Lemma reachable_shaped p h : reachable p h -> shaped p h.
Proof.
  induction 1 as [model system budget system_token
                 | h user_input _ [Halt Hlen]
                 | h h' _ IH Htr
                 | h response _ [Halt Hlen]
                 | h calls tool_results _ [Halt Hlen] Hcalls Hres
                 | h _ IH].
  - split; reflexivity.
  - split.
    + rewrite add_message_messages, alternates_snoc, Halt, Hlen, odd_double.
      reflexivity.
    + rewrite add_message_messages, add_message_user_entries, length_app.
      simpl. lia.
  - destruct (truncate_passes _ _ Htr) as [k Hk].
    destruct (passes_shaped _ _ _ Hk IH) as [Halt Hlen].
    split; assumption.
  - split.
    + rewrite add_message_messages, alternates_snoc, Halt, Hlen, odd_double_succ.
      reflexivity.
    + rewrite add_message_messages, add_message_assistant_entries, length_app.
      simpl. lia.
  - split.
    + rewrite add_message_messages, alternates_snoc, Halt, Hlen, odd_double.
      reflexivity.
    + rewrite add_message_messages, add_message_user_entries, length_app.
      simpl. lia.
  - exact IH.
Qed.

(** The fourth run of the scenario is a history of the loop. *)
Lemma fourth_run_reachable : reachable LoopTop Scenarios.fourth_run.
Proof.
  pose (r1 := MkResponse [text_block "a1"] (Scenarios.usage 10 5)).
  pose (r2 := MkResponse [text_block "a2"] (Scenarios.usage 25 5)).
  pose (r3 := MkResponse [text_block "a3"] (Scenarios.usage 40 5)).
  apply (reach_run _ "q4"), reach_return.
  apply (reach_response _ r3).
  eapply reach_truncate;
    [|apply HistoryFacts.truncate_within_budget; vm_compute; discriminate].
  apply (reach_run _ "q3"), reach_return.
  apply (reach_response _ r2).
  eapply reach_truncate;
    [|apply HistoryFacts.truncate_within_budget; vm_compute; discriminate].
  apply (reach_run _ "q2"), reach_return.
  apply (reach_response _ r1).
  eapply reach_truncate;
    [|apply HistoryFacts.truncate_within_budget; vm_compute; discriminate].
  apply (reach_run _ "q1").
  apply (reach_init "m" "s" 30 0).
Qed.

(** C7, as amended.  In every history the agent's loop reaches before
    [truncate()], after the call and after each iteration of its loop
    the number of turns kept is odd (a user turn was just added, and
    turns go two at a time) and the first turn has role ["user"]. *)
Theorem pairing_after_eviction h h' :
  reachable LoopTop h ->
  truncate h = Done h' \/ (exists k, nsteps pass k h h') ->
  Nat.Odd (length (messages h')) /\
  exists m, head (messages h') = Some m /\ role m = "user".
Proof.
  intros Hreach Hafter.
  assert (Hk : exists k, nsteps pass k h h').
  { destruct Hafter as [Htr | Hk]; [eapply truncate_passes, Htr | exact Hk]. }
  destruct Hk as [k Hk].
  destruct (passes_shaped _ _ _ Hk (reachable_shaped _ _ Hreach)) as [Halt Hlen].
  split.
  - exists (length (message_tokens h')). exact Hlen.
  - destruct (messages h') as [|m ms]; [simpl in Hlen; lia|].
    exists m. split; [reflexivity|].
    simpl in Halt. apply andb_true_iff in Halt as [Hrole _].
    apply String.eqb_eq, Hrole.
Qed.

(** The theorem at the fourth run of the scenario. *)
Lemma pairing_after_eviction_witness :
  exists h',
    truncate Scenarios.fourth_run = Done h' /\
    Nat.Odd (length (messages h')) /\
    exists m, head (messages h') = Some m /\ role m = "user".
Proof.
  eexists. split; [vm_compute; reflexivity|].
  eapply (pairing_after_eviction Scenarios.fourth_run).
  - exact fourth_run_reachable.
  - left. vm_compute. reflexivity.
Defined.

(** C7 as stated fails: the fourth run of the scenario reaches
    [truncate()] with seven turns, the call removes two pairs, and the
    three turns it keeps are neither none nor an even number. *)
Lemma pairing_after_eviction_counterexample :
  exists h h',
    reachable LoopTop h /\
    length (messages h) = 7%nat /\
    truncate h = Done h' /\
    reachable Truncated h' /\
    length (messages h') = 3%nat /\
    length (messages h') <> 0%nat /\
    ~ Nat.Even (length (messages h')).
Proof.
  exists Scenarios.fourth_run. eexists.
  split; [exact fourth_run_reachable|].
  split; [reflexivity|].
  assert (Htr : truncate Scenarios.fourth_run
                = Done (match truncate Scenarios.fourth_run with
                        | Done g => g
                        | _ => Scenarios.fourth_run
                        end)) by (vm_compute; reflexivity).
  split; [exact Htr|].
  split; [eapply reach_truncate; [exact fourth_run_reachable | exact Htr]|].
  match goal with |- length ?l = 3%nat /\ _ =>
    assert (Hlen : length l = 3%nat) by (vm_compute; reflexivity) end.
  rewrite Hlen.
  split; [reflexivity|].
  split; [discriminate|].
  intros [k Hk]. lia.
Qed.

End LoopFacts.

(* --------------------------------------------------------------------- *)
(** ** Awaiting and gathering tasks that return *)
(* --------------------------------------------------------------------- *)

Module GatherFacts.
Import Py Coro.

Section Tasks.
Context {W A : Type}.


End Tasks.

Section Gather.
Context {W A : Type}.
Variable P : nat -> A -> Prop.





End Gather.

End GatherFacts.

(* --------------------------------------------------------------------- *)
(** ** The dispatcher *)
(* --------------------------------------------------------------------- *)

Module DispatchFacts.
Import Py Coro ToolUtil.

Section Single.
Context {World : Type}.
Variable py_str : pyval -> string.

(** The two error responses and the response of a call that returned. *)
Lemma response_not_found_fields (call : ToolUse) :
  let r := <["is_error" := VBool true]>
             (<["content" := VStr ("Tool '" +:+ name call +:+ "' not found")]>
                (new_response call)) in
  r !! "tool_use_id" = Some (VStr (id call)) /\
  r !! "is_error" = Some (VBool true).
Proof.
  unfold new_response. split; simplify_map_eq; reflexivity.
Qed.

(** X6.  A name absent from the registry: the error names it. *)
Lemma unknown_tool (call : ToolUse) (tool_dict : gmap string (Tool World)) w :
  tool_dict !! name call = None ->
  _execute_single_tool py_str call tool_dict w
  = (Returns (<["is_error" := VBool true]>
                (<["content" := VStr ("Tool '" +:+ name call +:+ "' not found")]>
                   (new_response call))), w).
Proof.
  intros Hnone.
  unfold _execute_single_tool, try_except, call_tool, mbind, coro_bind, bind.
  rewrite Hnone. reflexivity.
Qed.

(** A tool that returns: the content is [str] of its value, and there
    is no ["is_error"] key. *)
Lemma tool_success (call : ToolUse) (tool_dict : gmap string (Tool World))
    execute result w w' :
  tool_dict !! name call = Some (Executable execute) ->
  execute (input call) w = (Returns result, w') ->
  _execute_single_tool py_str call tool_dict w
  = (Returns (<["content" := VStr (py_str result)]> (new_response call)), w') /\
  (<["content" := VStr (py_str result)]> (new_response call)) !! "is_error" = None.
Proof.
  intros Htool Hrun.
  unfold _execute_single_tool, try_except, call_tool, mbind, coro_bind, bind.
  rewrite Htool, Hrun. split; [reflexivity|].
  unfold new_response. simplify_map_eq. reflexivity.
Qed.

(** A tool that raises anything but a [KeyError]: the error carries
    the exception's text. *)
Lemma tool_failure (call : ToolUse) (tool_dict : gmap string (Tool World))
    execute e w w' :
  tool_dict !! name call = Some (Executable execute) ->
  execute (input call) w = (Raises e, w') ->
  is_KeyError e = false ->
  _execute_single_tool py_str call tool_dict w
  = (Returns (<["is_error" := VBool true]>
                (<["content" := VStr ("Error executing tool: " +:+ exn_str e)]>
                   (new_response call))), w').
Proof.
  intros Htool Hrun Hcls.
  unfold _execute_single_tool, try_except, call_tool, mbind, coro_bind, bind.
  rewrite Htool, Hrun, Hcls. reflexivity.
Qed.

(** C4 fails on the code.  When the tool is in the registry and its
    [execute] raises a [KeyError], the handler written for a missing
    name takes it: the response says the tool was not found, where the
    claim has "Error executing tool: ..." for every exception of a
    tool that is present. *)
Theorem key_error_reported_as_missing (call : ToolUse)
    (tool_dict : gmap string (Tool World)) execute e w w' :
  tool_dict !! name call = Some (Executable execute) ->
  execute (input call) w = (Raises e, w') ->
  is_KeyError e = true ->
  _execute_single_tool py_str call tool_dict w
  = (Returns (<["is_error" := VBool true]>
                (<["content" := VStr ("Tool '" +:+ name call +:+ "' not found")]>
                   (new_response call))), w').
Proof.
  intros Htool Hrun Hcls.
  unfold _execute_single_tool, try_except, call_tool, mbind, coro_bind, bind.
  rewrite Htool, Hrun, Hcls. reflexivity.
Qed.


End Single.

(** The theorem at the registry of the scenarios. *)
Lemma key_error_reported_as_missing_witness :
  @_execute_single_tool unit Scenarios.str_of Scenarios.weather_call
    Scenarios.registry ()
  = (Returns (<["is_error" := VBool true]>
                (<["content" := VStr "Tool 'weather' not found"]>
                   (new_response Scenarios.weather_call))), ()).
Proof.
  apply (key_error_reported_as_missing Scenarios.str_of Scenarios.weather_call Scenarios.registry
           (fun _ w => (Raises (Exn KeyError "'city'"), w))
           (Exn KeyError "'city'") () ()).
  - reflexivity.
  - reflexivity.
  - reflexivity.
Defined.

End DispatchFacts.

(* --------------------------------------------------------------------- *)
(** ** The connections: what is released, and when *)
(* --------------------------------------------------------------------- *)

Module ConnectionFacts.
Import Py Coro Connections.

Lemma calls_of_app self o l l' :
  calls_of self o (l ++ l') = (calls_of self o l + calls_of self o l')%nat.
Proof. unfold calls_of. rewrite filter_app, length_app. reflexivity. Qed.

Section Run.
Variable server : transport -> remote.
Variable repr_config : server_config -> string.

Lemma behaviour_at self c w :
  objects w !! self = Some c ->
  behaviour server self w = (Returns (server (kind c)), w).
Proof.
  intros Hc. unfold behaviour, get, mbind, coro_bind, bind, mret, coro_ret, ret.
  rewrite (lookup_total_correct _ _ _ Hc). reflexivity.
Qed.

(** C5 fails on the code.  Both releases stand in one [try] block:
    when leaving the session raises, the handler prints the error and
    the [finally] clause clears the three attributes, and the
    read/write context of the transport channel is never left.  The
    call returns, with no call of [RwExit] made. *)
Theorem session_failure_skips_transport self c w e :
  objects w !! self = Some c ->
  _session_ctx c = true ->
  _rw_ctx c = true ->
  on_session_exit (server (kind c)) = Some e ->
  __aexit__ server self w
  = (Returns (),
     MkWorld (<[self := MkConnection (kind c) false false false]> (objects w))
       (log w ++ [Call self SessionExit;
                  Print ("Error during cleanup: " +:+ exn_str e)])
       (callbacks w)) /\
  calls_of self RwExit
    (log w ++ [Call self SessionExit; Print ("Error during cleanup: " +:+ exn_str e)])
  = calls_of self RwExit (log w).
Proof.
  intros Hc Hs Hr He. split.
  - unfold __aexit__, try_finally, try_except, release.
    unfold mbind, coro_bind, bind at 1. rewrite (behaviour_at _ _ _ Hc).
    unfold bind at 1. unfold get at 1.
    rewrite (lookup_total_correct _ _ _ Hc), Hs.
    unfold bind at 1. unfold external, mbind, coro_bind. rewrite He.
    unfold bind at 1. unfold emit at 1. unfold raise at 1.
    unfold emit, update. simpl.
    rewrite (lookup_total_correct _ _ _ Hc), <- app_assoc. reflexivity.
  - rewrite calls_of_app. unfold calls_of at 2. simpl.
    rewrite filter_cons_False by discriminate.
    rewrite filter_cons_False by discriminate.
    simpl. lia.
Qed.

(** When leaving the session returns, the transport channel is
    released next. *)
Lemma session_release_then_transport self c w :
  objects w !! self = Some c ->
  _session_ctx c = true ->
  _rw_ctx c = true ->
  on_session_exit (server (kind c)) = None ->
  exists w',
    __aexit__ server self w = (Returns (), w') /\
    exists printed,
      log w' = log w ++ [Call self SessionExit; Call self RwExit] ++ printed.
Proof.
  intros Hc Hs Hr He.
  unfold __aexit__, try_finally, try_except, release.
  unfold mbind, coro_bind, bind at 1. rewrite (behaviour_at _ _ _ Hc).
  unfold bind at 1. unfold get at 1.
  rewrite (lookup_total_correct _ _ _ Hc), Hs.
  unfold bind at 1. unfold external, mbind, coro_bind. rewrite He.
  unfold bind at 1. unfold emit at 1. unfold mret, coro_ret, ret at 1.
  unfold bind at 1. unfold get at 1. cbn [objects].
  rewrite (lookup_total_correct _ _ _ Hc), Hr.
  unfold bind at 1. unfold emit at 1.
  destruct (on_rw_exit (server (kind c))) as [e'|]; simpl.
  - eexists. split; [reflexivity|]. simpl.
    exists [Print ("Error during cleanup: " +:+ exn_str e')].
    rewrite <- !app_assoc. reflexivity.
  - eexists. split; [reflexivity|]. simpl.
    exists []. rewrite <- !app_assoc. reflexivity.
Qed.

(** [__aenter__] when the two contexts open and the handshake raises:
    the three calls are logged, the three attributes are set, and the
    exception goes to the caller. *)
Lemma aenter_handshake_raises self c w e :
  objects w !! self = Some c ->
  on_rw_enter (server (kind c)) = None ->
  on_session_enter (server (kind c)) = None ->
  on_initialize (server (kind c)) = Some e ->
  __aenter__ server self w
  = (Raises e,
     MkWorld (<[self := MkConnection (kind c) true true true]> (objects w))
       (log w ++ [Call self RwEnter; Call self SessionEnter;
                  Call self SessionInitialize])
       (callbacks w)).
Proof.
  intros Hc Hrw Hse Hin.
  unfold __aenter__.
  unfold mbind, coro_bind, bind at 1. rewrite (behaviour_at _ _ _ Hc).
  unfold external, mbind, coro_bind. rewrite Hrw, Hse, Hin.
  unfold bind, update, emit, raise, mret, coro_ret, ret. simpl.
  rewrite (lookup_total_correct _ _ _ Hc).
  rewrite !lookup_total_insert_eq. simpl.
  rewrite !insert_insert_eq, <- !app_assoc. reflexivity.
Qed.

(** C6 fails on the code.  When the transport channel and the session
    open and the handshake raises, [__aenter__] lets the exception
    out with both contexts entered and none left: between entering
    the call and the exception no [RwExit] is made, where the claim
    has exactly one. *)
Theorem handshake_failure_leaves_transport self c w e :
  objects w !! self = Some c ->
  on_rw_enter (server (kind c)) = None ->
  on_session_enter (server (kind c)) = None ->
  on_initialize (server (kind c)) = Some e ->
  exists w',
    __aenter__ server self w = (Raises e, w') /\
    log w' = log w ++ [Call self RwEnter; Call self SessionEnter;
                       Call self SessionInitialize] /\
    calls_of self RwEnter (log w') = S (calls_of self RwEnter (log w)) /\
    calls_of self RwExit (log w') = calls_of self RwExit (log w).
Proof.
  intros Hc Hrw Hse Hin.
  eexists. split; [apply (aenter_handshake_raises _ _ _ _ Hc Hrw Hse Hin)|].
  cbn [log]. split; [reflexivity|].
  split.
  - rewrite calls_of_app. unfold calls_of at 2.
    rewrite filter_cons_True by reflexivity.
    rewrite !filter_cons_False by discriminate.
    simpl. lia.
  - rewrite calls_of_app. unfold calls_of at 2.
    rewrite !filter_cons_False by discriminate.
    simpl. lia.
Qed.

Lemma missing_nonempty s : s <> "" -> missing (Some s) = false.
Proof. intros Hs. apply String.eqb_neq, Hs. Qed.

Lemma create_stdio command args env :
  command <> "" ->
  create_mcp_connection (MkConfig None (Some command) args env None None) empty_world
  = (Returns 0%nat,
     MkWorld {[ 0%nat := MkConnection (MCPConnectionStdio command args env)
                           false false false ]} [] []).
Proof.
  intros Hcmd. unfold create_mcp_connection. cbn [cfg_type cfg_command default].
  change (lower "stdio") with "stdio". cbn [String.eqb Ascii.eqb Bool.eqb].
  rewrite (missing_nonempty _ Hcmd). reflexivity.
Qed.

(** X23.  When the handshake of a server raises, the run around it
    does not release the channel either: the
    exception leaves [enter_async_context] before the connection's
    [__aexit__] is pushed, [setup_mcp_connections] prints it and goes
    on, and leaving the exit stack finds nothing to call.  The log of
    the whole scope has the three calls of the failed opening and the
    two printed lines. *)
Lemma failed_handshake_never_released command args env e rw_exit session_exit tools :
  command <> "" ->
  server (MCPConnectionStdio command args env)
  = MkRemote None rw_exit None session_exit (Some e) tools ->
  let config := MkConfig None (Some command) args env None None in
  exists w',
    run_scope server repr_config [config] (fun mcp_tools => mret mcp_tools) empty_world
    = (Returns [], w') /\
    log w'
    = [Call 0 RwEnter; Call 0 SessionEnter; Call 0 SessionInitialize;
       Print ("Error setting up MCP server " +:+ repr_config config +:+ ": "
                +:+ exn_str e);
       Print ("Loaded " +:+ pretty 0%nat +:+ " MCP tools from " +:+ pretty 1%nat
                +:+ " servers.")] /\
    callbacks w' = [].
Proof.
  intros Hcmd Hsrv config.
  assert (Hconnect :
    connect_one server config empty_world
    = (Raises e,
       MkWorld {[ 0%nat := MkConnection (MCPConnectionStdio command args env)
                             true true true ]}
         [Call 0 RwEnter; Call 0 SessionEnter; Call 0 SessionInitialize] [])).
  { unfold connect_one, mbind, coro_bind. unfold bind at 1.
    unfold config. rewrite (create_stdio _ _ _ Hcmd).
    unfold enter_async_context, mbind, coro_bind. unfold bind at 1 2.
    rewrite (aenter_handshake_raises 0%nat
               (MkConnection (MCPConnectionStdio command args env) false false false)
               (MkWorld {[ 0%nat := MkConnection (MCPConnectionStdio command args env)
                            false false false ]} [] []) e).
    - simpl. rewrite insert_singleton_eq. reflexivity.
    - apply lookup_singleton_eq.
    - simpl. rewrite Hsrv. reflexivity.
    - simpl. rewrite Hsrv. reflexivity.
    - simpl. rewrite Hsrv. reflexivity. }
  unfold run_scope, try_finally, setup_mcp_connections. cbn [truthy].
  unfold mbind, coro_bind. unfold bind at 1. cbn [setup_loop].
  unfold mbind, coro_bind. unfold bind at 1 2. unfold try_except.
  rewrite Hconnect.
  eexists. split; [reflexivity|]. split; reflexivity.
Qed.

End Run.

(** The two theorems at the stdio server of the scenarios. *)
Lemma session_failure_skips_transport_witness :
  exists w',
    __aexit__ Scenarios.fails_session_exit 0%nat Scenarios.open_world
    = (Returns (), w') /\
    calls_of 0 SessionExit (log w') = 1%nat /\
    calls_of 0 RwExit (log w') = 0%nat.
Proof.
  destruct (session_failure_skips_transport Scenarios.fails_session_exit 0%nat
              (MkConnection Scenarios.stdio_transport true true true)
              Scenarios.open_world (Exn (Other "RuntimeError") "session is closed"))
    as [Hrun Hcalls].
  - reflexivity.
  - reflexivity.
  - reflexivity.
  - reflexivity.
  - eexists. split; [exact Hrun|]. split; reflexivity.
Defined.

Lemma handshake_failure_leaves_transport_witness :
  exists w',
    __aenter__ Scenarios.refuses_handshake 0%nat Scenarios.closed_world
    = (Raises (Exn (Other "McpError") "handshake refused"), w') /\
    calls_of 0 RwEnter (log w') = 1%nat /\
    calls_of 0 RwExit (log w') = 0%nat.
Proof.
  destruct (handshake_failure_leaves_transport Scenarios.refuses_handshake 0%nat
              (MkConnection Scenarios.stdio_transport false false false)
              Scenarios.closed_world (Exn (Other "McpError") "handshake refused"))
    as (w' & Hrun & Hlog & Henter & Hexit).
  - reflexivity.
  - reflexivity.
  - reflexivity.
  - reflexivity.
  - exists w'. split; [exact Hrun|]. rewrite Henter, Hexit. split; reflexivity.
Defined.

End ConnectionFacts.

(* --------------------------------------------------------------------- *)
(** ** The request: which value each key gets *)
(* --------------------------------------------------------------------- *)

Module RequestFacts.
Import Py HistoryUtil AgentPy.

(** The computed keys are the six of the dictionary display, and
    ["extra_headers"] is none of them. *)
Lemma computed_keys (self : Agent) :
  dom (computed_params self)
  = list_to_set ["model"; "max_tokens"; "temperature"; "system"; "messages"; "tools"].
Proof.
  unfold computed_params. rewrite !dom_insert_L, dom_singleton_L.
  set_solver.
Qed.

Lemma computed_no_headers (self : Agent) :
  computed_params self !! "extra_headers" = None.
Proof. unfold computed_params. simplify_map_eq. reflexivity. Qed.

(** The caller's value wins on every key of [_prepare_message_params]. *)
Lemma prepare_lookup (self : Agent) key :
  _prepare_message_params self !! key
  = match message_params self !! key with
    | Some v => Some v
    | None => computed_params self !! key
    end.
Proof.
  unfold _prepare_message_params, unpack_both. rewrite lookup_union.
  destruct (message_params self !! key); [|rewrite (left_id_L None _)]; try reflexivity.
  destruct (computed_params self !! key); reflexivity.
Qed.

(** X28.  A value of ["extra_headers"] that is no dictionary cannot be
    unpacked: the request is not made. *)
Lemma headers_not_a_mapping (self : Agent) v :
  message_params self !! "extra_headers" = Some v ->
  (forall d, v <> VDict d) ->
  exists e, create_arguments self = Raises e /\ exn_cls e = TypeError.
Proof.
  intros Hv Hnot. unfold create_arguments.
  rewrite prepare_lookup, Hv.
  destruct v; try (eexists; split; reflexivity).
  exfalso. eapply Hnot. reflexivity.
Qed.

(** C8.  Whatever the caller's [message_params], with ["extra_headers"]
    absent from it or a dictionary [supplied], the request is made with
    these arguments: on every key but ["extra_headers"] the caller's
    value when there is one, whole, and the computed value otherwise;
    under ["extra_headers"] a dictionary that has, header by header,
    the caller's entry when there is one and the default entry
    otherwise. *)
Theorem request_precedence (self : Agent) (supplied : option (gmap string pyval)) :
  message_params self !! "extra_headers" = VDict <$> supplied ->
  exists kwargs,
    create_arguments self = Returns kwargs /\
    (forall key,
       key <> "extra_headers" ->
       kwargs !! key
       = match message_params self !! key with
         | Some v => Some v
         | None => computed_params self !! key
         end) /\
    exists headers,
      kwargs !! "extra_headers" = Some (VDict headers) /\
      forall h,
        headers !! h
        = match supplied ≫= (fun custom => custom !! h) with
          | Some v => Some v
          | None => default_headers !! h
          end.
Proof.
  intros Hheaders. unfold create_arguments.
  rewrite prepare_lookup, Hheaders.
  destruct supplied as [custom|]; simpl.
  - eexists. split; [reflexivity|]. split.
    + intros key Hkey.
      rewrite lookup_insert_ne by congruence.
      rewrite lookup_delete_ne by congruence.
      apply prepare_lookup.
    + eexists. split; [apply lookup_insert_eq|].
      intros h. unfold unpack_both. rewrite lookup_union.
      destruct (custom !! h); [|rewrite (left_id_L None _)]; try reflexivity.
      destruct (default_headers !! h); reflexivity.
  - rewrite computed_no_headers.
    eexists. split; [reflexivity|]. split.
    + intros key Hkey.
      rewrite lookup_insert_ne by congruence.
      apply prepare_lookup.
    + eexists. split; [apply lookup_insert_eq|].
      intros h. reflexivity.
Qed.

(** The theorem at the agent with the combined overrides: the caller's
    temperature and beta header replace the defaults, the other header
    is added, and the configured token limit stays. *)
Lemma request_precedence_witness :
  exists kwargs headers,
    create_arguments Scenarios.combined_agent = Returns kwargs /\
    kwargs !! "temperature" = Some (VFloat "0.8") /\
    kwargs !! "max_tokens" = Some (VInt 4096) /\
    kwargs !! "extra_headers" = Some (VDict headers) /\
    headers !! "X-Test" = Some (VStr "combined") /\
    headers !! "anthropic-beta" = Some (VStr "files-api-2025-04-14").
Proof.
  destruct (request_precedence Scenarios.combined_agent
              (Some Scenarios.combined_headers))
    as (kwargs & Hrun & Hkeys & headers & Hh & Hmerge).
  - reflexivity.
  - exists kwargs, headers. split; [exact Hrun|].
    split; [rewrite (Hkeys "temperature") by discriminate; reflexivity|].
    split; [rewrite (Hkeys "max_tokens") by discriminate; reflexivity|].
    split; [exact Hh|].
    split; rewrite Hmerge; reflexivity.
Defined.

End RequestFacts.

(* --------------------------------------------------------------------- *)
(** ** Rendering the history: what is made and what is kept *)
(* --------------------------------------------------------------------- *)

Module StoreFacts.
Import Py Coro Store.

(** *** The primitives *)

Lemma fresh_unused (σ : store) : σ !! fresh (dom σ) = None.
Proof. apply not_elem_of_dom, is_fresh. Qed.

Lemma new_extends (o : obj) (σ : store) :
  σ ⊆ <[fresh (dom σ) := o]> σ.
Proof. apply insert_subseteq, fresh_unused. Qed.

Lemma as_list_at (σ : store) l xs :
  σ !! l = Some (OList xs) -> as_list (SRef l) σ = (Returns xs, σ).
Proof. intros H. unfold as_list. rewrite H. reflexivity. Qed.

Lemma as_dict_at (σ : store) l d :
  σ !! l = Some (ODict d) -> as_dict (SRef l) σ = (Returns d, σ).
Proof. intros H. unfold as_dict. rewrite H. reflexivity. Qed.

Lemma getitem_at (σ : store) l d key x :
  σ !! l = Some (ODict d) -> d !! key = Some x ->
  getitem (SRef l) key σ = (Returns x, σ).
Proof.
  intros Hl Hk. unfold getitem, mbind, coro_bind, bind.
  rewrite (as_dict_at _ _ _ Hl), Hk. reflexivity.
Qed.

Lemma last_item_at (σ : store) l xs x :
  σ !! l = Some (OList xs) -> last xs = Some x ->
  last_item (SRef l) σ = (Returns x, σ).
Proof.
  intros Hl Hx. unfold last_item, mbind, coro_bind, bind.
  rewrite (as_list_at _ _ _ Hl), Hx. reflexivity.
Qed.

Lemma is_turn_weaken (σ σ' : store) t r c :
  σ ⊆ σ' -> is_turn σ t r c -> is_turn σ' t r c.
Proof.
  intros Hsub (l & d & -> & Hl & Hr & Hc).
  exists l, d. repeat split; try assumption.
  eapply lookup_weaken; eassumption.
Qed.

(** *** List comprehensions that allocate their items *)

Section Comprehension.
Context {A : Type}.
Variable f : A -> coro store sval.
(** What is known of the object made for [x], at [l], in a store. *)
Variable Q : A -> nat -> store -> Prop.
Hypothesis Q_weaken : forall x l σ σ', σ ⊆ σ' -> Q x l σ -> Q x l σ'.

Lemma comprehension_allocates (xs : list A) :
  forall σ,
    (forall x σ1, x ∈ xs -> σ ⊆ σ1 ->
       exists l σ2,
         f x σ1 = (Returns (SRef l), σ2) /\ σ1 ⊆ σ2 /\
         σ1 !! l = None /\ is_Some (σ2 !! l) /\ Q x l σ2) ->
    exists ys σ',
      comprehension f xs σ = (Returns ys, σ') /\
      σ ⊆ σ' /\
      Forall2 (fun x y => exists l, y = SRef l /\ σ !! l = None /\ Q x l σ') xs ys /\
      NoDup ys.
Proof.
  induction xs as [|x xs IH]; intros σ Hf.
  - exists [], σ. split; [reflexivity|]. split; [reflexivity|].
    split; constructor.
  - destruct (Hf x σ) as (l & σ1 & Hrun & Hsub & Hfresh & Hin & HQ);
      [left | reflexivity |].
    destruct (IH σ1) as (ys & σ' & Hrest & Hsub' & Hall & Hnd).
    { intros x' σ2 Hx' Hσ2. apply Hf; [right; exact Hx'|].
      etrans; eassumption. }
    exists (SRef l :: ys), σ'.
    cbn [comprehension]. unfold mbind, coro_bind, bind. rewrite Hrun, Hrest.
    split; [reflexivity|]. split; [etrans; eassumption|]. split.
    + constructor.
      * exists l. split; [reflexivity|]. split; [exact Hfresh|].
        eapply Q_weaken; eassumption.
      * eapply Forall2_impl; [exact Hall|].
        intros x' y (l' & -> & Hl' & HQ'). exists l'.
        split; [reflexivity|]. split; [|exact HQ'].
        destruct (σ !! l') eqn:E; [|reflexivity].
        rewrite (lookup_weaken _ _ _ _ E Hsub) in Hl'. discriminate.
    + constructor; [|exact Hnd].
      intros Hmem. apply (Forall2_flip) in Hall.
      rewrite Forall2_lookup in Hall.
      apply list_elem_of_lookup in Hmem as [i Hi].
      specialize (Hall i). rewrite Hi in Hall. inversion Hall as [? ? Hy|].
      destruct Hy as (l' & [= <-] & Hl' & _).
      destruct Hin as [o Ho]. congruence.
Qed.

End Comprehension.

(** *** The two comprehensions of [format_for_api] *)

Lemma copy_turn_allocates (σ0 σ1 : store) m r c :
  is_turn σ0 m r c -> σ0 ⊆ σ1 ->
  exists l σ2,
    copy_turn m σ1 = (Returns (SRef l), σ2) /\ σ1 ⊆ σ2 /\
    σ1 !! l = None /\ is_Some (σ2 !! l) /\ turn_made σ0 m l σ2.
Proof.
  intros Hturn Hsub.
  pose proof Hturn as (lm & d & -> & Hl & Hr & Hc).
  pose proof (lookup_weaken _ _ _ _ Hl Hsub) as Hl1.
  exists (fresh (dom σ1)), (<[fresh (dom σ1) := ODict {[ "role" := r; "content" := c ]}]> σ1).
  split.
  { unfold copy_turn, mbind, coro_bind. unfold bind at 1.
    rewrite (getitem_at _ _ _ _ _ Hl1 Hr). unfold bind at 1.
    rewrite (getitem_at _ _ _ _ _ Hl1 Hc). reflexivity. }
  split; [apply new_extends|]. split; [apply fresh_unused|].
  split; [rewrite lookup_insert_eq; eauto|].
  exists r, c. split; [exact Hturn | apply lookup_insert_eq].
Qed.

Lemma annotate_allocates (σ0 σ1 : store) lb d :
  σ0 !! lb = Some (ODict d) -> σ0 ⊆ σ1 ->
  exists l σ2,
    annotate (SRef lb) σ1 = (Returns (SRef l), σ2) /\ σ1 ⊆ σ2 /\
    σ1 !! l = None /\ is_Some (σ2 !! l) /\ block_made σ0 (SRef lb) l σ2.
Proof.
  intros Hb Hsub.
  pose proof (lookup_weaken _ _ _ _ Hb Hsub) as Hb1.
  set (lm := fresh (dom σ1)).
  set (σm := <[lm := ODict {[ "type" := SStr "ephemeral" ]}]> σ1).
  set (l := fresh (dom σm)).
  exists l, (<[l := ODict (<["cache_control" := SRef lm]> d)]> σm).
  assert (Hne : l <> lm).
  { intros Heq. pose proof (fresh_unused σm) as Hf. fold l in Hf.
    rewrite Heq in Hf. unfold σm in Hf. rewrite lookup_insert_eq in Hf. discriminate. }
  split.
  { unfold annotate, mbind, coro_bind. unfold bind at 1.
    rewrite (as_dict_at _ _ _ Hb1). reflexivity. }
  split.
  { etrans; [apply new_extends | apply new_extends]. }
  split.
  { pose proof (fresh_unused σm) as Hf. fold l in Hf. unfold σm in Hf.
    rewrite lookup_insert_ne in Hf by congruence. exact Hf. }
  split; [rewrite lookup_insert_eq; eauto|].
  exists lb, d, lm. split; [reflexivity|]. split; [exact Hb|].
  split; [apply lookup_insert_eq|].
  rewrite lookup_insert_ne by congruence. apply lookup_insert_eq.
Qed.

Lemma turn_made_weaken σ0 m l (σ σ' : store) :
  σ ⊆ σ' -> turn_made σ0 m l σ -> turn_made σ0 m l σ'.
Proof.
  intros Hsub (r & c & Hturn & Hl). exists r, c. split; [exact Hturn|].
  eapply lookup_weaken; eassumption.
Qed.

Lemma block_made_weaken σ0 b l (σ σ' : store) :
  σ ⊆ σ' -> block_made σ0 b l σ -> block_made σ0 b l σ'.
Proof.
  intros Hsub (lb & d & lm & Hb & Hd & Hl & Hm). exists lb, d, lm.
  repeat split; try assumption; eapply lookup_weaken; eassumption.
Qed.

(** *** Markers on persisted content *)

Lemma block_marked_stable (σ σ' : store) b :
  σ ⊆ σ' -> val_ok σ b = true -> block_marked σ' b = block_marked σ b.
Proof.
  intros Hsub Hok. destruct b as [| | | |l]; try reflexivity.
  simpl in Hok. apply bool_decide_eq_true in Hok as [o Ho].
  simpl. rewrite Ho, (lookup_weaken _ _ _ _ Ho Hsub). reflexivity.
Qed.

Lemma turn_marked_content (σ : store) l d c :
  σ !! l = Some (ODict d) -> d !! "content" = Some c ->
  turn_marked σ (SRef l) = content_marked σ c.
Proof.
  intros Hl Hc. unfold turn_marked. rewrite Hl, Hc. reflexivity.
Qed.

Lemma content_marked_stable (σ σ' : store) l d c :
  closed σ -> σ ⊆ σ' ->
  σ !! l = Some (ODict d) -> d !! "content" = Some c ->
  content_marked σ' c = content_marked σ c.
Proof.
  intros Hclosed Hsub Hl Hc.
  pose proof (Hclosed _ _ Hl) as Hd. simpl in Hd.
  apply bool_decide_eq_true in Hd.
  pose proof (Hd _ _ Hc) as Hcok. simpl in Hcok.
  destruct c as [| | | |lc]; try reflexivity.
  simpl in Hcok. apply bool_decide_eq_true in Hcok as [o Ho].
  unfold content_marked. rewrite Ho, (lookup_weaken _ _ _ _ Ho Hsub).
  destruct o as [|blocks]; [reflexivity|].
  pose proof (Hclosed _ _ Ho) as Hbs. simpl in Hbs.
  clear Ho. induction blocks as [|b blocks IH]; [reflexivity|].
  simpl in Hbs. apply andb_true_iff in Hbs as [Hb Hbs].
  simpl. rewrite (block_marked_stable _ _ _ Hsub Hb), (IH Hbs). reflexivity.
Qed.

(** C9, as amended.  In a store without dangling references and a
    well-formed history of at least one message, [format_for_api]
    returns a new list of new turns, one per message, and every object
    of the store before the call is in the store after it, unchanged:
    the persisted turns and their blocks among them.  Each returned
    turn has the role of its message.  With caching on, the content of
    the last one is a new list of new blocks, the entries of the
    persisted blocks with the marker added.  The content of every other
    turn (of every turn, with caching off) is the persisted content
    object itself, so that the turn carries a marker exactly when the
    persisted turn does. *)
Theorem render_marks_last_turn (σ : store) (self : MessageHistory) (ms : list sval) :
  well_formed σ self ms -> closed σ -> ms <> [] ->
  exists result σ' turns,
    format_for_api self σ = (Returns result, σ') /\
    σ ⊆ σ' /\
    (exists l, result = SRef l /\ σ' !! l = Some (OList turns)) /\
    length turns = length ms /\
    forall i m t,
      ms !! i = Some m -> turns !! i = Some t ->
      exists r c,
        is_turn σ m r c /\
        if bool_decide (S i = length ms) && enable_caching self
        then exists c' blocks,
               is_turn σ' t r c' /\ is_blocks σ c blocks /\ is_annotated σ' c' blocks
        else is_turn σ' t r c /\ turn_marked σ' t = turn_marked σ m.
Proof.
  intros ((lms & Hself & Hms) & Hturns & Hlast) Hclosed Hne.
  (* the comprehension over the messages *)
  destruct (comprehension_allocates copy_turn (turn_made σ) (turn_made_weaken σ) ms σ)
    as (turns & σ1 & Hcopy & Hsub1 & Hmade & Hnodup).
  { intros m σa Hm Hσa. rewrite Forall_forall in Hturns.
    destruct (Hturns m Hm) as (r & c & Hturn).
    eapply copy_turn_allocates; eassumption. }
  pose proof (Forall2_length _ _ _ Hmade) as Hlen.
  (* the result list *)
  set (lr := fresh (dom σ1)).
  set (σ2 := <[lr := OList turns]> σ1).
  assert (Hsub2 : σ1 ⊆ σ2) by apply new_extends.
  (* what holds of a turn that the call does not touch again *)
  assert (Hkept : forall σ' i m t,
             σ ⊆ σ' -> ms !! i = Some m -> turns !! i = Some t ->
             (forall l o, t = SRef l -> σ1 !! l = Some o -> σ' !! l = Some o) ->
             exists r c, is_turn σ m r c /\
                         is_turn σ' t r c /\ turn_marked σ' t = turn_marked σ m).
  { intros σ' i m t Hsub' Hm Ht Hsame.
    rewrite Forall2_lookup in Hmade. specialize (Hmade i).
    rewrite Hm, Ht in Hmade. inversion Hmade as [? ? Hmt|]; subst.
    destruct Hmt as (l & -> & Hfresh & r & c & Hturn & Hl).
    exists r, c. split; [exact Hturn|].
    pose proof (Hsame l _ eq_refl Hl) as Hl'.
    split.
    - exists l, {[ "role" := r; "content" := c ]}.
      split; [reflexivity|]. split; [exact Hl'|].
      split; simplify_map_eq; reflexivity.
    - destruct Hturn as (lm & d & -> & Hlm & Hr & Hc).
      rewrite (turn_marked_content σ' l _ c Hl') by (simplify_map_eq; reflexivity).
      rewrite (turn_marked_content σ lm d c Hlm Hc).
      eapply content_marked_stable; eassumption. }
  unfold format_for_api, mbind, coro_bind. unfold bind at 1.
  rewrite Hself, (as_list_at _ _ _ Hms). unfold bind at 1. rewrite Hcopy.
  unfold bind at 1. unfold new at 1. fold lr. fold σ2.
  assert (Hσ2 : σ ⊆ σ2) by (etrans; eassumption).
  assert (Hlr2 : σ2 !! lr = Some (OList turns)) by apply lookup_insert_eq.
  destruct (enable_caching self) eqn:Hcache.
  - (* caching: the last turn is annotated *)
    assert (Hnonempty : truthy ms = true) by (destruct ms; [congruence | reflexivity]).
    rewrite Hnonempty. cbn [andb].
    destruct (last ms) as [m|] eqn:Hm; [|apply last_None in Hm; congruence].
    rewrite Forall_forall in Hturns.
    destruct (Hturns m) as (r & c & Hturn).
    { apply last_Some_elem_of. exact Hm. }
    destruct (Hlast m r c eq_refl Hturn) as (blocks & lc & refs & -> & Hlc & Hrefs).
    pose proof Hturn as (lm & d & -> & Hlm & Hr & Hc).
    unfold bind at 1. unfold bind at 1.
    rewrite (last_item_at σ2 lms ms (SRef lm)
               (lookup_weaken _ _ _ _ Hms Hσ2) Hm).
    unfold bind at 1.
    rewrite (getitem_at σ2 lm d "content" (SRef lc)
               (lookup_weaken _ _ _ _ Hlm Hσ2) Hc).
    unfold bind at 1.
    rewrite (as_list_at σ2 lc refs (lookup_weaken _ _ _ _ Hlc Hσ2)).
    destruct (comprehension_allocates annotate (block_made σ) (block_made_weaken σ)
                refs σ2)
      as (annotated & σ3 & Hann & Hsub3 & Hblocks & _).
    { intros b σa Hb Hσa.
      apply list_elem_of_lookup in Hb as [j Hj].
      rewrite Forall2_lookup in Hrefs. specialize (Hrefs j). rewrite Hj in Hrefs.
      inversion Hrefs as [? ? Hbd|]; subst. destruct Hbd as (lb & -> & Hlb).
      eapply annotate_allocates; [exact Hlb|]. etrans; eassumption. }
    unfold bind at 1. rewrite Hann.
    unfold bind at 1. unfold new at 1.
    set (la := fresh (dom σ3)). set (σ4 := <[la := OList annotated]> σ3).
    assert (Hsub4 : σ3 ⊆ σ4) by apply new_extends.
    assert (Hσ4 : σ2 ⊆ σ4) by (etrans; eassumption).
    destruct (last turns) as [t|] eqn:Ht.
    2:{ apply last_None in Ht. subst turns. destruct ms; [congruence | discriminate]. }
    unfold bind at 1.
    rewrite (last_item_at σ4 lr turns t (lookup_weaken _ _ _ _ Hlr2 Hσ4) Ht).
    (* the last turn made is the copy of the last message *)
    assert (Hlast_ix : ms !! (length ms - 1)%nat = Some (SRef lm)).
    { rewrite Nat.sub_1_r, <- last_lookup. exact Hm. }
    assert (Ht_ix : turns !! (length ms - 1)%nat = Some t).
    { rewrite Hlen, Nat.sub_1_r, <- last_lookup. exact Ht. }
    pose proof Hmade as Hmade'.
    rewrite Forall2_lookup in Hmade'. specialize (Hmade' (length ms - 1)%nat).
    rewrite Hlast_ix, Ht_ix in Hmade'. inversion Hmade' as [? ? Hmt|]; subst.
    destruct Hmt as (lt & -> & Hfresh & r' & c' & Hturn' & Hlt).
    assert (r' = r /\ c' = SRef lc) as [-> ->].
    { destruct Hturn' as (lm' & d' & [= <-] & Hlm' & Hr' & Hc').
      rewrite Hlm in Hlm'. injection Hlm' as <-. split; congruence. }
    assert (Hlt4 : σ4 !! lt = Some (ODict {[ "role" := r; "content" := SRef lc ]})).
    { eapply lookup_weaken; [exact Hlt|]. etrans; [exact Hsub2 | exact Hσ4]. }
    unfold setitem. rewrite Hlt4.
    set (σ5 := <[lt := ODict (<["content" := SRef la]>
                                {[ "role" := r; "content" := SRef lc ]})]> σ4).
    (* objects other than the last turn are in the final store as before *)
    assert (Hstay : forall l o, l <> lt -> σ4 !! l = Some o -> σ5 !! l = Some o).
    { intros l o Hl Ho. unfold σ5. rewrite lookup_insert_ne by congruence. exact Ho. }
    assert (Hne_lr : lr <> lt).
    { intros Heq. unfold lr in Heq. rewrite <- Heq, fresh_unused in Hlt. discriminate. }
    assert (Hne_la : la <> lt).
    { intros Heq.
      assert (H3 : σ3 !! la = None) by apply fresh_unused.
      rewrite Heq in H3.
      rewrite (lookup_weaken _ _ _ _ Hlt (transitivity Hsub2 Hsub3)) in H3.
      discriminate. }
    exists (SRef lr), σ5, turns. split; [reflexivity|].
    split.
    { apply insert_subseteq_r; [exact Hfresh|].
      etrans; [exact Hσ2 | exact Hσ4]. }
    split.
    { exists lr. split; [reflexivity|]. apply Hstay; [exact Hne_lr|].
      eapply lookup_weaken; eassumption. }
    split; [symmetry; exact Hlen|].
    intros i m t Hmi Hti.
    destruct (decide (S i = length ms)) as [Hi | Hi].
    + rewrite bool_decide_eq_true_2 by exact Hi. cbn [andb].
      assert (i = (length ms - 1)%nat) as -> by lia.
      rewrite Hlast_ix in Hmi. rewrite Ht_ix in Hti.
      injection Hmi as <-. injection Hti as <-.
      exists r, (SRef lc). split; [exact Hturn|].
      exists (SRef la), blocks. split; [|split].
      * exists lt, (<["content" := SRef la]> {[ "role" := r; "content" := SRef lc ]}).
        split; [reflexivity|]. split; [apply lookup_insert_eq|].
        split; simplify_map_eq; reflexivity.
      * exists lc, refs. repeat split; assumption.
      * exists la, annotated. split; [reflexivity|].
        split; [apply Hstay; [exact Hne_la | apply lookup_insert_eq]|].
        apply Forall2_same_length_lookup. split.
        { rewrite <- (Forall2_length _ _ _ Hblocks). apply (Forall2_length _ _ _ Hrefs). }
        intros j y dj Hy Hdj.
        rewrite Forall2_lookup in Hblocks. specialize (Hblocks j).
        rewrite Forall2_lookup in Hrefs. specialize (Hrefs j).
        rewrite Hy in Hblocks. rewrite Hdj in Hrefs.
        inversion Hblocks as [b ? Hby Hbj|]; subst.
        rewrite <- Hbj in Hrefs. inversion Hrefs as [? ? Hbd|]; subst.
        destruct Hby as (l & -> & Hl2 & lb & d' & lmk & -> & Hlb & Hl3 & Hmk).
        destruct Hbd as (lb' & [= <-] & Hlb').
        rewrite Hlb in Hlb'. injection Hlb' as ->.
        exists l, lmk. split; [reflexivity|]. split.
        -- apply Hstay; [|eapply lookup_weaken; eassumption].
           intros ->.
           rewrite (lookup_weaken _ _ _ _ Hlt Hsub2) in Hl2. discriminate.
        -- apply Hstay; [|eapply lookup_weaken; eassumption].
           intros ->.
           rewrite (lookup_weaken _ _ _ _ Hlt (transitivity Hsub2 Hsub3)) in Hmk.
           assert (Hsame : ({[ "role" := r; "content" := SRef lc ]} : gmap string sval)
                           = {[ "type" := SStr "ephemeral" ]}) by congruence.
           apply (f_equal (fun d0 : gmap string sval => d0 !! "role")) in Hsame.
           simplify_map_eq.
    + rewrite bool_decide_eq_false_2 by exact Hi. cbn [andb].
      destruct (Hkept σ5 i m t) as (ri & ci & H1 & H2 & H3); try assumption.
      { apply insert_subseteq_r; [exact Hfresh|].
        etrans; [exact Hσ2 | exact Hσ4]. }
      { intros l o -> Ho. apply Hstay.
        - intros ->.
          apply lookup_lt_Some in Hmi.
          assert (Heq : i = (length ms - 1)%nat).
          { eapply NoDup_lookup; [exact Hnodup | exact Hti | exact Ht_ix]. }
          lia.
        - eapply lookup_weaken; [exact Ho|]. etrans; [exact Hsub2 | exact Hσ4]. }
      exists ri, ci. auto.
  - (* no caching: the turns stay as made *)
    cbn [andb]. unfold bind at 1. unfold mret, coro_ret, ret.
    exists (SRef lr), σ2, turns. split; [reflexivity|].
    split; [exact Hσ2|].
    split; [exists lr; split; [reflexivity | exact Hlr2]|].
    split; [symmetry; exact Hlen|].
    intros i m t Hmi Hti. rewrite andb_false_r.
    destruct (Hkept σ2 i m t) as (ri & ci & H1 & H2 & H3); try assumption.
    { intros l o _ Ho. eapply lookup_weaken; eassumption. }
    exists ri, ci. auto.
Qed.

(** *** The stores of the scenarios *)

Lemma closed_plain : closed Scenarios.plain_store.
Proof. unfold closed. compute_done. Qed.

Lemma closed_marked : closed Scenarios.marked_store.
Proof. unfold closed. compute_done. Qed.

Lemma well_formed_plain :
  well_formed Scenarios.plain_store Scenarios.stored_history [SRef 1; SRef 5].
Proof.
  split; [|split].
  - exists 0%nat. split; reflexivity.
  - repeat constructor.
    + exists (SStr "user"), (SRef 2), 1%nat. eexists.
      split; [reflexivity|]. split; [reflexivity|]. split; reflexivity.
    + exists (SStr "user"), (SRef 6), 5%nat. eexists.
      split; [reflexivity|]. split; [reflexivity|]. split; reflexivity.
  - intros m r c [= <-] (l & d & [= <-] & Hl & _ & Hc).
    vm_compute in Hl. injection Hl as <-. vm_compute in Hc. injection Hc as <-.
    eexists [_]. exists 6%nat, [SRef 7]. split; [reflexivity|]. split; [reflexivity|].
    repeat constructor. exists 7%nat. split; reflexivity.
Qed.

Lemma well_formed_marked :
  well_formed Scenarios.marked_store Scenarios.stored_history [SRef 1; SRef 5].
Proof.
  split; [|split].
  - exists 0%nat. split; reflexivity.
  - repeat constructor.
    + exists (SStr "user"), (SRef 2), 1%nat. eexists.
      split; [reflexivity|]. split; [reflexivity|]. split; reflexivity.
    + exists (SStr "user"), (SRef 6), 5%nat. eexists.
      split; [reflexivity|]. split; [reflexivity|]. split; reflexivity.
  - intros m r c [= <-] (l & d & [= <-] & Hl & _ & Hc).
    vm_compute in Hl. injection Hl as <-. vm_compute in Hc. injection Hc as <-.
    eexists [_]. exists 6%nat, [SRef 7]. split; [reflexivity|]. split; [reflexivity|].
    repeat constructor. exists 7%nat. split; reflexivity.
Qed.

(** The theorem at the history of two unmarked turns. *)
Lemma render_marks_last_turn_witness :
  exists result σ' turns,
    format_for_api Scenarios.stored_history Scenarios.plain_store
    = (Returns result, σ') /\
    Scenarios.plain_store ⊆ σ' /\
    length turns = 2%nat /\
    (exists l, result = SRef l /\ σ' !! l = Some (OList turns)).
Proof.
  destruct (render_marks_last_turn Scenarios.plain_store
              Scenarios.stored_history [SRef 1; SRef 5])
    as (result & σ' & turns & Hrun & Hsub & Hres & Hlen & _).
  - exact well_formed_plain.
  - exact closed_plain.
  - discriminate.
  - exists result, σ', turns. auto.
Defined.

(** C9 as stated fails: in [Scenarios.marked_store] the block of the
    first of two turns was persisted with a marker.  [format_for_api]
    returns the list at 10 of the turns at 8 and 9, and both carry a
    marker: the last, which the call annotated, and the first, whose
    content is the persisted list. *)
Lemma render_marks_last_turn_counterexample :
  well_formed Scenarios.marked_store Scenarios.stored_history [SRef 1; SRef 5] /\
  closed Scenarios.marked_store /\
  exists σ',
    format_for_api Scenarios.stored_history Scenarios.marked_store
    = (Returns (SRef 10), σ') /\
    σ' !! 10%nat = Some (OList [SRef 8; SRef 9]) /\
    turn_marked σ' (SRef 8) = true /\
    turn_marked σ' (SRef 9) = true.
Proof.
  split; [exact well_formed_marked|].
  split; [exact closed_marked|].
  eexists. split; [vm_compute; reflexivity|].
  split; [vm_compute; reflexivity|].
  split; vm_compute; reflexivity.
Qed.

End StoreFacts.

(* --------------------------------------------------------------------- *)
(** ** The history: accounting and what eviction keeps *)
(* --------------------------------------------------------------------- *)

Module HistoryMore.
Import Py HistoryUtil.

(** X1.  After an assistant turn with usage the total is what the backend
    reported: its input count, cache counters included, plus its output
    count, whatever the total was.  The entry recorded is the difference
    to the total before, with the output count. *)
Theorem add_message_reported_total h c u :
  let total_input :=
    input_tokens u + getattr0 (cache_read_input_tokens u)
    + getattr0 (cache_creation_input_tokens u) in
  let h' := add_message h "assistant" c (Some u) in
  total_tokens h' = total_input + output_tokens u /\
  message_tokens h'
  = message_tokens h ++ [(total_input - total_tokens h, output_tokens u)].
Proof.
  intros total_input h'. subst h' total_input. simpl. split; [lia | reflexivity].
Qed.

Lemma add_message_conserves h r c u :
  total_tokens (add_message h r c u) - cost_sum (message_tokens (add_message h r c u))
  = total_tokens h - cost_sum (message_tokens h).
Proof.
  unfold add_message.
  destruct u as [u|]; [|reflexivity].
  destruct (String.eqb r "assistant"); [|reflexivity].
  simpl. rewrite HistoryFacts.cost_sum_app. simpl. lia.
Qed.

(** X2.  The total less the recorded costs, which [__init__] sets to the
    cost of the system prompt, is the same after [add_message] and
    after [truncate]: the total is always that cost plus the entries. *)
Theorem cost_conservation h :
  (forall r c u,
     total_tokens (add_message h r c u)
     - cost_sum (message_tokens (add_message h r c u))
     = total_tokens h - cost_sum (message_tokens h)) /\
  exists h',
    truncate h = Done h' /\
    total_tokens h' - cost_sum (message_tokens h')
    = total_tokens h - cost_sum (message_tokens h).
Proof.
  split; [intros; apply add_message_conserves|].
  destruct (HistoryFacts.truncate_loop_runs h) as (n & h' & _ & Hruns & Htr).
  exists h'. split; [exact Htr|].
  apply (HistoryFacts.loop_runs_effect _ _ _ Hruns).
Qed.

(** X3.  A second [truncate] right after the first changes nothing, within
    the budget or not. *)
Theorem truncate_idempotent h :
  exists h', truncate h = Done h' /\ truncate h' = Done h'.
Proof.
  destruct (HistoryFacts.truncate_loop_runs h) as (n & h' & _ & Hruns & Htr).
  exists h'. split; [exact Htr|].
  pose proof (HistoryFacts.loop_runs_exit _ _ _ Hruns) as Hexit.
  unfold truncate, truncate_fuel.
  destruct (total_tokens h' <=? context_window_tokens h'); [reflexivity|].
  destruct (length (message_tokens h')); simpl; rewrite Hexit; reflexivity.
Qed.

(** What one iteration does to the turns. *)
Lemma pass_turns h :
  loop_guard h = true ->
  exists h1,
    evict_pass h = Some h1 /\
    model h1 = model h /\ system h1 = system h /\
    enable_caching h1 = enable_caching h /\
    tail (messages h1) = drop 3 (messages h) /\
    (head (messages h1) = messages h !! 2%nat \/
     (head (messages h1) = Some TRUNCATION_MESSAGE /\ message_tokens h1 <> [])).
Proof.
  intros Hg.
  destruct (HistoryFacts.pass_under_guard h Hg)
    as (m1 & m2 & ms & i & o & costs & Hm & Hc & _ & Hp).
  eexists. split; [exact Hp|].
  rewrite Hm. unfold place_notice. simpl.
  do 4 (split; [destruct ms, costs as [|[] ?]; reflexivity|]).
  destruct ms as [|m ms]; [left; reflexivity|].
  destruct costs as [|[i' o'] costs]; simpl; [left; reflexivity|].
  right. split; [reflexivity | discriminate].
Qed.

Lemma loop_runs_turns n h h' :
  loop_runs n h h' ->
  model h' = model h /\ system h' = system h /\
  enable_caching h' = enable_caching h /\
  tail (messages h') = drop (2 * n + 1) (messages h) /\
  (head (messages h') = messages h !! (2 * n)%nat \/
   (head (messages h') = Some TRUNCATION_MESSAGE /\ message_tokens h' <> [])).
Proof.
  induction 1 as [h Hg | n h h1 h' Hg Hp Hruns IH].
  - do 3 (split; [reflexivity|]). split.
    + destruct (messages h); reflexivity.
    + left. destruct (messages h); reflexivity.
  - destruct (pass_turns h Hg) as (h1' & Hp' & Hmo & Hsy & Hca & Htl & Hhd).
    rewrite Hp in Hp'. injection Hp' as <-.
    destruct IH as (Hmo' & Hsy' & Hca' & Htl' & Hhd').
    split; [congruence|]. split; [congruence|]. split; [congruence|].
    assert (Hdrop : forall k, drop (S k) (messages h1) = drop (k + 3) (messages h)).
    { intros k. replace (k + 3)%nat with (3 + k)%nat by lia.
      rewrite <- drop_drop, <- Htl.
      destruct (messages h1); simpl; [rewrite !drop_nil|]; reflexivity. }
    split.
    + rewrite Htl'. replace (2 * n + 1)%nat with (S (2 * n)) by lia.
      rewrite Hdrop. f_equal. lia.
    + destruct Hhd' as [Hhd' | Hnotice]; [|right; exact Hnotice].
      destruct n as [|n].
      * simpl in Hhd'. rewrite <- head_lookup in Hhd'. rewrite Hhd'.
        destruct Hhd as [Hhd | Hnotice]; [left; exact Hhd|].
        right. inversion Hruns; subst. exact Hnotice.
      * left. rewrite Hhd'.
        transitivity (drop (S (2 * n + 1)) (messages h1) !! 0%nat).
        { rewrite lookup_drop. f_equal. lia. }
        rewrite Hdrop, lookup_drop. f_equal. lia.
Qed.

(** X4.  [truncate] touches the oldest turns only.  It keeps the model, the
    system prompt, the budget and the caching flag; having removed [n]
    pairs, it keeps the turns from position [2 n] on, in their order,
    the first of them as it was or replaced by the notice. *)
Theorem truncate_keeps_recent_turns h :
  exists h' n,
    truncate h = Done h' /\
    (model h' = model h /\ system h' = system h /\
     context_window_tokens h' = context_window_tokens h /\
     enable_caching h' = enable_caching h) /\
    tail (messages h') = drop (2 * n + 1) (messages h) /\
    (head (messages h') = messages h !! (2 * n)%nat \/
     head (messages h') = Some TRUNCATION_MESSAGE).
Proof.
  destruct (HistoryFacts.truncate_loop_runs h) as (n & h' & _ & Hruns & Htr).
  destruct (loop_runs_turns _ _ _ Hruns) as (Hmo & Hsy & Hca & Htl & Hhd).
  destruct (HistoryFacts.loop_runs_effect _ _ _ Hruns) as (Hb & _).
  exists h', n. split; [exact Htr|]. split; [auto|]. split; [exact Htl|].
  destruct Hhd as [Hhd | [Hhd _]]; auto.
Qed.

Lemma last_drop_nonempty {A : Type} (l : list A) k :
  drop k l <> [] -> last (drop k l) = last l.
Proof.
  intros Hne. rewrite !last_lookup, lookup_drop, length_drop.
  assert (k < length l)%nat.
  { destruct (decide (k < length l)%nat); [assumption|].
    exfalso. apply Hne. apply drop_ge. lia. }
  f_equal. lia.
Qed.

(** X5.  In the agent's loop [truncate] never removes or overwrites the
    turn just added: the last turn after the call is the last turn
    before it. *)
Theorem pending_turn_survives h h' :
  AgentPy.reachable AgentPy.LoopTop h ->
  truncate h = Done h' ->
  last (messages h') = last (messages h) /\ is_Some (last (messages h')).
Proof.
  intros Hreach Htr.
  destruct (HistoryFacts.truncate_loop_runs h) as (n & h'' & _ & Hruns & Htr').
  rewrite Htr in Htr'. injection Htr' as <-.
  destruct (loop_runs_turns _ _ _ Hruns) as (_ & _ & _ & Htl & Hhd).
  destruct (LoopFacts.passes_shaped _ _ _ (LoopFacts.loop_runs_passes _ _ _ Hruns)
              (LoopFacts.reachable_shaped _ _ Hreach)) as [_ Hlen].
  destruct (messages h') as [|m [|m' rest]] eqn:Em.
  - simpl in Hlen. lia.
  - destruct (message_tokens h') eqn:Ec; [|simpl in Hlen; lia].
    destruct Hhd as [Hhd | [_ Hne]]; [|congruence].
    cbn [head tail] in Hhd, Htl. split; [|eauto].
    symmetry in Hhd.
    pose proof (lookup_lt_Some _ _ _ Hhd) as Hlt.
    assert (Hlen' : length (messages h) = (2 * n + 1)%nat).
    { pose proof (f_equal length Htl) as Hd. rewrite length_drop in Hd.
      simpl in Hd. lia. }
    rewrite (last_lookup (messages h)), Hlen'.
    replace (Init.Nat.pred (2 * n + 1)) with (2 * n)%nat by lia.
    rewrite Hhd. reflexivity.
  - simpl in Htl. split; [|apply last_is_Some; discriminate].
    change (last (m :: m' :: rest)) with (last (m' :: rest)).
    rewrite Htl. apply last_drop_nonempty. rewrite <- Htl. discriminate.
Qed.

(** The theorem at the fourth run of the scenario: the question just
    asked is the last turn after eviction. *)
Lemma pending_turn_survives_witness :
  exists h',
    truncate Scenarios.fourth_run = Done h' /\
    last (messages h') = Some (Message "user" [text_block "q4"]).
Proof.
  eexists. split; [vm_compute; reflexivity|].
  destruct (pending_turn_survives Scenarios.fourth_run
              (match truncate Scenarios.fourth_run with
               | Done g => g
               | _ => Scenarios.fourth_run
               end)) as [Hlast _].
  - exact LoopFacts.fourth_run_reachable.
  - vm_compute. reflexivity.
  - vm_compute in Hlast. vm_compute. exact Hlast.
Defined.

End HistoryMore.

(* --------------------------------------------------------------------- *)
(** ** The dispatcher: names without a tool to call *)
(* --------------------------------------------------------------------- *)

Module DispatchMore.
Import Py Coro ToolUtil.

(** A missing tool at the registry of [Cases]. *)
Lemma unknown_tool_witness :
  _execute_single_tool Scenarios.str_of Cases.call_missing Cases.tools 0%nat
  = (Returns (<["is_error" := VBool true]>
                (<["content" := VStr "Tool 'missing' not found"]>
                   (new_response Cases.call_missing))), 0%nat).
Proof.
  apply (DispatchFacts.unknown_tool Scenarios.str_of Cases.call_missing Cases.tools).
  reflexivity.
Defined.

Section More.
Context {World : Type}.
Variable py_str : pyval -> string.

(** X8.  A registry entry without an [execute] method, as the server-side
    tool descriptors are: the call is not made, no exception leaves the
    dispatcher, and the result is an error that names the class. *)
Theorem server_tool_dispatched (call : ToolUse)
    (tool_dict : gmap string (Tool World)) cls w :
  tool_dict !! name call = Some (NoExecute cls) ->
  _execute_single_tool py_str call tool_dict w
  = (Returns (<["is_error" := VBool true]>
                (<["content" :=
                     VStr ("Error executing tool: '" +:+ cls
                             +:+ "' object has no attribute 'execute'")]>
                   (new_response call))), w).
Proof.
  intros Htool.
  unfold _execute_single_tool, try_except, call_tool, mbind, coro_bind, bind.
  rewrite Htool. reflexivity.
Qed.

End More.

(** The theorem at the registry of [Cases]. *)
Lemma server_tool_dispatched_witness :
  _execute_single_tool Scenarios.str_of Cases.call_server Cases.tools 0%nat
  = (Returns (<["is_error" := VBool true]>
                (<["content" :=
                     VStr "Error executing tool: 'CodeExecutionServerTool' object has no attribute 'execute'"]>
                   (new_response Cases.call_server))), 0%nat).
Proof.
  apply (server_tool_dispatched Scenarios.str_of Cases.call_server Cases.tools
           "CodeExecutionServerTool" 0%nat).
  reflexivity.
Defined.

End DispatchMore.

(* --------------------------------------------------------------------- *)
(** ** MCP tools: what [execute] returns *)
(* --------------------------------------------------------------------- *)

Module McpToolFacts.
Import Py Coro McpTool.

Section Execute.
Context {World : Type}.
Variable call_tool : string -> pyval -> coro World call_result.


(** X12.  Items that are not text are passed over: the first item of type
    ["text"] gives the result, whatever follows it. *)
Theorem first_text_skips (before after : list content_item) (item : content_item) :
  Forall (fun skipped => item_type skipped <> Some "text") before ->
  item_type item = Some "text" ->
  first_text (before ++ item :: after) = Some (item_text item).
Proof.
  intros Hbefore Hitem.
  induction Hbefore as [|skipped before Hskipped _ IH]; simpl.
  - rewrite Hitem. reflexivity.
  - destruct (item_type skipped) as [t|]; [|exact IH].
    destruct (String.eqb_spec t "text") as [-> | _]; [congruence | exact IH].
Qed.

End Execute.


(** The loop at a reply that starts with an image. *)
Lemma first_text_skips_witness :
  first_text ([MkItem (Some "image") ""] ++ MkItem (Some "text") "4"
                :: [MkItem (Some "text") "four"])
  = Some "4".
Proof.
  apply (first_text_skips [MkItem (Some "image") ""] [MkItem (Some "text") "four"]
           (MkItem (Some "text") "4")).
  - apply Forall_cons_2; [discriminate | apply Forall_nil_2].
  - reflexivity.
Defined.


End McpToolFacts.

(* --------------------------------------------------------------------- *)
(** ** Connections: opening, leaving, and the scope of a run *)
(* --------------------------------------------------------------------- *)

Module ConnectionMore.
Import Py Coro Connections.

Ltac count_calls :=
  unfold calls_of;
  repeat first [ rewrite filter_cons_True by reflexivity
               | rewrite filter_cons_False by discriminate ];
  rewrite ?filter_nil; simpl; lia.

Ltac exit_events :=
  repeat (apply Forall_cons_2; [eauto|]); apply Forall_nil_2.

Section Run.
Variable server : transport -> remote.
Variable repr_config : server_config -> string.

(** [__aexit__] on any connection, in any world: it returns, the
    object has its three attributes cleared, and what it adds to the
    log are exit calls on this connection, at most one of each, and
    printed lines. *)
Lemma aexit_total self w :
  exists events,
    __aexit__ server self w
    = (Returns (),
       MkWorld (<[self := MkConnection (kind (objects w !!! self)) false false false]>
                  (objects w))
         (log w ++ events) (callbacks w)) /\
    Forall (fun ev => ev = Call self SessionExit \/ ev = Call self RwExit \/
                      exists line, ev = Print line) events /\
    (calls_of self SessionExit events <= 1)%nat /\
    (calls_of self RwExit events <= 1)%nat /\
    (_session_ctx (objects w !!! self) = false ->
     _rw_ctx (objects w !!! self) = false -> events = []).
Proof.
  unfold __aexit__, try_finally, try_except, release, behaviour.
  unfold external, mbind, coro_bind.
  unfold bind, get, emit, update, raise, mret, coro_ret, ret; simpl.
  destruct (_session_ctx (objects w !!! self)) eqn:Es,
    (_rw_ctx (objects w !!! self)) eqn:Er,
    (on_session_exit (server (kind (objects w !!! self)))) as [e1|],
    (on_rw_exit (server (kind (objects w !!! self)))) as [e2|];
    simpl; rewrite ?Es, ?Er; simpl; rewrite <- ?app_assoc; simpl;
    (eexists; split; [first [reflexivity | rewrite app_nil_r; reflexivity]|]);
    (split; [exit_events|]); (split; [count_calls|]); (split; [count_calls|]);
    intros; try discriminate; reflexivity.
Qed.


(** X15.  A second [__aexit__] after the first finds the attributes cleared:
    it makes no call and changes nothing. *)
Theorem aexit_again_is_silent self w :
  __aexit__ server self (__aexit__ server self w).2
  = (Returns (), (__aexit__ server self w).2).
Proof.
  destruct (aexit_total self w) as (events & -> & _). cbn [snd].
  destruct (aexit_total self
              (MkWorld (<[self := MkConnection (kind (objects w !!! self))
                                    false false false]> (objects w))
                 (log w ++ events) (callbacks w)))
    as (events' & Hrun' & _ & _ & _ & Hnone).
  cbn [objects log callbacks] in *.
  rewrite lookup_total_insert_eq in *. cbn [kind _session_ctx _rw_ctx] in *.
  rewrite (Hnone eq_refl eq_refl), app_nil_r, insert_insert_eq in Hrun'.
  exact Hrun'.
Qed.

(** X16.  [list_tools] on a connection that was left: the session is [None],
    so the call raises [AttributeError] and nothing is sent. *)
Theorem list_tools_after_exit self w :
  list_tools server self (__aexit__ server self w).2
  = (Raises (Exn AttributeError
               "'NoneType' object has no attribute 'list_tools'"),
     (__aexit__ server self w).2).
Proof.
  destruct (aexit_total self w) as (events & -> & _). cbn [snd].
  unfold list_tools, behaviour, mbind, coro_bind, bind, get, mret, coro_ret, ret.
  cbn [objects]. rewrite lookup_total_insert_eq. reflexivity.
Qed.



Lemma aenter_returns self c w :
  objects w !! self = Some c ->
  on_rw_enter (server (kind c)) = None ->
  on_session_enter (server (kind c)) = None ->
  on_initialize (server (kind c)) = None ->
  __aenter__ server self w
  = (Returns (),
     MkWorld (<[self := MkConnection (kind c) true true true]> (objects w))
       (log w ++ [Call self RwEnter; Call self SessionEnter;
                  Call self SessionInitialize])
       (callbacks w)).
Proof.
  intros Hc Hrw Hse Hin.
  unfold __aenter__.
  unfold mbind, coro_bind, bind at 1. rewrite (ConnectionFacts.behaviour_at _ _ _ _ Hc).
  unfold external, mbind, coro_bind. rewrite Hrw, Hse, Hin.
  unfold bind, update, emit, raise, mret, coro_ret, ret. simpl.
  rewrite (lookup_total_correct _ _ _ Hc).
  rewrite !lookup_total_insert_eq. simpl.
  rewrite !insert_insert_eq, <- !app_assoc. reflexivity.
Qed.

Lemma aexit_releases_both self c w :
  objects w !! self = Some c ->
  _session_ctx c = true ->
  _rw_ctx c = true ->
  on_session_exit (server (kind c)) = None ->
  on_rw_exit (server (kind c)) = None ->
  __aexit__ server self w
  = (Returns (),
     MkWorld (<[self := MkConnection (kind c) false false false]> (objects w))
       (log w ++ [Call self SessionExit; Call self RwExit]) (callbacks w)).
Proof.
  intros Hc Hs Hr Hse Hrw.
  unfold __aexit__, try_finally, try_except, release, behaviour.
  unfold external, mbind, coro_bind.
  unfold bind, get, emit, update, raise, mret, coro_ret, ret; simpl.
  rewrite (lookup_total_correct _ _ _ Hc), Hs, Hse. simpl.
  rewrite (lookup_total_correct _ _ _ Hc), Hr, Hrw. simpl.
  rewrite (lookup_total_correct _ _ _ Hc), <- app_assoc. reflexivity.
Qed.

Lemma list_tools_open self c w listed :
  objects w !! self = Some c ->
  session c = true ->
  on_list_tools (server (kind c)) = inr listed ->
  list_tools server self w
  = (Returns listed,
     MkWorld (objects w) (log w ++ [Call self SessionListTools]) (callbacks w)).
Proof.
  intros Hc Hs Hl.
  unfold list_tools, behaviour, mbind, coro_bind.
  unfold bind, get, emit, mret, coro_ret, ret.
  rewrite (lookup_total_correct _ _ _ Hc), Hs, Hl. reflexivity.
Qed.

(** X22.  A run with one stdio server that answers every call, around a body
    that returns or raises: the connection is opened, its tools are
    listed, and after the body the session and then the transport
    channel are left, once each; the scope has the body's outcome. *)
Theorem opened_connection_released_once {A : Type} command args env listed
    (body : list MCPTool -> coro world A) r events :
  command <> "" ->
  server (MCPConnectionStdio command args env)
  = MkRemote None None None None None (inr listed) ->
  (forall mcp_tools w,
     body mcp_tools w = (r, MkWorld (objects w) (log w ++ events) (callbacks w))) ->
  exists w',
    run_scope server repr_config [MkConfig None (Some command) args env None None]
      body empty_world = (r, w') /\
    log w'
    = [Call 0 RwEnter; Call 0 SessionEnter; Call 0 SessionInitialize;
       Call 0 SessionListTools;
       Print ("Loaded " +:+ pretty (length listed) +:+ " MCP tools from "
                +:+ pretty 1%nat +:+ " servers.")]
      ++ events ++ [Call 0 SessionExit; Call 0 RwExit] /\
    objects w' !! 0%nat
    = Some (MkConnection (MCPConnectionStdio command args env) false false false) /\
    callbacks w' = [].
Proof.
  intros Hcmd Hsrv Hbody.
  set (config := MkConfig None (Some command) args env None None).
  assert (Hconnect :
    exists found,
      connect_one server config empty_world
      = (Returns found,
         MkWorld {[ 0%nat := MkConnection (MCPConnectionStdio command args env)
                               true true true ]}
           [Call 0 RwEnter; Call 0 SessionEnter; Call 0 SessionInitialize;
            Call 0 SessionListTools] [0%nat]) /\
      length found = length listed).
  { unfold connect_one, mbind, coro_bind. unfold bind at 1.
    unfold config. rewrite (ConnectionFacts.create_stdio _ _ _ Hcmd).
    unfold enter_async_context, mbind, coro_bind. unfold bind at 1 2.
    rewrite (aenter_returns 0%nat
               (MkConnection (MCPConnectionStdio command args env) false false false)
               (MkWorld {[ 0%nat := MkConnection (MCPConnectionStdio command args env)
                                      false false false ]} [] []));
      [|apply lookup_singleton_eq|simpl; rewrite Hsrv; reflexivity..].
    cbn [objects log callbacks kind]. rewrite insert_singleton_eq.
    unfold push_async_exit at 1. cbn [objects log callbacks].
    unfold bind at 1.
    rewrite (list_tools_open 0%nat
               (MkConnection (MCPConnectionStdio command args env) true true true)
               _ listed);
      [|apply lookup_singleton_eq|reflexivity|simpl; rewrite Hsrv; reflexivity].
    unfold mret, coro_ret, ret. cbn [objects log callbacks app].
    eexists. split; [reflexivity|].
    rewrite length_fmap. reflexivity. }
  destruct Hconnect as (found & Hconnect & Hlen).
  unfold run_scope, try_finally, setup_mcp_connections. cbn [truthy].
  unfold mbind, coro_bind. unfold bind at 1. cbn [setup_loop].
  unfold mbind, coro_bind. unfold bind at 1 2 3. unfold try_except.
  rewrite Hconnect. cbn [app].
  unfold mret, coro_ret, ret at 1. unfold bind at 1. unfold emit at 1.
  unfold ret at 1. rewrite Hbody. cbn [objects log callbacks].
  unfold stack_aexit. cbn [objects log callbacks unwind].
  unfold mbind, coro_bind. unfold bind at 1. unfold try_except. unfold bind at 1.
  rewrite (aexit_releases_both 0%nat
             (MkConnection (MCPConnectionStdio command args env) true true true));
    [|apply lookup_singleton_eq|reflexivity|reflexivity
     |simpl; rewrite Hsrv; reflexivity..].
  unfold mret, coro_ret, ret. cbn [objects log callbacks kind].
  eexists. split; [reflexivity|]. cbn [objects log callbacks].
  rewrite Hlen. split; [rewrite <- !app_assoc; reflexivity|].
  split; [apply lookup_insert_eq | reflexivity].
Qed.

End Run.

(** A run whose body raises after the connection was opened. *)
Lemma opened_connection_released_once_witness :
  exists w',
    run_scope Cases.healthy Cases.show_config
      [MkConfig None (Some "server") None None None None]
      Cases.failing_body empty_world
    = (Raises (Exn (Other "APIError") "overloaded"), w') /\
    log w'
    = [Call 0 RwEnter; Call 0 SessionEnter; Call 0 SessionInitialize;
       Call 0 SessionListTools;
       Print ("Loaded " +:+ pretty 2%nat +:+ " MCP tools from "
                +:+ pretty 1%nat +:+ " servers.")]
      ++ [Print "Received: hello"] ++ [Call 0 SessionExit; Call 0 RwExit] /\
    objects w' !! 0%nat
    = Some (MkConnection (MCPConnectionStdio "server" None None) false false false) /\
    callbacks w' = [].
Proof.
  apply (opened_connection_released_once Cases.healthy Cases.show_config
           "server" None None
           [MkToolInfo "add" (Some "Adds two numbers") VNone;
            MkToolInfo "sub" None VNone]
           Cases.failing_body (Raises (Exn (Other "APIError") "overloaded"))
           [Print "Received: hello"]).
  - discriminate.
  - reflexivity.
  - intros mcp_tools w. reflexivity.
Defined.

(** The run of the scenarios whose server refuses the handshake. *)
Lemma failed_handshake_never_released_witness :
  exists w',
    run_scope Scenarios.refuses_handshake Cases.show_config
      [MkConfig None (Some "server") None None None None]
      (fun mcp_tools => mret mcp_tools) empty_world
    = (Returns [], w') /\
    log w'
    = [Call 0 RwEnter; Call 0 SessionEnter; Call 0 SessionInitialize;
       Print ("Error setting up MCP server "
                +:+ Cases.show_config (MkConfig None (Some "server") None None None None)
                +:+ ": " +:+ exn_str (Exn (Other "McpError") "handshake refused"));
       Print ("Loaded " +:+ pretty 0%nat +:+ " MCP tools from " +:+ pretty 1%nat
                +:+ " servers.")] /\
    callbacks w' = [].
Proof.
  apply (ConnectionFacts.failed_handshake_never_released Scenarios.refuses_handshake
           Cases.show_config "server" None None
           (Exn (Other "McpError") "handshake refused") None None (inr [])).
  - discriminate.
  - reflexivity.
Defined.

End ConnectionMore.

(* --------------------------------------------------------------------- *)
(** ** The agent's loop on a script *)
(* --------------------------------------------------------------------- *)

Module AgentLoopFacts.
Import Py Coro HistoryUtil AgentPy AgentLoop.

Section Loop.
Context {World : Type}.
Variable py_str : pyval -> string.
Variable tool_dict : gmap string (ToolUtil.Tool World).







End Loop.




End AgentLoopFacts.

(* --------------------------------------------------------------------- *)
(** ** Rendering an empty history *)
(* --------------------------------------------------------------------- *)

Module StoreMore.
Import Py Coro Store.

(** X27.  An empty history renders to a new empty list, with caching on or
    off: the marker step is skipped, no [IndexError] is raised, and
    no object of the store changes. *)
Theorem format_for_api_empty (σ : store) (self : MessageHistory) l :
  messages self = SRef l ->
  σ !! l = Some (OList []) ->
  format_for_api self σ
  = (Returns (SRef (fresh (dom σ))), <[fresh (dom σ) := OList []]> σ) /\
  σ !! fresh (dom σ) = None.
Proof.
  intros Hm Hl. split; [|apply StoreFacts.fresh_unused].
  unfold format_for_api, mbind, coro_bind, bind.
  rewrite Hm. cbn [as_list]. rewrite Hl. cbn [comprehension truthy].
  rewrite andb_false_r. reflexivity.
Qed.

Lemma format_for_api_empty_witness :
  format_for_api (MkHistory (SRef 0) true) {[ 0%nat := OList [] ]}
  = (Returns (SRef (fresh (dom ({[ 0%nat := OList [] ]} : store)))),
     <[fresh (dom ({[ 0%nat := OList [] ]} : store)) := OList []]>
       {[ 0%nat := OList [] ]}) /\
  ({[ 0%nat := OList [] ]} : store) !! fresh (dom ({[ 0%nat := OList [] ]} : store))
  = None.
Proof.
  apply (format_for_api_empty {[ 0%nat := OList [] ]} (MkHistory (SRef 0) true) 0%nat).
  - reflexivity.
  - reflexivity.
Defined.

End StoreMore.

(* --------------------------------------------------------------------- *)
(** ** The request: headers that cannot be merged *)
(* --------------------------------------------------------------------- *)

Module RequestMore.
Import Py HistoryUtil AgentPy.

(** An agent whose ["extra_headers"] is a string. *)
Lemma headers_not_a_mapping_witness :
  exists e,
    create_arguments
      (MkAgent "s" [] default_config {[ "extra_headers" := VStr "x-test: 1" ]}
         (init "m" "s" 30 0 true))
    = Raises e /\ exn_cls e = TypeError.
Proof.
  apply (RequestFacts.headers_not_a_mapping
           (MkAgent "s" [] default_config {[ "extra_headers" := VStr "x-test: 1" ]}
              (init "m" "s" 30 0 true))
           (VStr "x-test: 1")).
  - reflexivity.
  - discriminate.
Defined.

End RequestMore.

(* --------------------------------------------------------------------- *)
(** ** The registry: tools of the same name *)
(* --------------------------------------------------------------------- *)

Module RegistryFacts.
Import Py Coro Registry.

Section Registry.
Context {World : Type}.

Lemma registry_from (tools : list (string * ToolUtil.Tool World)) :
  forall (tool_dict : gmap string (ToolUtil.Tool World)) name,
    foldl (fun tool_dict tool => <[tool.1 := tool.2]> tool_dict) tool_dict tools !! name
    = match tool_dict_of tools !! name with
      | Some tool => Some tool
      | None => tool_dict !! name
      end.
Proof.
  induction tools as [|tool tools IH] using rev_ind; intros tool_dict name.
  - reflexivity.
  - unfold tool_dict_of. rewrite !foldl_app. cbn [foldl].
    destruct (decide (tool.1 = name)) as [<- | Hne].
    + rewrite !lookup_insert_eq. reflexivity.
    + rewrite !lookup_insert_ne by exact Hne. apply IH.
Qed.

(** X29.  The registry of a run is built from the agent's own tools
    followed by the MCP tools, and a later entry replaces an earlier
    one of the same name: under a name that an MCP tool has, the
    registry holds what the MCP tools alone give; under any other
    name, the agent's own tool of that name, if there is one. *)
Theorem mcp_tool_shadows_local (tools mcp_tools : list (string * ToolUtil.Tool World))
    name :
  tool_dict_of (extend tools mcp_tools) !! name
  = match tool_dict_of mcp_tools !! name with
    | Some tool => Some tool
    | None => tool_dict_of tools !! name
    end.
Proof.
  unfold extend. unfold tool_dict_of at 1. rewrite foldl_app.
  apply registry_from.
Qed.

End Registry.
End RegistryFacts.

(* --------------------------------------------------------------------- *)
(** ** Tasks awaited to their end *)
(* --------------------------------------------------------------------- *)

Module AioFacts.
Import Py Aio.

Section Completion.
Context {W : Type}.

Lemma complete_bind {A B : Type} (t : task W A) (k : A -> task W B) :
  forall w,
    complete (bind t k) w
    = match complete t w with
      | (Returned a, w') => complete (k a) w'
      | (Raised x, w') => (Raised x, w')
      end.
Proof.
  induction t as [[a | x] | effect next IH]; intros w; simpl; [reflexivity..|].
  apply IH.
Qed.

Lemma complete_try_except {A : Type} (t : task W A) (handler : exn -> task W A) :
  forall w,
    complete (try_except t handler) w
    = match complete t w with
      | (Raised (Error e), w') => complete (handler e) w'
      | other => other
      end.
Proof.
  induction t as [[a | [e | s]] | effect next IH]; intros w; simpl; [reflexivity..|].
  apply IH.
Qed.

Lemma complete_try_finally {A : Type} (t : task W A) (cleanup : task W unit) :
  forall w,
    complete (try_finally t cleanup) w
    = match complete t w with
      | (c, w') =>
          match complete cleanup w' with
          | (Returned _, w'') => (c, w'')
          | (Raised x, w'') => (Raised x, w'')
          end
      end.
Proof.
  induction t as [c | effect next IH]; intros w; simpl.
  - rewrite complete_bind. destruct (complete cleanup w) as [[[] | x] w']; reflexivity.
  - apply IH.
Qed.





End Completion.
End AioFacts.

(* --------------------------------------------------------------------- *)
(** ** The dispatcher on tasks: order, faults and signals *)
(* --------------------------------------------------------------------- *)

Module ToolUtilAioFacts.
Import Py Aio ToolUtil ToolUtilAio.

Section Dispatcher.
Context {World : Type}.
Variable py_str : pyval -> string.
Variable unpack_message : ToolUse -> string.






Lemma complete_single (call : ToolUse) (tool_dict : gmap string (Tool World)) w :
  complete (_execute_single_tool py_str unpack_message call tool_dict) w
  = match complete (call_tool unpack_message call tool_dict) w with
    | (Returned result, w') =>
        (Returned (<["content" := VStr (py_str result)]> (new_response call)), w')
    | (Raised (Error e), w') =>
        (Returned
           (<["is_error" := VBool true]>
              (<["content" :=
                   VStr (if is_KeyError e
                         then "Tool '" +:+ name call +:+ "' not found"
                         else "Error executing tool: " +:+ exn_str e)]>
                 (new_response call))), w')
    | (Raised (Signal s), w') => (Raised (Signal s), w')
    end.
Proof.
  unfold _execute_single_tool, mbind, task_bind, mret, task_ret.
  rewrite AioFacts.complete_try_except, AioFacts.complete_bind.
  destruct (complete (call_tool unpack_message call tool_dict) w)
    as [[result | [e | s]] w']; try reflexivity.
  destruct (is_KeyError e); reflexivity.
Qed.

(** X7.  A registered tool, called on a mapping, whose [execute]
    raises an instance of [Exception] that is no [KeyError]: the
    result reports the exception's text with the error flag, and the
    world is as the tool left it. *)
Theorem exception_reported (call : ToolUse) (tool_dict : gmap string (Tool World))
    execute kwargs e w w' :
  tool_dict !! name call = Some (Executable execute) ->
  input call = VDict kwargs ->
  complete (execute kwargs) w = (Raised (Error e), w') ->
  is_KeyError e = false ->
  complete (_execute_single_tool py_str unpack_message call tool_dict) w
  = (Returned (<["is_error" := VBool true]>
                 (<["content" := VStr ("Error executing tool: " +:+ exn_str e)]>
                    (new_response call))), w').
Proof.
  intros Htool Hinput Hrun Hcls.
  rewrite complete_single. unfold call_tool. rewrite Htool, Hinput, Hrun, Hcls.
  reflexivity.
Qed.

(** X9.  One call, awaited to its end.  It raises no instance of
    [Exception].  When it returns, the result has a type and a
    content, and its error flag is absent or [True]: absent exactly
    when the registry has a tool of that name with an [execute], the
    input is a mapping, and [execute] returned.  When a signal ends
    it, the signal is one that ended the tool's [execute]. *)
Theorem error_flag_marks_failure (call : ToolUse)
    (tool_dict : gmap string (Tool World)) w :
  match complete (_execute_single_tool py_str unpack_message call tool_dict) w with
  | (Returned r, w') =>
      r !! "type" = Some (VStr "tool_result") /\
      is_Some (r !! "content") /\
      (r !! "is_error" = None \/ r !! "is_error" = Some (VBool true)) /\
      (r !! "is_error" = None <->
       exists execute kwargs result,
         tool_dict !! name call = Some (Executable execute) /\
         input call = VDict kwargs /\
         complete (execute kwargs) w = (Returned result, w'))
  | (Raised (Error _), _) => False
  | (Raised (Signal s), w') =>
      exists execute kwargs,
        tool_dict !! name call = Some (Executable execute) /\
        input call = VDict kwargs /\
        complete (execute kwargs) w = (Raised (Signal s), w')
  end.
Proof.
  rewrite complete_single. unfold call_tool.
  assert (Hflagged : forall text w',
    let r := <["is_error" := VBool true]>
               (<["content" := VStr text]> (new_response call)) in
    (forall execute kwargs result,
       tool_dict !! name call = Some (Executable execute) ->
       input call = VDict kwargs ->
       complete (execute kwargs) w = (Returned result, w') -> False) ->
    r !! "type" = Some (VStr "tool_result") /\
    is_Some (r !! "content") /\
    (r !! "is_error" = None \/ r !! "is_error" = Some (VBool true)) /\
    (r !! "is_error" = None <->
     exists execute kwargs result,
       tool_dict !! name call = Some (Executable execute) /\
       input call = VDict kwargs /\
       complete (execute kwargs) w = (Returned result, w'))).
  { intros text w' r Hnot. subst r. unfold new_response.
    split; [simplify_map_eq; reflexivity|].
    split; [simplify_map_eq; eauto|].
    split; [right; simplify_map_eq; reflexivity|].
    split; [intros Hflag; simplify_map_eq|].
    intros (execute & kwargs & result & H1 & H2 & H3). exfalso. eauto. }
  destruct (tool_dict !! name call) as [[execute | cls]|] eqn:Htool; simpl.
  - destruct (input call) as [| | | | |xs|kwargs] eqn:Hinput; simpl;
      try (apply Hflagged; intros ? ? ? ? ?; discriminate).
    destruct (complete (execute kwargs) w) as [[result | [e | s]] w'] eqn:Hrun.
    + unfold new_response.
      split; [simplify_map_eq; reflexivity|].
      split; [simplify_map_eq; eauto|].
      split; [left; simplify_map_eq; reflexivity|].
      split; [intros _; eauto 6 | intros _; simplify_map_eq; reflexivity].
    + apply Hflagged. intros execute' kwargs' result' [= <-] [= <-] Hrun'.
      congruence.
    + eauto.
  - apply Hflagged. intros ? ? ? ?; discriminate.
  - apply Hflagged. intros ? ? ? ?; discriminate.
Qed.

(** The dispatcher of [ToolUtil] is this one on tools that run in
    one piece and raise instances of [Exception] only, called on a
    mapping. *)
Lemma restriction_agrees (call : ToolUse)
    (tool_dict : gmap string (ToolUtil.Tool World)) kwargs w :
  input call = VDict kwargs ->
  complete (_execute_single_tool py_str unpack_message call (lift_tool <$> tool_dict)) w
  = (match (ToolUtil._execute_single_tool py_str call tool_dict w).1 with
     | Returns r => Returned r
     | Raises e => Raised (Error e)
     end,
     (ToolUtil._execute_single_tool py_str call tool_dict w).2).
Proof.
  intros Hinput. rewrite complete_single. unfold call_tool.
  rewrite lookup_fmap.
  unfold ToolUtil._execute_single_tool, Coro.try_except, ToolUtil.call_tool,
    mbind, Coro.coro_bind, Coro.bind.
  destruct (tool_dict !! name call) as [[execute | cls]|]; simpl.
  - rewrite Hinput. simpl.
    destruct (execute (VDict kwargs) w) as [[result | e] w']; simpl; [reflexivity|].
    destruct (is_KeyError e); reflexivity.
  - reflexivity.
  - reflexivity.
Qed.

End Dispatcher.


(** The tool of the cases that raises a [ValueError]. *)
Lemma exception_reported_witness :
  complete (_execute_single_tool Scenarios.str_of Cases.unpack_text
              Cases.call_breaks Cases.suspended) 0%nat
  = (Returned (<["is_error" := VBool true]>
                 (<["content" := VStr "Error executing tool: bad argument"]>
                    (new_response Cases.call_breaks))), 1%nat).
Proof.
  apply (exception_reported Scenarios.str_of Cases.unpack_text
           Cases.call_breaks Cases.suspended
           (fun _ => Run S (fun _ => Finish (Raised (Error (Exn ValueError "bad argument")))))
           ∅ (Exn ValueError "bad argument") 0%nat 1%nat).
  - reflexivity.
  - reflexivity.
  - reflexivity.
  - reflexivity.
Defined.

End ToolUtilAioFacts.

(* --------------------------------------------------------------------- *)
(** ** MCP tools on tasks *)
(* --------------------------------------------------------------------- *)

Module McpToolAioFacts.
Import Py Aio McpTool McpToolAio.

Section Execute.
Context {World : Type}.
Variable call_tool : string -> gmap string pyval -> task World call_result.

(** X11.  [MCPTool.execute], awaited to its end, raises no instance of
    [Exception].  It returns the text of the first text item of the
    reply; the notice that there is none when the reply has no
    content, an empty content or no text item; and the text of the
    error when the call on the connection raised an instance of
    [Exception].  A signal that ends the call on the connection is not
    caught and ends [execute].  The world is left as the call left
    it. *)
Theorem execute_text_or_signal (name : string) (kwargs : gmap string pyval)
    (w : World) :
  complete (execute call_tool name kwargs) w
  = (match (complete (call_tool name kwargs) w).1 with
     | Returned r =>
         Returned (VStr (default NO_TEXT (result_content r ≫= first_text)))
     | Raised (Error e) =>
         Returned (VStr ("Error executing " +:+ name +:+ ": " +:+ exn_str e))
     | Raised (Signal s) => Raised (Signal s)
     end,
     (complete (call_tool name kwargs) w).2).
Proof.
  unfold execute, mbind, task_bind.
  rewrite AioFacts.complete_try_except, AioFacts.complete_bind.
  destruct (complete (call_tool name kwargs) w) as [[r | [e | s]] w'];
    [|reflexivity..].
  cbn [fst snd].
  destruct (result_content r) as [[|item content]|]; [reflexivity| |reflexivity].
  cbn [truthy option_bind mbind default].
  destruct (first_text (item :: content)); reflexivity.
Qed.

End Execute.
End McpToolAioFacts.

(* --------------------------------------------------------------------- *)
(** ** Connections on tasks: every behaviour of the library *)
(* --------------------------------------------------------------------- *)

Module ConnectionsAioFacts.
Import Py Aio.
Import Connections ConnectionsAio.

Ltac count_exit_calls :=
  unfold calls_of;
  repeat first [ rewrite filter_cons_True by reflexivity
               | rewrite filter_cons_False by discriminate ];
  rewrite ?filter_nil; simpl; lia.

Ltac exit_events_only :=
  repeat (apply Forall_cons_2; [eauto|]); apply Forall_nil_2.

Section Run.
Variable server : transport -> remote.
Variable repr_config : server_config -> string.

Lemma aexit_cases self w :
  exists r events,
    complete (__aexit__ server self) w
    = (r,
       MkWorld (<[self := MkConnection (kind (objects w !!! self)) false false false]>
                  (objects w))
         (log w ++ events) (callbacks w)) /\
    Forall (fun ev => ev = Call self SessionExit \/ ev = Call self RwExit \/
                      exists line, ev = Print line) events /\
    (calls_of self SessionExit events <= 1)%nat /\
    (calls_of self RwExit events <= 1)%nat /\
    (forall e, r <> Raised (Error e)) /\
    (forall s,
       r = Raised (Signal s) ->
       (_session_ctx (objects w !!! self) = true /\
        on_call (server (kind (objects w !!! self))) SessionExit = Raised (Signal s) /\
        calls_of self RwExit events = 0%nat) \/
       (_rw_ctx (objects w !!! self) = true /\
        on_call (server (kind (objects w !!! self))) RwExit = Raised (Signal s))) /\
    ((forall o s, on_call (server (kind (objects w !!! self))) o <> Raised (Signal s)) ->
     r = Returned ()).
Proof.
  unfold __aexit__, release, behaviour, external, get, emit, update.
  unfold mbind, task_bind, mret, task_ret. simpl.
  destruct (_session_ctx (objects w !!! self)) eqn:Es,
    (_rw_ctx (objects w !!! self)) eqn:Er;
    destruct (on_call (server (kind (objects w !!! self))) SessionExit)
       as [[] | [e1 | s1]] eqn:H1;
    destruct (on_call (server (kind (objects w !!! self))) RwExit)
           as [[] | [e2 | s2]] eqn:H2;
    simpl; rewrite ?Es, ?Er, ?H1, ?H2; simpl; rewrite ?Es, ?Er, ?H1, ?H2; simpl;
    rewrite <- ?app_assoc; simpl.
  all: eexists _, _; (split; [first [reflexivity | rewrite app_nil_r; reflexivity]|]).
  all: split; [exit_events_only|].
  all: split; [count_exit_calls|].
  all: split; [count_exit_calls|].
  all: split; [discriminate|].
  all: split.
  all: try (intros Hq; first [reflexivity | exfalso; eapply Hq; eassumption]).
  all: intros s [= <-].
  all: first [left; split; [reflexivity|]; split;
                [first [assumption | reflexivity] | count_exit_calls]
             | right; split; [reflexivity | first [assumption | reflexivity]]].
Qed.


(** X14.  Leaving a connection, under every behaviour of the library.
    The [finally] clause always clears the three attributes; no other
    object and no callback changes; the calls made are exit calls on
    this connection, at most one per context.  No instance of
    [Exception] leaves the call.  A signal leaves it only when an exit
    call was ended by that signal, and when that was the exit of the
    session the transport channel is not left; with no signal the call
    returns. *)
Theorem aexit_clears_connection self c w :
  objects w !! self = Some c ->
  exists r w' events,
    complete (__aexit__ server self) w = (r, w') /\
    objects w' = <[self := MkConnection (kind c) false false false]> (objects w) /\
    callbacks w' = callbacks w /\
    log w' = log w ++ events /\
    (calls_of self SessionExit events <= 1)%nat /\
    (calls_of self RwExit events <= 1)%nat /\
    (forall other o, Call other o ∈ events ->
       other = self /\ (o = SessionExit \/ o = RwExit)) /\
    (forall e, r <> Raised (Error e)) /\
    (forall s,
       r = Raised (Signal s) ->
       (_session_ctx c = true /\
        on_call (server (kind c)) SessionExit = Raised (Signal s) /\
        calls_of self RwExit events = 0%nat) \/
       (_rw_ctx c = true /\ on_call (server (kind c)) RwExit = Raised (Signal s))) /\
    ((forall o s, on_call (server (kind c)) o <> Raised (Signal s)) ->
     r = Returned ()).
Proof.
  intros Hc.
  destruct (aexit_cases self w)
    as (r & events & Hrun & Hevents & Hse & Hrw & Herr & Hsig & Hret).
  rewrite (lookup_total_correct _ _ _ Hc) in Hrun, Hsig, Hret.
  eexists r, _, events. split; [exact Hrun|]. cbn [objects log callbacks].
  do 5 (split; [first [reflexivity | assumption]|]).
  split; [|auto].
  intros other o Hin.
  rewrite Forall_forall in Hevents.
  destruct (Hevents _ Hin) as [Heq | [Heq | [line Heq]]];
    [injection Heq as -> -> | injection Heq as -> -> | discriminate]; auto.
Qed.

(** X17.  [__aenter__] under every behaviour of the library.  When the
    read/write context cannot be created, what that raised leaves the
    call and no call on the library is made.  Otherwise the calls are
    the three opening calls in their order, up to and including the
    first that raises, and what it raised leaves the call; the call
    returns when all three returned.  No exit call is made, no
    callback is pushed, and no other object changes. *)
Theorem aenter_opens_in_order self c w :
  objects w !! self = Some c ->
  exists w',
    complete (__aenter__ server self) w = ((opening (server (kind c))).1, w') /\
    log w' = log w ++ (Call self <$> (opening (server (kind c))).2) /\
    callbacks w' = callbacks w /\
    (forall other, other <> self -> objects w' !! other = objects w !! other).
Proof.
  intros Hc.
  unfold __aenter__, behaviour, external, get, emit, update, opening.
  unfold mbind, task_bind, mret, task_ret. simpl.
  rewrite (lookup_total_correct _ _ _ Hc).
  destruct (on_create (server (kind c))) as [[] | x0]; simpl.
  2: { eexists. split; [reflexivity|]. simpl. rewrite app_nil_r. auto. }
  destruct (on_call (server (kind c)) RwEnter) as [[] | x1]; simpl.
  2: { eexists. split; [reflexivity|]. simpl. split; [reflexivity|].
       split; [reflexivity|]. intros other Hne. apply lookup_insert_ne. congruence. }
  destruct (on_call (server (kind c)) SessionEnter) as [[] | x2]; simpl.
  2: { eexists. split; [reflexivity|]. simpl. rewrite <- !app_assoc.
       split; [reflexivity|]. split; [reflexivity|]. intros other Hne.
       rewrite !lookup_insert_ne by congruence. reflexivity. }
  eexists. split; [reflexivity|]. simpl. rewrite <- !app_assoc.
  split; [reflexivity|]. split; [reflexivity|]. intros other Hne.
  rewrite !lookup_insert_ne by congruence. reflexivity.
Qed.

(** X18.  [create_mcp_connection] makes no call on the library and
    prints nothing.  It returns a new object, distinct from every
    existing one, with its three attributes [None]; or it raises a
    [ValueError] or, exactly when the value of ["type"] is present and
    no string, an [AttributeError], and leaves the world as it was. *)
Theorem create_connection_outcomes config w :
  match complete (create_mcp_connection config) w with
  | (Returned self, w') =>
      objects w !! self = None /\
      exists t,
        w' = MkWorld (<[self := MkConnection t false false false]> (objects w))
               (log w) (callbacks w)
  | (Raised (Error e), w') =>
      w' = w /\
      (exn_cls e = ValueError \/ exn_cls e = AttributeError) /\
      (exn_cls e = AttributeError <->
       exists v, cfg_type config = Some v /\ forall s, v <> VStr s)
  | (Raised (Signal _), _) => False
  end.
Proof.
  assert (Hnew : forall t,
    match complete (new_connection t) w with
    | (Returned self, w') =>
        objects w !! self = None /\
        exists t,
          w' = MkWorld (<[self := MkConnection t false false false]> (objects w))
                 (log w) (callbacks w)
    | (Raised (Error e), w') =>
        w' = w /\
        (exn_cls e = ValueError \/ exn_cls e = AttributeError) /\
        (exn_cls e = AttributeError <->
         exists v, cfg_type config = Some v /\ forall s, v <> VStr s)
    | (Raised (Signal _), _) => False
    end).
  { intros t. simpl. split.
    - apply not_elem_of_dom, is_fresh.
    - exists t. reflexivity. }
  unfold create_mcp_connection.
  destruct (cfg_type config) as [v|] eqn:Hcfg;
    cbv beta iota zeta delta [default from_option id].
  - destruct v as [| | | |conn_type| |];
      try (simpl; split; [reflexivity|]; split; [right; reflexivity|];
           split; [intros _; eexists; split; [reflexivity | discriminate]
                  | reflexivity]).
    assert (Hvalue : forall text,
      w = w /\
      (exn_cls (Exn ValueError text) = ValueError \/
       exn_cls (Exn ValueError text) = AttributeError) /\
      (exn_cls (Exn ValueError text) = AttributeError <->
       exists v, Some (VStr conn_type) = Some v /\ forall s, v <> VStr s)).
    { intros text. split; [reflexivity|]. split; [left; reflexivity|].
      split; [discriminate|]. intros (v & [= <-] & Hnot). exfalso.
      eapply Hnot. reflexivity. }
    cbv beta iota zeta. destruct (String.eqb (lower conn_type) "stdio").
    + destruct (missing (cfg_command config)); [simpl; apply (Hvalue "") | apply Hnew].
    + destruct (String.eqb _ "sse").
      * destruct (missing (cfg_url config)); [simpl; apply (Hvalue "") | apply Hnew].
      * simpl; apply (Hvalue "").
  - assert (Hvalue : forall text,
      w = w /\
      (exn_cls (Exn ValueError text) = ValueError \/
       exn_cls (Exn ValueError text) = AttributeError) /\
      (exn_cls (Exn ValueError text) = AttributeError <->
       exists v, @None pyval = Some v /\ forall s, v <> VStr s)).
    { intros text. split; [reflexivity|]. split; [left; reflexivity|].
      split; [discriminate|]. intros (v & Hv & _). discriminate. }
    cbv beta iota zeta. destruct (String.eqb (lower "stdio") "stdio").
    + destruct (missing (cfg_command config)); [simpl; apply (Hvalue "") | apply Hnew].
    + destruct (String.eqb _ "sse").
      * destruct (missing (cfg_url config)); [simpl; apply (Hvalue "") | apply Hnew].
      * simpl; apply (Hvalue "").
Qed.


Lemma complete_attempt {A : Type} (t : task world A) :
  forall w,
    complete (attempt t) w
    = (Returned (match (complete t w).1 with
                 | Returned _ => None
                 | Raised x => Some x
                 end),
       (complete t w).2).
Proof.
  induction t as [[a | x] | effect next IH]; intros w; simpl; [reflexivity..|].
  apply IH.
Qed.

Lemma create_frame config w :
  callbacks (complete (create_mcp_connection config) w).2 = callbacks w /\
  forall s, (complete (create_mcp_connection config) w).1 <> Raised (Signal s).
Proof.
  unfold create_mcp_connection.
  destruct (default (VStr "stdio") (cfg_type config));
    try (split; [reflexivity | discriminate]).
  cbv zeta. destruct (String.eqb _ "stdio").
  - destruct (missing (cfg_command config)); split; first [reflexivity | discriminate].
  - destruct (String.eqb _ "sse"); [|split; [reflexivity | discriminate]].
    destruct (missing (cfg_url config)); split; first [reflexivity | discriminate].
Qed.

Lemma aenter_frame self w :
  callbacks (complete (__aenter__ server self) w).2 = callbacks w /\
  (silent server ->
   forall s, (complete (__aenter__ server self) w).1 <> Raised (Signal s)).
Proof.
  unfold __aenter__, behaviour, external, get, emit, update.
  unfold mbind, task_bind, mret, task_ret. simpl.
  set (srv := server (kind (objects w !!! self))).
  assert (Hsilent : silent server ->
            forall s, on_create srv <> Raised (Signal s) /\
                      forall o, on_call srv o <> Raised (Signal s)).
  { intros Hs s. destruct (Hs (kind (objects w !!! self)) s) as (H1 & H2 & _).
    split; assumption. }
  destruct (on_create srv) as [[] | x0] eqn:H0; simpl.
  2: { split; [reflexivity|]. intros Hs s [= ->]. eapply (proj1 (Hsilent Hs s)). reflexivity. }
  destruct (on_call srv RwEnter) as [[] | x1] eqn:H1; simpl.
  2: { split; [reflexivity|]. intros Hs s [= ->]. eapply (proj2 (Hsilent Hs s)), H1. }
  destruct (on_call srv SessionEnter) as [[] | x2] eqn:H2; simpl.
  2: { split; [reflexivity|]. intros Hs s [= ->]. eapply (proj2 (Hsilent Hs s)), H2. }
  destruct (on_call srv SessionInitialize) as [[] | x3] eqn:H3; simpl.
  2: { split; [reflexivity|]. intros Hs s [= ->]. eapply (proj2 (Hsilent Hs s)), H3. }
  split; [reflexivity | discriminate].
Qed.

Lemma list_tools_frame self w :
  callbacks (complete (list_tools server self) w).2 = callbacks w /\
  (silent server ->
   forall s, (complete (list_tools server self) w).1 <> Raised (Signal s)).
Proof.
  unfold list_tools, behaviour, get, emit.
  unfold mbind, task_bind, mret, task_ret. simpl.
  destruct (session (objects w !!! self)); simpl; [|split; [reflexivity | discriminate]].
  split; [reflexivity|]. intros Hs s Heq.
  destruct (Hs (kind (objects w !!! self)) s) as (_ & _ & H3). apply H3, Heq.
Qed.

(** One pass of the loop body: at most one connection is pushed on the
    exit stack, and the tools returned refer to it. *)
Lemma connect_one_cases config w :
  exists r w' opened,
    complete (connect_one server config) w = (r, w') /\
    callbacks w' = opened ++ callbacks w /\
    (forall mcp_tools, r = Returned mcp_tools ->
                       forall t, t ∈ mcp_tools -> tool_connection t ∈ opened) /\
    (silent server -> forall s, r <> Raised (Signal s)).
Proof.
  unfold connect_one, mbind, task_bind, mret, task_ret.
  rewrite AioFacts.complete_bind.
  destruct (create_frame config w) as [Hcb0 Hs0].
  destruct (complete (create_mcp_connection config) w) as [[connection | x] w1];
    cbn [fst snd] in Hcb0, Hs0.
  2: { exists (Raised x), w1, []. split; [reflexivity|]. split; [exact Hcb0|].
       split; [discriminate|]. intros _ s [= ->]. eapply Hs0. reflexivity. }
  cbv beta. rewrite AioFacts.complete_bind. unfold enter_async_context, mbind, task_bind.
  rewrite AioFacts.complete_bind.
  destruct (aenter_frame connection w1) as [Hcb1 Hs1].
  destruct (complete (__aenter__ server connection) w1) as [[[] | x] w2];
    cbn [fst snd] in Hcb1, Hs1.
  2: { exists (Raised x), w2, []. split; [reflexivity|].
       split; [simpl; congruence|]. split; [discriminate|].
       intros Hs s [= ->]. eapply Hs1; [exact Hs | reflexivity]. }
  cbv beta. unfold push_async_exit, ret. cbn [complete]. cbv beta iota.
  rewrite AioFacts.complete_bind.
  destruct (list_tools_frame connection
              (MkWorld (objects w2) (log w2) (connection :: callbacks w2)))
    as [Hcb2 Hs2].
  destruct (complete (list_tools server connection) _) as [[listed | x] w3];
    cbn [fst snd callbacks] in Hcb2, Hs2.
  - eexists (Returned _), w3, [connection]. split; [reflexivity|].
    split; [simpl; congruence|]. split; [|discriminate].
    intros mcp_tools [= <-] t Ht.
    apply list_elem_of_fmap in Ht as (info & -> & _).
    simpl. apply list_elem_of_singleton. reflexivity.
  - exists (Raised x), w3, [connection]. split; [reflexivity|].
    split; [simpl; congruence|]. split; [discriminate|].
    intros Hs s [= ->]. eapply Hs2; [exact Hs | reflexivity].
Qed.

Lemma setup_loop_cases mcp_servers :
  forall mcp_tools w,
    exists r w' opened,
      complete (setup_loop server repr_config mcp_servers mcp_tools) w = (r, w') /\
      callbacks w' = opened ++ callbacks w /\
      (forall e, r <> Raised (Error e)) /\
      (forall result, r = Returned result ->
         exists found,
           result = mcp_tools ++ found /\
           forall t, t ∈ found -> tool_connection t ∈ opened) /\
      (silent server -> exists result, r = Returned result).
Proof.
  induction mcp_servers as [|config rest IH]; intros mcp_tools w.
  - exists (Returned mcp_tools), w, []. split; [reflexivity|]. split; [reflexivity|].
    split; [discriminate|]. split; [|eauto].
    intros result [= <-]. exists []. rewrite app_nil_r. split; [reflexivity|].
    intros t Ht. apply elem_of_nil in Ht as [].
  - cbn [setup_loop]. unfold mbind, task_bind.
    rewrite AioFacts.complete_bind, AioFacts.complete_try_except.
    destruct (connect_one_cases config w) as (r & w1 & opened & -> & Hcb & Htools & Hs).
    destruct r as [tools | [e | s]].
    + destruct (IH (mcp_tools ++ tools) w1)
        as (r' & w' & opened' & -> & Hcb' & Herr & Hfound & Hret).
      exists r', w', (opened' ++ opened). split; [reflexivity|].
      split; [rewrite Hcb', Hcb, app_assoc; reflexivity|].
      split; [exact Herr|]. split; [|exact Hret].
      intros result Hr. destruct (Hfound result Hr) as (found & -> & Hin).
      exists (tools ++ found). rewrite app_assoc. split; [reflexivity|].
      intros t Ht. apply elem_of_app.
      apply elem_of_app in Ht as [Ht | Ht]; [right | left]; eauto.
    + unfold emit, mret, task_ret, ret. cbn [bind complete].
      destruct (IH (mcp_tools ++ [])
                  (MkWorld (objects w1)
                     (log w1 ++ [Print ("Error setting up MCP server "
                                          +:+ repr_config config +:+ ": " +:+ exn_str e)])
                     (callbacks w1)))
        as (r' & w' & opened' & -> & Hcb' & Herr & Hfound & Hret).
      exists r', w', (opened' ++ opened). split; [reflexivity|].
      split; [rewrite Hcb'; cbn [callbacks]; rewrite Hcb, app_assoc; reflexivity|].
      split; [exact Herr|]. split; [|exact Hret].
      intros result Hr. destruct (Hfound result Hr) as (found & -> & Hin).
      exists found. rewrite app_nil_r. split; [reflexivity|].
      intros t Ht. apply elem_of_app. left. eauto.
    + exists (Raised (Signal s)), w1, opened. split; [reflexivity|].
      split; [exact Hcb|]. split; [discriminate|]. split; [discriminate|].
      intros Hsilent. exfalso. eapply Hs; [exact Hsilent | reflexivity].
Qed.

Lemma setup_cases mcp_servers w :
  exists r w' opened,
    complete (setup_mcp_connections server repr_config mcp_servers) w = (r, w') /\
    callbacks w' = opened ++ callbacks w /\
    (forall e, r <> Raised (Error e)) /\
    (forall mcp_tools, r = Returned mcp_tools ->
                       forall t, t ∈ mcp_tools -> tool_connection t ∈ opened) /\
    (silent server -> exists mcp_tools, r = Returned mcp_tools).
Proof.
  unfold setup_mcp_connections.
  destruct (truthy mcp_servers).
  - unfold mbind, task_bind. rewrite AioFacts.complete_bind.
    destruct (setup_loop_cases mcp_servers [] w)
      as (r & w' & opened & -> & Hcb & Herr & Hfound & Hret).
    destruct r as [result | x].
    + unfold emit, mret, task_ret, ret. cbn [bind complete].
      eexists (Returned result), _, opened. split; [reflexivity|].
      split; [exact Hcb|]. split; [discriminate|]. split; [|eauto].
      intros mcp_tools [= <-] t Ht.
      destruct (Hfound result eq_refl) as (found & -> & Hin). apply Hin, Ht.
    + exists (Raised x), w', opened. split; [reflexivity|]. split; [exact Hcb|].
      split; [exact Herr|]. split; [discriminate|]. exact Hret.
  - exists (Returned []), w, []. split; [reflexivity|]. split; [reflexivity|].
    split; [discriminate|]. split; [|eauto].
    intros mcp_tools [= <-] t Ht. apply elem_of_nil in Ht as [].
Qed.

(** X19.  [setup_mcp_connections] under every behaviour of the
    library.  No instance of [Exception] leaves it: a server that
    fails costs its tools only.  It returns unless a call on the
    library is ended by a signal, which leaves the call.  Every tool
    returned refers to a connection whose [__aexit__] the call pushed
    on the exit stack, above the callbacks that were there; on an
    empty list it returns the empty list and changes nothing. *)
Theorem setup_lets_signals_through mcp_servers w :
  exists r w' opened,
    complete (setup_mcp_connections server repr_config mcp_servers) w = (r, w') /\
    callbacks w' = opened ++ callbacks w /\
    (forall e, r <> Raised (Error e)) /\
    (forall mcp_tools, r = Returned mcp_tools ->
                       forall t, t ∈ mcp_tools -> tool_connection t ∈ opened) /\
    (silent server -> exists mcp_tools, r = Returned mcp_tools) /\
    (mcp_servers = [] -> r = Returned [] /\ w' = w).
Proof.
  destruct (setup_cases mcp_servers w)
    as (r & w' & opened & Hrun & Hcb & Herr & Htools & Hret).
  exists r, w', opened. do 5 (split; [assumption|]).
  intros ->. cbn in Hrun. injection Hrun as <- <-. split; reflexivity.
Qed.

(** Unwinding the exit stack: every callback is awaited, whatever the
    others raised. *)
Lemma unwind_cases cms :
  forall pending w,
    exists r w',
      complete (unwind server cms pending) w = (r, w') /\
      callbacks w' = callbacks w /\
      (forall x c, objects w !! x = Some c ->
         objects w' !! x
         = Some (if decide (x ∈ cms) then MkConnection (kind c) false false false
                 else c)) /\
      (forall e, r = Raised (Error e) -> pending = Some (Error e)) /\
      (silent server ->
       r = match pending with Some x => Raised x | None => Returned () end).
Proof.
  induction cms as [|cm rest IH]; intros pending w.
  - exists (match pending with Some x => Raised x | None => Returned () end), w.
    split; [destruct pending; reflexivity|]. split; [reflexivity|].
    split; [|split; [|reflexivity]].
    + intros x c Hx. rewrite decide_False by apply not_elem_of_nil. exact Hx.
    + intros e He. destruct pending; [congruence | discriminate].
  - cbn [unwind]. unfold mbind, task_bind.
    rewrite AioFacts.complete_bind, complete_attempt.
    destruct (aexit_cases cm w) as (r0 & events & -> & _ & _ & _ & Herr0 & _ & Hret0).
    cbn [fst snd].
    destruct (IH (match match r0 with Returned _ => None | Raised x => Some x end with
                  | Some x => Some x
                  | None => pending
                  end)
                (MkWorld (<[cm := MkConnection (kind (objects w !!! cm))
                                   false false false]> (objects w))
                   (log w ++ events) (callbacks w)))
      as (r & w' & -> & Hcb & Hobj & Herr & Hret).
    exists r, w'. split; [reflexivity|]. split; [exact Hcb|]. split; [|split].
    + intros x c Hx. cbn [objects] in Hobj.
      destruct (decide (x = cm)) as [-> | Hne].
      * rewrite (lookup_total_correct _ _ _ Hx) in Hobj.
        rewrite (Hobj cm _ (lookup_insert_eq _ _ _)).
        rewrite (decide_True (P := cm ∈ cm :: rest)) by apply list_elem_of_here.
        destruct (decide (cm ∈ rest)); reflexivity.
      * rewrite (Hobj x c) by (rewrite lookup_insert_ne by congruence; exact Hx).
        destruct (decide (x ∈ rest)) as [Hin | Hnin].
        -- rewrite decide_True by (apply list_elem_of_further; exact Hin). reflexivity.
        -- rewrite decide_False; [reflexivity|].
           intros Hin. apply elem_of_cons in Hin as [? | ?]; contradiction.
    + intros e He. specialize (Herr e He).
      destruct r0 as [[] | [e0 | s0]]; [exact Herr | | discriminate].
      exfalso. eapply Herr0. reflexivity.
    + intros Hs. rewrite (Hret Hs).
      rewrite Hret0; [reflexivity|].
      intros o s. apply (Hs (kind (objects w !!! cm)) s).
Qed.

(** X20.  Leaving the exit stack, under every behaviour of the
    library: every callback is awaited, so every connection on the
    stack has its attributes cleared and every other object is
    untouched, and the stack is empty.  No instance of [Exception]
    leaves the call, and it returns when no exit call is ended by a
    signal. *)
Theorem stack_aexit_clears w :
  exists r w',
    complete (stack_aexit server) w = (r, w') /\
    callbacks w' = [] /\
    (forall x c, objects w !! x = Some c ->
       objects w' !! x
       = Some (if decide (x ∈ callbacks w) then MkConnection (kind c) false false false
               else c)) /\
    (forall e, r <> Raised (Error e)) /\
    (silent server -> r = Returned ()).
Proof.
  unfold stack_aexit. cbn [complete].
  destruct (unwind_cases (callbacks w) None (MkWorld (objects w) (log w) []))
    as (r & w' & Hrun & Hcb & Hobj & Herr & Hret).
  exists r, w'. split; [exact Hrun|]. split; [exact Hcb|]. split; [exact Hobj|].
  split; [|exact Hret].
  intros e He. specialize (Herr e He). discriminate.
Qed.

(** X21.  The connection scope of a run, under every behaviour of the
    library: the exit stack is empty afterwards; and when no call on
    the library is ended by a signal, the setup returns and the
    scope has the outcome of its body, value or exception. *)
Theorem run_scope_outcome {A : Type} mcp_servers
    (body : list MCPTool -> task world A) w :
  exists r w',
    complete (run_scope server repr_config mcp_servers body) w = (r, w') /\
    callbacks w' = [] /\
    (silent server ->
     exists mcp_tools w1,
       complete (setup_mcp_connections server repr_config mcp_servers) w
       = (Returned mcp_tools, w1) /\
       r = (complete (body mcp_tools) w1).1).
Proof.
  unfold run_scope, mbind, task_bind.
  rewrite AioFacts.complete_try_finally, AioFacts.complete_bind.
  destruct (setup_cases mcp_servers w) as (r0 & w1 & opened & -> & _ & _ & _ & Hret0).
  assert (Hexit : forall (c : completion A) w2,
    exists r w',
      (match complete (stack_aexit server) w2 with
       | (Returned _, w'') => (c, w'')
       | (Raised x, w'') => (Raised x, w'')
       end) = (r, w') /\
      callbacks w' = [] /\ (silent server -> r = c)).
  { intros c w2. unfold stack_aexit. cbn [complete].
    destruct (unwind_cases (callbacks w2) None (MkWorld (objects w2) (log w2) []))
      as (r & w' & -> & Hcb & _ & _ & Hret).
    destruct r as [[] | x].
    - exists c, w'. split; [reflexivity|]. split; [exact Hcb | reflexivity].
    - exists (Raised x), w'. split; [reflexivity|]. split; [exact Hcb|].
      intros Hs. specialize (Hret Hs). discriminate. }
  destruct r0 as [mcp_tools | x].
  - destruct (complete (body mcp_tools) w1) as [c w2] eqn:Hbody.
    destruct (Hexit c w2) as (r & w' & -> & Hcb & Hret).
    exists r, w'. split; [reflexivity|]. split; [exact Hcb|].
    intros Hs. exists mcp_tools, w1. split; [reflexivity|].
    rewrite Hbody. apply Hret, Hs.
  - destruct (Hexit (Raised x) w1) as (r & w' & -> & Hcb & _).
    exists r, w'. split; [reflexivity|]. split; [exact Hcb|].
    intros Hs. destruct (Hret0 Hs) as [mcp_tools Hr]. discriminate.
Qed.

End Run.

(** The connection of the cases is left while the exit of its session
    is cancelled: the signal leaves [__aexit__], the attributes are
    cleared, and the transport channel is not left. *)
Lemma aexit_clears_connection_witness :
  exists w' events,
    complete (__aexit__ Cases.cancelled_on_exit 0%nat) Cases.entered_world
    = (Raised (Signal CancelledError), w') /\
    objects w' !! 0%nat
    = Some (MkConnection Cases.listed_transport false false false) /\
    log w' = log Cases.entered_world ++ events /\
    calls_of 0 RwExit events = 0%nat.
Proof.
  destruct (aexit_clears_connection Cases.cancelled_on_exit 0%nat
              (MkConnection Cases.listed_transport true true true)
              Cases.entered_world eq_refl)
    as (r & w' & events & Hrun & Hobj & _ & Hlog & _ & _ & _ & _ & Hsig & _).
  assert (Hr : r = Raised (Signal CancelledError)).
  { vm_compute in Hrun. congruence. }
  subst r. exists w', events. split; [exact Hrun|].
  split; [rewrite Hobj; apply lookup_insert_eq|]. split; [exact Hlog|].
  destruct (Hsig CancelledError eq_refl) as [(_ & _ & Hnone) | (_ & Hrw)];
    [exact Hnone | discriminate].
Defined.

(** The connection of the cases is opened against a library that
    refuses the session: two calls, and the error leaves. *)
Lemma aenter_opens_in_order_witness :
  exists w',
    complete (__aenter__ Cases.session_refused 0%nat) Cases.fresh_world
    = (Raised (Error (Exn (Other "McpError") "connection closed")), w') /\
    log w' = log Cases.fresh_world ++ [Call 0 RwEnter; Call 0 SessionEnter] /\
    callbacks w' = callbacks Cases.fresh_world /\
    (forall other, other <> 0%nat ->
                   objects w' !! other = objects Cases.fresh_world !! other).
Proof.
  apply (aenter_opens_in_order Cases.session_refused 0%nat
           (MkConnection Cases.listed_transport false false false) Cases.fresh_world).
  reflexivity.
Defined.

End ConnectionsAioFacts.
